(** * Clutch: cellular threat detection and correlation

    A shallow embedding of the detector and server code of the repository:

    - [Monitor]   : [cellular_security.py]  (tower registry, encryption
                    transition detector),
    - [Advanced]  : [advanced_cellular_security.py]  (timing-advance,
                    protocol, frequency and power detectors),
    - [Server]    : [cellular_remote_server.py]  (registration, threat
                    ingestion, persistence, cross-device correlation).

    Conventions of the embedding.

    - A Python [int] is a [Z]; a Python [float] is a [Q] (exact rationals
      stand in for binary64: every comparison proved below at a concrete
      input is far from a rounding boundary).
      The two detectors whose outcome near their bound depends on the
      rounding are also given with every operation on floats rounded
      ([RoundedDetectors]).
    - A naive [datetime] is a [Z], the number of microseconds since an
      arbitrary origin; a [timedelta] is a difference of two of them.
    - [int(time.time())] and [datetime.now()] are inputs of the functions
      that read them ([clock], [now]).
    - [Optional[T]] is [option T]; a [dict] literal that is only read with
      [.get] is an association list; a [dict] whose iteration order is
      observable is an insertion-ordered association list; a [dict] used as
      a keyed store is a [gmap]; a [set] is a [gset].
    - The free-text fields of a threat ([description],
      [mitigation_advice]) carry no decision and are left out of the
      records; log lines are not modelled. *)

From Stdlib Require Import ZArith QArith.
From stdpp Require Import base strings list gmap pretty.

Local Open Scope string_scope.
Local Open Scope list_scope.
Local Open Scope Z_scope.

(** ** Python helpers *)

Module Py.

(** [d.get(k)] on a dict literal. *)
Fixpoint dict_get {V : Type} (d : list (string * V)) (k : string) : option V :=
  match d with
  | [] => None
  | (k', v) :: d' => if decide (k' = k) then Some v else dict_get d' k
  end.

(** [x < y] on floats. *)
Definition Qlt_bool (x y : Q) : bool := negb (Qle_bool y x).

(** [not x] for a float or an int held as a rational. *)
Definition Qfalsy (x : Q) : bool := Qeq_bool x 0.

(** [l[-n:]]. *)
Definition last_n {A : Type} (n : nat) (l : list A) : list A :=
  drop (length l - n)%nat l.

(** [l[-2]], defined when [len(l) > 1]. *)
Definition penultimate {A : Type} (l : list A) : option A :=
  if decide (1 < length l)%nat then l !! (length l - 2)%nat else None.

(** [deque(maxlen=n).append(x)]: the oldest entries fall off the left. *)
Definition deque_append {A : Type} (maxlen : nat) (d : list A) (x : A) : list A :=
  last_n maxlen (d ++ [x]).

(** [(a - b).total_seconds()] for two naive datetimes in microseconds. *)
Definition total_seconds (delta : Z) : Q := delta # 1000000.

(** [max(l)] of a non-empty list of ints; [None] stands for the
    [ValueError] of an empty one. *)
Definition max_list (l : list Z) : option Z :=
  match l with
  | [] => None
  | x :: xs => Some (fold_left Z.max xs x)
  end.

(** [len(set(l))] for a list of floats. *)
Fixpoint distinct (l : list Q) : list Q :=
  match l with
  | [] => []
  | x :: xs => if existsb (Qeq_bool x) xs then distinct xs else x :: distinct xs
  end.

(** ASCII part of [str.upper]. *)
Definition upper_ascii (c : Ascii.ascii) : Ascii.ascii :=
  let n := Ascii.nat_of_ascii c in
  if decide (97 <= n <= 122)%nat then Ascii.ascii_of_nat (n - 32) else c.

Fixpoint upper (s : string) : string :=
  match s with
  | EmptyString => EmptyString
  | String c s' => String (upper_ascii c) (upper s')
  end.

(** ASCII part of [str.lower]. *)
Definition lower_ascii (c : Ascii.ascii) : Ascii.ascii :=
  let n := Ascii.nat_of_ascii c in
  if decide (65 <= n <= 90)%nat then Ascii.ascii_of_nat (n + 32) else c.

Fixpoint lower (s : string) : string :=
  match s with
  | EmptyString => EmptyString
  | String c s' => String (lower_ascii c) (lower s')
  end.

(** [sub in s]. *)
Fixpoint contains (sub s : string) : bool :=
  String.prefix sub s ||
  match s with
  | EmptyString => false
  | String _ s' => contains sub s'
  end.

(** An insertion-ordered [dict] with string keys: [d[k] = v] keeps the
    place of a key already present and appends a new one; [del d[k]]. *)
Fixpoint od_set {V : Type} (d : list (string * V)) (k : string) (v : V)
  : list (string * V) :=
  match d with
  | [] => [(k, v)]
  | (k', v') :: d' =>
      if decide (k' = k) then (k, v) :: d' else (k', v') :: od_set d' k v
  end.

Fixpoint od_del {V : Type} (d : list (string * V)) (k : string) : list (string * V) :=
  match d with
  | [] => []
  | (k', v') :: d' => if decide (k' = k) then d' else (k', v') :: od_del d' k
  end.

End Py.

(** ** cellular_security.py *)

Module Monitor.

(** Field values are those after [__post_init__]: the history is a list,
    [first_seen] and [last_seen] are set. *)
Record CellularTower := {
  cell_id : string;
  lac : string;
  mcc : string;
  mnc : string;
  tower_technology : string;
  frequency : option Q;
  tower_location : option (Q * Q);
  first_seen : Z;
  last_seen : Z;
  signal_strength_history : list Z
}.

Record CellularMeasurement := {
  timestamp : Z;
  tower : CellularTower;
  signal_strength : Z;
  signal_quality : option Z;
  technology : string;
  encryption_status : string;
  serving_tower : bool;
  neighbor_towers : list CellularTower;
  location : option (Q * Q);
  device_movement_speed : option Q
}.

Inductive evidence_value :=
  | EvInt (z : Z)
  | EvNum (q : Q)
  | EvStr (s : string)
  | EvInts (l : list Z)
  | EvNums (l : list Q)
  | EvStrs (l : list string).

Record SecurityThreat := {
  threat_id : string;
  threat_type : string;
  severity : string;
  threat_timestamp : Z;
  evidence : list (string * evidence_value);
  confidence : Q;
  threat_location : option (Q * Q);
  affected_towers : list string
}.

(** A threat of the given type is among those a detector returned. *)
Definition emits (type : string) (l : list SecurityThreat) : Prop :=
  ∃ t, t ∈ l ∧ threat_type t = type.

(** The part of [CellularSecurityMonitor] that [analyze_measurement]
    writes: [max_measurements] is the [maxlen] of the history deque
    ([config.get('max_measurements', 10000)]). *)
Record monitor := {
  max_measurements : nat;
  tower_database : gmap string CellularTower;
  measurement_history : list CellularMeasurement
}.

(** [f"{measurement.tower.cell_id}_{measurement.tower.lac}"] *)
Definition tower_key (m : CellularMeasurement) : string :=
  cell_id (tower m) +:+ "_" +:+ lac (tower m).

(** [existing_tower.last_seen = ...; existing_tower.signal_strength_history.append(...)] *)
Definition update_existing (existing_tower : CellularTower) (m : CellularMeasurement)
  : CellularTower :=
  {| cell_id := cell_id existing_tower;
     lac := lac existing_tower;
     mcc := mcc existing_tower;
     mnc := mnc existing_tower;
     tower_technology := tower_technology existing_tower;
     frequency := frequency existing_tower;
     tower_location := tower_location existing_tower;
     first_seen := first_seen existing_tower;
     last_seen := timestamp m;
     signal_strength_history :=
       signal_strength_history existing_tower ++ [signal_strength m] |}.

(** Lines 539-547 of [analyze_measurement]: the registry holds the tower
    object of the first measurement seen under a key and updates it in
    place afterwards. *)
Definition update_tower_database (db : gmap string CellularTower)
    (m : CellularMeasurement) : gmap string CellularTower :=
  match db !! tower_key m with
  | None => <[tower_key m := tower m]> db
  | Some existing_tower => <[tower_key m := update_existing existing_tower m]> db
  end.

Definition encryption_strength : list (string * Z) :=
  [("A5/3", 3); ("A5/1", 2); ("A5/0", 1); ("None", 0); ("Unknown", -1)].

(** [encryption_strength.get(e, -1)] *)
Definition strength (e : string) : Z :=
  default (-1) (Py.dict_get encryption_strength e).

Definition encryption_downgrade_threat (clock : Z)
    (prev_encryption : string) (m : CellularMeasurement) : SecurityThreat :=
  {| threat_id := "ENCRYPTION_DOWNGRADE_" +:+ pretty clock;
     threat_type := "ENCRYPTION_DOWNGRADE";
     severity := "medium";
     threat_timestamp := timestamp m;
     evidence := [("previous_encryption", EvStr prev_encryption);
                  ("current_encryption", EvStr (encryption_status m));
                  ("tower_id", EvStr (cell_id (tower m)))];
     confidence := 7 # 10;
     threat_location := location m;
     affected_towers := [cell_id (tower m)] |}.

Definition _detect_encryption_anomalies (clock : Z)
    (history : list CellularMeasurement) (measurement : CellularMeasurement)
  : list SecurityThreat :=
  match Py.penultimate history with
  | Some prev =>
      let prev_encryption := encryption_status prev in
      let current_encryption := encryption_status measurement in
      let prev_strength := strength prev_encryption in
      let current_strength := strength current_encryption in
      if (current_strength <? prev_strength) && (0 <=? current_strength)
      then [encryption_downgrade_threat clock prev_encryption measurement]
      else []
  | None => []
  end.

(** [analyze_measurement], as far as the registry, the history and the
    encryption detector go.  The other detectors it calls read the same
    state, write neither the registry nor the history, and are not
    embedded here; their threats would be concatenated around the ones
    returned. *)
Definition analyze_measurement (clock : Z) (st : monitor) (m : CellularMeasurement)
  : monitor * list SecurityThreat :=
  let db := update_tower_database (tower_database st) m in
  let history := Py.deque_append (max_measurements st) (measurement_history st) m in
  ({| max_measurements := max_measurements st;
      tower_database := db;
      measurement_history := history |},
   _detect_encryption_anomalies clock history m).

(** Feeding a list of measurements, oldest first. *)
Definition analyze_all (clock : Z) (st : monitor) (ms : list CellularMeasurement)
  : monitor :=
  fold_left (fun s m => fst (analyze_measurement clock s m)) ms st.

End Monitor.

(** ** advanced_cellular_security.py *)

Module Advanced.

Import Monitor.

(** A neighbour-cell measurement is a [Dict]; only the length of the list
    of them is read. *)
Definition neighbor_cell := list (string * Z).

(** Field values are those after [__post_init__]: [neighbor_cells] and
    [ca_bands] are lists. *)
Record AdvancedCellularMetrics := {
  timestamp : Z;
  tower : CellularTower;
  signal_strength : Z;
  signal_quality : Z;
  timing_advance : option Z;
  frame_number : option Z;
  arfcn : option Z;
  pci : option Z;
  rsrp : option Q;
  rsrq : option Q;
  sinr : option Q;
  cqi : option Z;
  neighbor_cells : list neighbor_cell;
  uplink_power : option Z;
  downlink_frequency : option Q;
  uplink_frequency : option Q;
  band : option string;
  ca_bands : list string
}.

(** [SecurityThreat(...)] with the defaults of the fields the detectors
    of this file never pass ([location], [affected_towers]). *)
Definition mk_threat (id_prefix : string) (clock : Z) (type sev : string)
    (ts : Z) (ev : list (string * evidence_value)) (conf : Q) : SecurityThreat :=
  {| threat_id := id_prefix +:+ pretty clock;
     threat_type := type;
     severity := sev;
     threat_timestamp := ts;
     evidence := ev;
     confidence := conf;
     threat_location := None;
     affected_towers := [] |}.

(** *** Timing advance *)

Definition ta_zero_threat (clock : Z) (metrics : AdvancedCellularMetrics) (ta : Z)
  : SecurityThreat :=
  mk_threat "TA_ZERO_" clock "TIMING_ADVANCE_ZERO" "medium" (timestamp metrics)
    [("timing_advance", EvInt ta);
     ("tower_id", EvStr (cell_id (tower metrics)));
     ("signal_strength", EvInt (signal_strength metrics))]
    (6 # 10).

Definition ta_impossible_threat (clock : Z) (metrics : AdvancedCellularMetrics)
    (ta_change : Z) (time_diff max_ta_change : Q) (prev_ta ta : Z) : SecurityThreat :=
  mk_threat "TA_IMPOSSIBLE_" clock "IMPOSSIBLE_TIMING_ADVANCE_CHANGE" "high"
    (timestamp metrics)
    [("ta_change", EvInt ta_change);
     ("time_diff", EvNum time_diff);
     ("max_possible_change", EvNum max_ta_change);
     ("previous_ta", EvInt prev_ta);
     ("current_ta", EvInt ta)]
    (9 # 10).

(** [max_distance_change = 300 * time_diff;
     max_ta_change = max_distance_change / 554], in exact arithmetic;
    [RoundedDetectors.max_ta_change_of] has the two operations rounded. *)
Definition max_ta_change_of (time_diff : Q) : Q :=
  let max_distance_change := (300 * time_diff)%Q in
  (max_distance_change / 554)%Q.

(** The second block of [_detect_timing_advance_anomalies] (lines
    200-228), for a current timing advance [ta]. *)
Definition impossible_ta_change (clock : Z)
    (measurement_buffer : list AdvancedCellularMetrics)
    (metrics : AdvancedCellularMetrics) (ta : Z) : list SecurityThreat :=
  match Py.penultimate measurement_buffer with
  | Some prev_metrics =>
      match timing_advance prev_metrics with
      | Some prev_ta =>
          let ta_change := Z.abs (ta - prev_ta) in
          let time_diff :=
            Py.total_seconds (timestamp metrics - timestamp prev_metrics) in
          let max_ta_change := max_ta_change_of time_diff in
          if Py.Qlt_bool (max_ta_change * 2)%Q (inject_Z ta_change)
          then [ta_impossible_threat clock metrics ta_change time_diff
                  max_ta_change prev_ta ta]
          else []
      | None => []
      end
  | None => []
  end.

Definition _detect_timing_advance_anomalies (clock : Z)
    (measurement_buffer : list AdvancedCellularMetrics)
    (metrics : AdvancedCellularMetrics) : list SecurityThreat :=
  match timing_advance metrics with
  | None => []
  | Some ta =>
      (if ta =? 0 then [ta_zero_threat clock metrics ta] else [])
      ++ impossible_ta_change clock measurement_buffer metrics ta
  end.

(** *** Protocol anomalies *)

Definition invalid_pci_threat (clock : Z) (metrics : AdvancedCellularMetrics) (p : Z)
  : SecurityThreat :=
  mk_threat "INVALID_PCI_" clock "INVALID_PHYSICAL_CELL_ID" "high" (timestamp metrics)
    [("pci", EvInt p);
     ("valid_range", EvStr "0-503");
     ("tower_id", EvStr (cell_id (tower metrics)))]
    (9 # 10).

Definition no_neighbors_threat (clock : Z) (metrics : AdvancedCellularMetrics)
    (neighbor_count : nat) : SecurityThreat :=
  mk_threat "NO_NEIGHBORS_" clock "NO_NEIGHBOR_CELLS" "medium" (timestamp metrics)
    [("neighbor_count", EvInt (Z.of_nat neighbor_count));
     ("tower_id", EvStr (cell_id (tower metrics)))]
    (4 # 10).

Definition too_many_neighbors_threat (clock : Z) (metrics : AdvancedCellularMetrics)
    (neighbor_count : nat) : SecurityThreat :=
  mk_threat "TOO_MANY_NEIGHBORS_" clock "EXCESSIVE_NEIGHBOR_CELLS" "medium"
    (timestamp metrics)
    [("neighbor_count", EvInt (Z.of_nat neighbor_count));
     ("tower_id", EvStr (cell_id (tower metrics)))]
    (5 # 10).

(** Lines 287-305: [if metrics.pci is not None: if pci < 0 or pci > 503]. *)
Definition pci_check (clock : Z) (metrics : AdvancedCellularMetrics)
  : list SecurityThreat :=
  match pci metrics with
  | Some p =>
      if (p <? 0) || (503 <? p) then [invalid_pci_threat clock metrics p] else []
  | None => []
  end.

(** Lines 307-341: [if metrics.neighbor_cells:] is the truth value of the
    list, so the body runs for a non-empty list only. *)
Definition neighbor_check (clock : Z) (metrics : AdvancedCellularMetrics)
  : list SecurityThreat :=
  match neighbor_cells metrics with
  | [] => []
  | _ :: _ =>
      let neighbor_count := length (neighbor_cells metrics) in
      if decide (neighbor_count = 0%nat)
      then [no_neighbors_threat clock metrics neighbor_count]
      else if decide (20 < neighbor_count)%nat
      then [too_many_neighbors_threat clock metrics neighbor_count]
      else []
  end.

Definition _detect_protocol_anomalies (clock : Z) (metrics : AdvancedCellularMetrics)
  : list SecurityThreat :=
  pci_check clock metrics ++ neighbor_check clock metrics.

(** *** Frequency anomalies *)

Definition expected_bands : list (string * (Q * Q)) :=
  [("B3", (1710, 1785)); ("B7", (2500, 2570)); ("B20", (832, 862));
   ("B1", (1920, 1980)); ("B8", (880, 915))]%Q.

(** The [for ... break] loop: some band has [low <= freq_mhz <= high]. *)
Definition band_match (freq_mhz : Q) : bool :=
  existsb (fun b => let '(_, (low, high)) := b in
                    Qle_bool low freq_mhz && Qle_bool freq_mhz high)
          expected_bands.

Definition freq_anomaly_threat (clock : Z) (metrics : AdvancedCellularMetrics)
    (freq_mhz : Q) : SecurityThreat :=
  mk_threat "FREQ_ANOMALY_" clock "FREQUENCY_OUT_OF_BAND" "high" (timestamp metrics)
    [("frequency", EvNum freq_mhz);
     ("standard_bands", EvStrs (map fst expected_bands));
     ("tower_id", EvStr (cell_id (tower metrics)))]
    (8 # 10).

Definition freq_hopping_threat (clock : Z) (metrics : AdvancedCellularMetrics)
    (recent_freqs : list Q) : SecurityThreat :=
  mk_threat "FREQ_HOPPING_" clock "SUSPICIOUS_FREQUENCY_HOPPING" "medium"
    (timestamp metrics)
    [("recent_frequencies", EvNums recent_freqs);
     ("frequency_count", EvInt (Z.of_nat (length (Py.distinct recent_freqs))))]
    (6 # 10).

(** [[x for x in l if x]] over optional floats: [None] and [0.0] drop out. *)
Definition truthy_floats (l : list (option Q)) : list Q :=
  omap (fun o => match o with
                 | Some x => if Py.Qfalsy x then None else Some x
                 | None => None
                 end) l.

Definition _detect_frequency_anomalies (clock : Z)
    (measurement_buffer : list AdvancedCellularMetrics)
    (metrics : AdvancedCellularMetrics) : list SecurityThreat :=
  match downlink_frequency metrics with
  | None => []
  | Some freq_mhz =>
      if Py.Qfalsy freq_mhz then [] else
      (if band_match freq_mhz then [] else [freq_anomaly_threat clock metrics freq_mhz])
      ++
      (if decide (5 <= length measurement_buffer)%nat then
         let recent_freqs :=
           truthy_floats (map downlink_frequency (Py.last_n 5 measurement_buffer)) in
         if decide (length (Py.distinct recent_freqs) = length recent_freqs
                    ∧ 3 <= length recent_freqs)%nat
         then [freq_hopping_threat clock metrics recent_freqs]
         else []
       else [])
  end.

(** *** Power control *)

(** [[x for x in l if x]] over optional ints: [None] and [0] drop out. *)
Definition truthy_ints (l : list (option Z)) : list Z :=
  omap (fun o => match o with
                 | Some x => if x =? 0 then None else Some x
                 | None => None
                 end) l.

(** [[l[i+1] - l[i] for i in range(len(l)-1)]] *)
Fixpoint successive_differences (l : list Z) : list Z :=
  match l with
  | x :: (y :: _) as tl => (y - x) :: successive_differences tl
  | _ => []
  end.

Definition power_anomaly_threat (clock : Z) (metrics : AdvancedCellularMetrics)
    (power_changes recent_powers : list Z) (current_power : Z) : SecurityThreat :=
  mk_threat "POWER_ANOMALY_" clock "SUSPICIOUS_POWER_CONTROL" "medium"
    (timestamp metrics)
    [("power_changes", EvInts power_changes);
     ("recent_powers", EvInts recent_powers);
     ("current_power", EvInt current_power)]
    (5 # 10).

Definition _detect_power_analysis_attacks (clock : Z)
    (measurement_buffer : list AdvancedCellularMetrics)
    (metrics : AdvancedCellularMetrics) : list SecurityThreat :=
  match uplink_power metrics with
  | None => []
  | Some power =>
      if power =? 0 then [] else
      if decide (3 <= length measurement_buffer)%nat then
        let recent_powers :=
          truthy_ints (map uplink_power (Py.last_n 3 measurement_buffer)) in
        if decide (3 <= length recent_powers)%nat then
          let power_changes := successive_differences recent_powers in
          match Py.max_list power_changes with
          | Some biggest =>
              if 10 <? biggest
              then [power_anomaly_threat clock metrics power_changes recent_powers power]
              else []
          | None => []
          end
        else []
      else []
  end.

(** [analyze_advanced_metrics], as far as the buffer and the four
    detectors above go: the sample is appended to the buffer
    ([deque(maxlen=1000)]) before any detector runs, so the detectors see
    it as the last element.  The RF-fingerprint, signature, jamming and
    location detectors are not embedded; their threats would be
    interleaved in the order of the source. *)
Definition analyze_advanced_metrics (clock : Z)
    (measurement_buffer : list AdvancedCellularMetrics)
    (metrics : AdvancedCellularMetrics)
  : list AdvancedCellularMetrics * list SecurityThreat :=
  let buffer := Py.deque_append 1000 measurement_buffer metrics in
  (buffer,
   _detect_timing_advance_anomalies clock buffer metrics
   ++ _detect_protocol_anomalies clock metrics
   ++ _detect_frequency_anomalies clock buffer metrics
   ++ _detect_power_analysis_attacks clock buffer metrics).

End Advanced.

(** ** cellular_remote_server.py *)

Module Server.

(** A [datetime] as the server meets it: [datetime.now()] is naive; the
    value [datetime.fromisoformat] returns is naive or carries a UTC
    offset, as the text says. *)
Inductive datetime :=
  | Naive (us : Z)
  | Aware (us : Z) (utcoffset : Z).

(** The text of a [timestamp] field, by what [datetime.fromisoformat]
    does with it: it returns a [datetime] or raises [ValueError]. *)
Inductive iso_text :=
  | Iso (d : datetime)
  | NotIso (text : string).

Inductive exn := ValueError | TypeError | AttributeError.

Inductive result (A : Type) :=
  | Ok (a : A)
  | Raise (e : exn).
Arguments Ok {A} a.
Arguments Raise {A} e.

(** [datetime.now() - t]: Python refuses to subtract an offset-aware
    datetime from a naive one ([TypeError]). *)
Definition since (now : Z) (t : datetime) : result Z :=
  match t with
  | Naive us => Ok (now - us)
  | Aware _ _ => Raise TypeError
  end.

(** [timedelta(hours=n)], [timedelta(days=n)] in microseconds. *)
Definition timedelta_hours (n : Z) : Z := n * 3600 * 1000000.
Definition timedelta_days (n : Z) : Z := n * 86400 * 1000000.

Record RemoteCellularThreat := {
  device_id : string;
  threat_id : string;
  threat_type : string;
  severity : string;
  timestamp : datetime;
  location : option (list (string * Q));
  cellular_data : option (list (string * string));
  description : string;
  confidence : Q
}.

(** *** Frames received from a client

    A parsed JSON object is read with [.get]; an absent key is [None].
    Fields are typed as the wire schema has them (strings, a number for
    [confidence], objects for [location] and [cellular_data]). *)

Record register_data := {
  reg_device_id : option string;
  reg_device_name : option string;
  reg_api_key : option string
}.

Record threat_data := {
  msg_threat_id : option string;
  msg_threat_type : option string;
  msg_severity : option string;
  msg_timestamp : option iso_text;
  msg_location : option (list (string * Q));
  msg_cellular_data : option (list (string * string));
  msg_description : option string;
  msg_confidence : option Q
}.

Inductive client_message :=
  | register_device_msg (data : register_data)
  | cellular_threat_msg (data : threat_data)
  | heartbeat_msg
  | get_status_msg
  | other_msg (message_type : option string).

Inductive frame :=
  | InvalidJSON                      (* [json.loads] raises *)
  | NotAnObject                      (* valid JSON without [.get] *)
  | Object (m : client_message).

(** *** Messages sent to a client; the constructor is the [type] field *)

Inductive server_message :=
  | registration_success (dev : string) (server_time : Z) (monitoring_status : string)
  | threat_acknowledged (tid : string) (processed_at : Z)
  | heartbeat_ack (ts : Z)
  | status_response (connected : nat) (total_threats_today : nat)
      (server_uptime : Z) (monitoring_active : bool)
  | high_priority_alert (threat : RemoteCellularThreat) (alert_level : string)
      (message : string) (ts : Z)
  | coordinated_attack_detected (primary_threat : RemoteCellularThreat)
      (related_threats : list RemoteCellularThreat) (attack_pattern : string)
      (device_count : nat) (message : string) (ts : Z)
  | error (message : string) (ts : Z).

(** *** State *)

Record device_info := {
  websocket : nat;
  device_name : string;
  connected_at : Z;
  last_seen : Z;
  threat_count : Z
}.

(** Rows of the three tables; the columns SQLite fills from its own clock
    ([created_at], [last_seen], [timestamp]) are left out. *)
Record threat_row := {
  row_id : Z;
  row_device_id : string;
  row_threat_id : string;
  row_threat_type : string;
  row_severity : string;
  row_timestamp : datetime;
  row_location_lat : option Q;
  row_location_lon : option Q;
  row_cellular_data : option (list (string * string));
  row_description : string;
  row_confidence : Q
}.

Record session_row := {
  session_device_name : string;
  connection_count : Z;
  session_threat_count : Z
}.

Record event_row := {
  event_id : Z;
  event_type : string;
  event_device_id : string;
  event_data : RemoteCellularThreat
}.

(** [cellular_threats_seq] and [monitoring_events_seq] are the
    AUTOINCREMENT counters. *)
Record database := {
  cellular_threats : list threat_row;
  cellular_threats_seq : Z;
  device_sessions : gmap string session_row;
  monitoring_events : list event_row;
  monitoring_events_seq : Z
}.

Record export_data := {
  export_timestamp : Z;
  total_threats : nat;
  exported_connected_devices : nat;
  threats : list RemoteCellularThreat
}.

(** [sent] is the trace of [websocket.send] calls, oldest first;
    [exports] the files written by [export_threat_data]. *)
Record server := {
  connected_devices : list (string * device_info);
  threat_history : list RemoteCellularThreat;
  monitoring_rules : list (string * bool);
  api_keys : gset string;
  db : database;
  sent : list (nat * server_message);
  exports : list export_data
}.

Definition set_connected_devices (f : list (string * device_info) → list (string * device_info))
    (s : server) : server :=
  {| connected_devices := f (connected_devices s);
     threat_history := threat_history s;
     monitoring_rules := monitoring_rules s;
     api_keys := api_keys s;
     db := db s;
     sent := sent s;
     exports := exports s |}.

Definition set_threat_history (f : list RemoteCellularThreat → list RemoteCellularThreat)
    (s : server) : server :=
  {| connected_devices := connected_devices s;
     threat_history := f (threat_history s);
     monitoring_rules := monitoring_rules s;
     api_keys := api_keys s;
     db := db s;
     sent := sent s;
     exports := exports s |}.

Definition set_db (f : database → database) (s : server) : server :=
  {| connected_devices := connected_devices s;
     threat_history := threat_history s;
     monitoring_rules := monitoring_rules s;
     api_keys := api_keys s;
     db := f (db s);
     sent := sent s;
     exports := exports s |}.

Definition set_sent (f : list (nat * server_message) → list (nat * server_message))
    (s : server) : server :=
  {| connected_devices := connected_devices s;
     threat_history := threat_history s;
     monitoring_rules := monitoring_rules s;
     api_keys := api_keys s;
     db := db s;
     sent := f (sent s);
     exports := exports s |}.

Definition set_exports (f : list export_data → list export_data) (s : server) : server :=
  {| connected_devices := connected_devices s;
     threat_history := threat_history s;
     monitoring_rules := monitoring_rules s;
     api_keys := api_keys s;
     db := db s;
     sent := sent s;
     exports := f (exports s) |}.

(** *** The monad of the handlers: server state, with exceptions that
    leave the writes made before them in place *)

Definition M (A : Type) : Type := server → result A * server.

#[global] Instance M_ret : MRet M := fun A a s => (Ok a, s).

#[global] Instance M_bind : MBind M := fun A B f m s =>
  match m s with
  | (Ok a, s') => f a s'
  | (Raise e, s') => (Raise e, s')
  end.

Definition raise {A : Type} (e : exn) : M A := fun s => (Raise e, s).

Definition lift {A : Type} (r : result A) : M A := fun s => (r, s).

Definition gets {A : Type} (f : server → A) : M A := fun s => (Ok (f s), s).

Definition modify (f : server → server) : M unit := fun s => (Ok tt, f s).

(** [try: body except Exception: handler] *)
Definition try_except {A : Type} (body : M A) (handler : exn → M A) : M A :=
  fun s =>
    match body s with
    | (Ok a, s') => (Ok a, s')
    | (Raise e, s') => handler e s'
    end.

(** [for x in l: body(x)] *)
Fixpoint for_each {A : Type} (l : list A) (body : A → M unit) : M unit :=
  match l with
  | [] => mret tt
  | x :: l' => body x ;; for_each l' body
  end.

(** [if cond: body] *)
Definition when (cond : bool) (body : M unit) : M unit :=
  if cond then body else mret tt.

(** The state a handler leaves behind. *)
Definition exec {A : Type} (m : M A) (s : server) : server := snd (m s).

(** *** Sending *)

(** [send_message]: a failing [websocket.send] is caught and logged, so
    the call never raises; the trace records the attempt. *)
Definition send_message (ws : nat) (m : server_message) : M unit :=
  modify (set_sent (fun l => l ++ [(ws, m)])).

Definition send_error (ws : nat) (error_message : string) (now : Z) : M unit :=
  send_message ws (error error_message now).

(** [for device_id, device_info in self.connected_devices.items(): send] *)
Definition broadcast (m : server_message) : M unit :=
  devices ← gets connected_devices;
  for_each devices (fun d => send_message (websocket (snd d)) m).

(** *** Authentication and registration *)

(** [api_key in self.api_keys]; an absent key is [None], in no set of
    strings. *)
Definition authenticate_device (s : server) (api_key : option string) : bool :=
  match api_key with
  | Some k => bool_decide (k ∈ api_keys s)
  | None => false
  end.

(** [INSERT OR REPLACE INTO device_sessions] with the two [COALESCE]
    sub-queries. *)
Definition update_device_session (device_id device_name : string) : M unit :=
  modify (set_db (fun d =>
    let old := device_sessions d !! device_id in
    let row :=
      {| session_device_name := device_name;
         connection_count :=
           match old with Some r => connection_count r + 1 | None => 1 end;
         session_threat_count :=
           match old with Some r => session_threat_count r | None => 0 end |} in
    {| cellular_threats := cellular_threats d;
       cellular_threats_seq := cellular_threats_seq d;
       device_sessions := <[device_id := row]> (device_sessions d);
       monitoring_events := monitoring_events d;
       monitoring_events_seq := monitoring_events_seq d |})).

Definition register_device (ws : nat) (device_data : register_data) (now : Z)
  : M bool :=
  let device_id := reg_device_id device_data in
  let device_name := default "Unknown Device" (reg_device_name device_data) in
  let api_key := reg_api_key device_data in
  ok ← gets (fun s => authenticate_device s api_key);
  if negb ok then
    send_error ws "Authentication failed" now ;; mret false
  else
    match device_id with
    | None | Some "" =>
        send_error ws "Device ID required" now ;; mret false
    | Some device_id =>
        modify (set_connected_devices (fun d =>
          Py.od_set d device_id
            {| websocket := ws;
               device_name := device_name;
               connected_at := now;
               last_seen := now;
               threat_count := 0 |})) ;;
        update_device_session device_id device_name ;;
        send_message ws (registration_success device_id now "active") ;;
        mret true
    end.

(** *** Persistence *)

(** [store_threat]: [INSERT OR REPLACE] on the [UNIQUE] column
    [threat_id] deletes the rows in conflict and inserts the new one under
    a fresh [id]. *)
Definition store_threat (threat : RemoteCellularThreat) : M unit :=
  modify (set_db (fun d =>
    let loc :=
      match location threat with
      | Some (e :: l) => Some (e :: l)
      | _ => None
      end in
    let location_lat := loc ≫= fun l => Py.dict_get l "latitude" in
    let location_lon := loc ≫= fun l => Py.dict_get l "longitude" in
    let id := cellular_threats_seq d + 1 in
    let row :=
      {| row_id := id;
         row_device_id := device_id threat;
         row_threat_id := threat_id threat;
         row_threat_type := threat_type threat;
         row_severity := severity threat;
         row_timestamp := timestamp threat;
         row_location_lat := location_lat;
         row_location_lon := location_lon;
         row_cellular_data :=
           match cellular_data threat with
           | Some (e :: l) => Some (e :: l)
           | _ => None
           end;
         row_description := description threat;
         row_confidence := confidence threat |} in
    {| cellular_threats :=
         filter (fun r => row_threat_id r ≠ threat_id threat) (cellular_threats d)
         ++ [row];
       cellular_threats_seq := id;
       device_sessions := device_sessions d;
       monitoring_events := monitoring_events d;
       monitoring_events_seq := monitoring_events_seq d |})).

Definition log_monitoring_event (type dev : string) (data : RemoteCellularThreat)
  : M unit :=
  modify (set_db (fun d =>
    let id := monitoring_events_seq d + 1 in
    {| cellular_threats := cellular_threats d;
       cellular_threats_seq := cellular_threats_seq d;
       device_sessions := device_sessions d;
       monitoring_events :=
         monitoring_events d
         ++ [{| event_id := id; event_type := type;
                event_device_id := dev; event_data := data |}];
       monitoring_events_seq := id |})).

Definition export_threat_data (now : Z) : M unit :=
  modify (fun s =>
    set_exports (fun l =>
      l ++ [{| export_timestamp := now;
               total_threats := length (threat_history s);
               exported_connected_devices := length (connected_devices s);
               threats := Py.last_n 100 (threat_history s) |}]) s).

(** *** Alerts and correlation *)

Definition send_high_priority_alert (threat : RemoteCellularThreat) (now : Z)
  : M unit :=
  broadcast
    (high_priority_alert threat "URGENT"
       ("🚨 HIGH PRIORITY: " +:+ threat_type threat +:+ " detected on "
        +:+ device_id threat)
       now) ;;
  log_monitoring_event "high_priority_alert" (device_id threat) threat.

(** [[t for t in history if (datetime.now() - t.timestamp) < window and
    keep(t)]]: the subtraction is evaluated for every element, in order,
    and the first one that raises ends the comprehension. *)
Fixpoint recent (now window : Z) (keep : RemoteCellularThreat → bool)
    (history : list RemoteCellularThreat) : result (list RemoteCellularThreat) :=
  match history with
  | [] => Ok []
  | t :: rest =>
      match since now (timestamp t) with
      | Raise e => Raise e
      | Ok age =>
          match recent now window keep rest with
          | Raise e => Raise e
          | Ok r => Ok (if (age <? window) && keep t then t :: r else r)
          end
      end
  end.

(** ['IMSI' in t.threat_type.upper()] *)
Definition is_imsi (t : RemoteCellularThreat) : bool :=
  Py.contains "IMSI" (Py.upper (threat_type t)).

(** [len(set(t.device_id for t in l))] *)
Definition distinct_devices (l : list RemoteCellularThreat) : nat :=
  size (list_to_set (C := gset string) (map device_id l)).

(** Lines 338-356 of [analyze_threat_patterns]: the alert built for
    [threat], if any. *)
Definition coordination_alert (threat : RemoteCellularThreat) (now : Z)
    (history : list RemoteCellularThreat) : result (option server_message) :=
  match recent now (timedelta_hours 1)
          (fun t => bool_decide (device_id t ≠ device_id threat)) history with
  | Raise e => Raise e
  | Ok recent_threats =>
      let imsi_threats := filter (fun t => is_imsi t = true) recent_threats in
      if decide (2 <= length imsi_threats)%nat then
        Ok (Some
          (coordinated_attack_detected threat imsi_threats
             "COORDINATED_IMSI_CATCHER"
             (distinct_devices imsi_threats + 1)
             ("🚨 COORDINATED ATTACK: IMSI catchers detected on "
              +:+ pretty (length imsi_threats + 1)%nat +:+ " devices")
             now))
      else Ok None
  end.

Definition analyze_threat_patterns (threat : RemoteCellularThreat) (now : Z)
  : M unit :=
  history ← gets threat_history;
  alert ← lift (coordination_alert threat now history);
  match alert with
  | Some coordination_alert => broadcast coordination_alert
  | None => mret tt
  end.

(** [self.monitoring_rules.get(rule, default)] *)
Definition rule (s : server) (name : string) (dflt : bool) : bool :=
  default dflt (Py.dict_get (monitoring_rules s) name).

Definition process_threat_alert (threat : RemoteCellularThreat) (now : Z) : M unit :=
  when (bool_decide (Py.lower (severity threat) = "high")
        || bool_decide (Py.lower (severity threat) = "critical"))
       (send_high_priority_alert threat now) ;;
  correlate ← gets (fun s => rule s "threat_correlation" true);
  when correlate (analyze_threat_patterns threat now) ;;
  auto_export ← gets (fun s => rule s "auto_export" false);
  when auto_export (export_threat_data now).

(** *** Threat ingestion *)

(** The [RemoteCellularThreat(...)] call of [handle_cellular_threat];
    [uuid] is the value of [str(uuid.uuid4())]. *)
Definition parse_threat (device_id : string) (data : threat_data)
    (now : Z) (uuid : string) : result RemoteCellularThreat :=
  match default (Iso (Naive now)) (msg_timestamp data) with
  | NotIso _ => Raise ValueError
  | Iso ts =>
      Ok {| device_id := device_id;
            threat_id := default uuid (msg_threat_id data);
            threat_type := default "UNKNOWN" (msg_threat_type data);
            severity := default "low" (msg_severity data);
            timestamp := ts;
            location := msg_location data;
            cellular_data := msg_cellular_data data;
            description := default "" (msg_description data);
            confidence := default 0%Q (msg_confidence data) |}
  end.

(** [self.connected_devices[device_id]['threat_count'] += 1] and
    [... ['last_seen'] = datetime.now()], when the device is in the table. *)
Definition touch_device (device_id : string) (now : Z) : M unit :=
  modify (set_connected_devices (fun d =>
    match Py.dict_get d device_id with
    | Some info =>
        Py.od_set d device_id
          {| websocket := websocket info;
             device_name := device_name info;
             connected_at := connected_at info;
             last_seen := now;
             threat_count := threat_count info + 1 |}
    | None => d
    end)).

Definition acknowledge (device_id : string) (threat : RemoteCellularThreat) (now : Z)
  : M unit :=
  devices ← gets connected_devices;
  match Py.dict_get devices device_id with
  | Some info => send_message (websocket info) (threat_acknowledged (threat_id threat) now)
  | None => mret tt
  end.

(** The whole body sits in [try ... except Exception], which logs and
    returns. *)
Definition handle_cellular_threat (device_id : string) (data : threat_data)
    (now : Z) (uuid : string) : M unit :=
  try_except
    (threat ← lift (parse_threat device_id data now uuid);
     store_threat threat ;;
     modify (set_threat_history (fun h => h ++ [threat])) ;;
     touch_device device_id now ;;
     process_threat_alert threat now ;;
     acknowledge device_id threat now)
    (fun _ => mret tt).

(** *** The message loop of one connection *)

Definition heartbeat (ws : nat) (device_id : option string) (now : Z) : M unit :=
  match device_id with
  | Some (String c d) =>
      devices ← gets connected_devices;
      match Py.dict_get devices (String c d) with
      | Some info =>
          modify (set_connected_devices (fun dv =>
            Py.od_set dv (String c d)
              {| websocket := websocket info;
                 device_name := device_name info;
                 connected_at := connected_at info;
                 last_seen := now;
                 threat_count := threat_count info |})) ;;
          send_message ws (heartbeat_ack now)
      | None => mret tt
      end
  | _ => mret tt
  end.

Definition get_status (ws : nat) (now : Z) : M unit :=
  s ← gets id;
  today ← lift (recent now (timedelta_days 1) (fun _ => true) (threat_history s));
  send_message ws
    (status_response (length (connected_devices s)) (length today) now true).

(** The body of the [async for] loop for one frame; the result is the
    loop's [device_id] variable afterwards. *)
Definition handle_frame (ws : nat) (device_id : option string) (f : frame)
    (now : Z) (uuid : string) : M (option string) :=
  match f with
  | InvalidJSON => send_error ws "Invalid JSON message" now ;; mret device_id
  | NotAnObject => send_error ws "Error processing message" now ;; mret device_id
  | Object m =>
      try_except
        match m with
        | register_device_msg data =>
            success ← register_device ws data now;
            mret (if success : bool then reg_device_id data else device_id)
        | cellular_threat_msg data =>
            match device_id with
            | Some (String c d) =>
                handle_cellular_threat (String c d) data now uuid ;; mret device_id
            | _ => send_error ws "Device not registered" now ;; mret device_id
            end
        | heartbeat_msg => heartbeat ws device_id now ;; mret device_id
        | get_status_msg => get_status ws now ;; mret device_id
        | other_msg message_type =>
            send_error ws
              ("Unknown message type: " +:+ default "None" message_type) now ;;
            mret device_id
        end
        (fun _ => send_error ws "Error processing message" now ;; mret device_id)
  end.

(** The frames of a connection with the clock and uuid readings of their
    handling. *)
Fixpoint message_loop (ws : nat) (device_id : option string)
    (frames : list (frame * Z * string)) : M (option string) :=
  match frames with
  | [] => mret device_id
  | (f, now, uuid) :: rest =>
      d ← handle_frame ws device_id f now uuid;
      message_loop ws d rest
  end.

(** The [finally] clause. *)
Definition cleanup (device_id : option string) : M unit :=
  match device_id with
  | Some (String c d) =>
      modify (set_connected_devices (fun dv => Py.od_del dv (String c d)))
  | _ => mret tt
  end.

(** [handle_client_message] for a connection whose client sends [frames]
    and then closes. *)
Definition handle_client_message (ws : nat) (frames : list (frame * Z * string))
  : M unit :=
  device_id ← message_loop ws None frames;
  cleanup device_id.

(** The server after [__init__] with the default configuration file and
    the given key file. *)
Definition default_rules : list (string * bool) :=
  [("high_severity_immediate", true); ("location_tracking", true);
   ("threat_correlation", true); ("auto_export", true)].

Definition init (keys : gset string) : server :=
  {| connected_devices := [];
     threat_history := [];
     monitoring_rules := default_rules;
     api_keys := keys;
     db := {| cellular_threats := []; cellular_threats_seq := 0;
              device_sessions := ∅;
              monitoring_events := []; monitoring_events_seq := 0 |};
     sent := [];
     exports := [] |}.

(** Several connections at once.  Each frame is handled to the end
    before the next one is looked at (the handlers give up control only
    inside [send]); [locals] holds the [device_id] variable of every open
    connection. *)
Inductive event :=
  | Receive (ws : nat) (f : frame) (now : Z) (uuid : string)
  | Disconnect (ws : nat).

Fixpoint serve (events : list event) (locals : gmap nat (option string))
  : M (gmap nat (option string)) :=
  match events with
  | [] => mret locals
  | Receive ws f now uuid :: rest =>
      d ← handle_frame ws (default None (locals !! ws)) f now uuid;
      serve rest (<[ws := d]> locals)
  | Disconnect ws :: rest =>
      cleanup (default None (locals !! ws)) ;;
      serve rest (delete ws locals)
  end.

(** Readings of the trace and of the store. *)

(** The [coordinated_attack_detected] messages sent to [ws]: the device
    ids of the primary and the related threats, and [device_count]. *)
Definition coordinated_alerts (ws : nat) (l : list (nat * server_message))
  : list (list string * nat) :=
  omap (fun p => match snd p with
                 | coordinated_attack_detected t related _ n _ _ =>
                     if decide (fst p = ws)
                     then Some (device_id t :: map device_id related, n)
                     else None
                 | _ => None
                 end) l.

(** The same messages in full. *)
Definition coordinated_messages (ws : nat) (l : list (nat * server_message))
  : list server_message :=
  omap (fun p => match snd p with
                 | coordinated_attack_detected _ _ _ _ _ _ =>
                     if decide (fst p = ws) then Some (snd p) else None
                 | _ => None
                 end) l.

(** The set of distinct device ids named by an alert. *)
Definition device_set (ids : list string) : gset string := list_to_set ids.

Definition acknowledgements (ws : nat) (l : list (nat * server_message)) : list string :=
  omap (fun p => match snd p with
                 | threat_acknowledged tid _ =>
                     if decide (fst p = ws) then Some tid else None
                 | _ => None
                 end) l.

Definition rows_with (tid : string) (d : database) : list threat_row :=
  filter (fun r => row_threat_id r = tid) (cellular_threats d).

(** *** Vocabulary of the properties *)

(** The timestamp of [t] has no UTC offset. *)
Definition naive (t : RemoteCellularThreat) : Prop := ∃ us, timestamp t = Naive us.

Definition microseconds (d : datetime) : Z :=
  match d with Naive us | Aware us _ => us end.

(** [(now - t.timestamp) < window] for a naive timestamp. *)
Definition is_recent (now window : Z) (t : RemoteCellularThreat) : bool :=
  now - microseconds (timestamp t) <? window.

(** The threats an alert for [threat] relates it to: IMSI-typed, less
    than an hour old, from another device. *)
Definition related_to (threat : RemoteCellularThreat) (now : Z)
    (history : list RemoteCellularThreat) : list RemoteCellularThreat :=
  filter (fun t => is_imsi t = true)
    (filter (fun t => is_recent now (timedelta_hours 1) t
                      && bool_decide (device_id t ≠ device_id threat) = true)
            history).

(** One copy of [m] for every connected device, in table order. *)
Definition deliveries (devices : list (string * device_info)) (m : server_message)
  : list (nat * server_message) :=
  map (fun d => (websocket (snd d), m)) devices.

(** [s'] differs from [s] by alerts and bookkeeping only: same device
    table, history, rules and threat rows, and the messages added to the
    trace hold no acknowledgement for [ws]. *)
Definition alerts_only (ws : nat) (s s' : server) : Prop :=
  connected_devices s' = connected_devices s
  ∧ threat_history s' = threat_history s
  ∧ monitoring_rules s' = monitoring_rules s
  ∧ cellular_threats (db s') = cellular_threats (db s)
  ∧ ∃ extra, sent s' = sent s ++ extra ∧ acknowledgements ws extra = [].

(** The [timestamp] field is absent or a naive ISO-8601 text. *)
Definition well_timed (data : threat_data) : Prop :=
  match msg_timestamp data with
  | None | Some (Iso (Naive _)) => True
  | _ => False
  end.


End Server.

(** ** Concrete inputs used below *)

Module MonitorSamples.

Import Monitor.

Definition sample_tower : CellularTower :=
  {| cell_id := "C1"; lac := "L1"; mcc := "310"; mnc := "260";
     tower_technology := "4G"; frequency := None; tower_location := None;
     first_seen := 0; last_seen := 0; signal_strength_history := [] |}.

Definition sample_measurement (ts : Z) (sig : Z) (enc : string) : CellularMeasurement :=
  {| timestamp := ts; tower := sample_tower; signal_strength := sig;
     signal_quality := None; technology := "4G"; encryption_status := enc;
     serving_tower := true; neighbor_towers := []; location := None;
     device_movement_speed := None |}.

(** A monitor as [__init__] leaves it, with the default history size. *)
Definition fresh_monitor : monitor :=
  {| max_measurements := Z.to_nat 10000; tower_database := ∅; measurement_history := [] |}.

End MonitorSamples.

Module AdvancedSamples.

Import Monitor Advanced.

(** A sample with every optional field absent but those given. *)
Definition sample_metrics (ts : Z) (ta pci_ : option Z)
    (neighbors : list neighbor_cell) (power : option Z) (freq : option Q)
  : AdvancedCellularMetrics :=
  {| timestamp := ts; tower := MonitorSamples.sample_tower;
     signal_strength := -80; signal_quality := 20;
     timing_advance := ta; frame_number := None; arfcn := None; pci := pci_;
     rsrp := None; rsrq := None; sinr := None; cqi := None;
     neighbor_cells := neighbors; uplink_power := power;
     downlink_frequency := freq; uplink_frequency := None;
     band := None; ca_bands := [] |}.

(** Two samples one second apart whose timing advance differs by one. *)
Definition ta_first : AdvancedCellularMetrics :=
  sample_metrics 0 (Some 5) None [] None None.
Definition ta_second : AdvancedCellularMetrics :=
  sample_metrics 1000000 (Some 6) None [] None None.

(** A sample that reports an empty neighbour list. *)
Definition no_neighbors : AdvancedCellularMetrics :=
  sample_metrics 0 None None [] None None.

(** A sample with both zero-valued optional fields. *)
Definition zero_fields : AdvancedCellularMetrics :=
  sample_metrics 0 None None [] (Some 0) (Some 0%Q).

End AdvancedSamples.

Module ServerSamples.

Import Server.

Definition keys : gset string := {["k1"]}.

Definition register (dev key : string) : frame :=
  Object (register_device_msg
    {| reg_device_id := Some dev; reg_device_name := None;
       reg_api_key := Some key |}).

(** A [cellular_threat] frame; an absent [timestamp] takes the server's
    clock. *)
Definition threat (tid type sev : string) (ts : option iso_text) : threat_data :=
  {| msg_threat_id := Some tid; msg_threat_type := Some type;
     msg_severity := Some sev; msg_timestamp := ts;
     msg_location := None; msg_cellular_data := None;
     msg_description := None; msg_confidence := Some (7 # 10)%Q |}.

Definition imsi (tid : string) : frame :=
  Object (cellular_threat_msg (threat tid "IMSI_CATCHER_SUSPECTED" "medium" None)).

Definition second (n : Z) : Z := n * 1000000.

(** Device A reports two IMSI-catcher threats, then device B reports one. *)
Definition two_devices : list event :=
  [Receive 1 (register "A" "k1") (second 0) "u0";
   Receive 2 (register "B" "k1") (second 1) "u1";
   Receive 1 (imsi "T1") (second 10) "u2";
   Receive 1 (imsi "T2") (second 20) "u3";
   Receive 2 (imsi "T3") (second 30) "u4"].

(** Devices A, B and C report one IMSI-catcher threat each within a
    minute; A then reports another. *)
Definition trio_then_repeat : list event :=
  [Receive 1 (register "A" "k1") (second 0) "u0";
   Receive 2 (register "B" "k1") (second 1) "u1";
   Receive 3 (register "C" "k1") (second 2) "u2";
   Receive 1 (imsi "T1") (second 10) "u3";
   Receive 2 (imsi "T2") (second 20) "u4";
   Receive 3 (imsi "T3") (second 30) "u5";
   Receive 1 (imsi "T4") (second 40) "u6"].

(** A threat whose timestamp carries a UTC offset, such as
    2024-01-01T12:00:00+00:00. *)
Definition with_offset (tid : string) : frame :=
  Object (cellular_threat_msg
    (threat tid "SIGNAL_ANOMALY" "low" (Some (Iso (Aware (second 5) 0))))).

Definition resubmission_with_offset : list event :=
  [Receive 1 (register "A" "k1") (second 0) "u0";
   Receive 1 (with_offset "T1") (second 10) "u1";
   Receive 1 (with_offset "T1") (second 20) "u2"].

Definition resubmission_naive : list event :=
  [Receive 1 (register "A" "k1") (second 0) "u0";
   Receive 1 (imsi "T1") (second 10) "u1";
   Receive 1 (imsi "T1") (second 20) "u2"].

(** The server at the end of each run, started from [__init__]. *)
Definition after_two_devices : server := exec (serve two_devices ∅) (init keys).
Definition after_trio_then_repeat : server :=
  exec (serve trio_then_repeat ∅) (init keys).
Definition after_resubmission_with_offset : server :=
  exec (serve resubmission_with_offset ∅) (init keys).
Definition after_resubmission_naive : server :=
  exec (serve resubmission_naive ∅) (init keys).


(** The threat the server builds from [imsi tid] sent by [dev] and
    handled at second [n]. *)
Definition reported (dev tid : string) (n : Z) : RemoteCellularThreat :=
  {| device_id := dev; threat_id := tid;
     threat_type := "IMSI_CATCHER_SUSPECTED"; severity := "medium";
     timestamp := Naive (second n);
     location := None; cellular_data := None; description := "";
     confidence := (7 # 10)%Q |}.

(** The server once A, B and C have registered and reported, and the
    same server with a further threat of C appended to its history, as
    at the time that threat is analysed. *)
Definition after_trio : server :=
  exec (serve (take 6 trio_then_repeat) ∅) (init keys).

Definition after_trio_again : server :=
  set_threat_history (fun h => h ++ [reported "C" "T4" 40]) after_trio.

End ServerSamples.

(** ** cellular_security.py: the other rule-based detectors *)

Module MonitorDetectors.

Import Monitor.

(** The configuration values the detectors read:
    [config.get('imsi_catcher_detection', {}).get('enabled', True)],
    [config.get('signal_jump_threshold', 20)] and
    [config.get('tower_change_threshold', 5)].  A threshold is a JSON
    number. *)
Record config := {
  imsi_catcher_detection_enabled : bool;
  signal_jump_threshold : Q;
  tower_change_threshold : Q
}.

Definition default_config : config :=
  {| imsi_catcher_detection_enabled := true;
     signal_jump_threshold := 20;
     tower_change_threshold := 5 |}.

Definition imsi_signal_threat (clock : Z) (signal_jump : Z)
    (prev m : CellularMeasurement) : SecurityThreat :=
  {| threat_id := "IMSI_SIGNAL_" +:+ pretty clock;
     threat_type := "IMSI_CATCHER_SUSPECTED";
     severity := "high";
     threat_timestamp := timestamp m;
     evidence := [("signal_jump", EvInt signal_jump);
                  ("previous_strength", EvInt (signal_strength prev));
                  ("current_strength", EvInt (signal_strength m));
                  ("tower_id", EvStr (cell_id (tower m)))];
     confidence := 7 # 10;
     threat_location := location m;
     affected_towers := [cell_id (tower m)] |}.

Definition imsi_encrypt_threat (clock : Z) (m : CellularMeasurement) : SecurityThreat :=
  {| threat_id := "IMSI_ENCRYPT_" +:+ pretty clock;
     threat_type := "ENCRYPTION_DOWNGRADE";
     severity := "high";
     threat_timestamp := timestamp m;
     evidence := [("encryption_status", EvStr (encryption_status m));
                  ("tower_id", EvStr (cell_id (tower m)))];
     confidence := 8 # 10;
     threat_location := location m;
     affected_towers := [cell_id (tower m)] |}.

Definition imsi_downgrade_threat (clock : Z) (recent_techs : list string)
    (m : CellularMeasurement) : SecurityThreat :=
  {| threat_id := "IMSI_DOWNGRADE_" +:+ pretty clock;
     threat_type := "FORCED_TECHNOLOGY_DOWNGRADE";
     severity := "medium";
     threat_timestamp := timestamp m;
     evidence := [("current_technology", EvStr (technology m));
                  ("recent_technologies", EvStrs recent_techs);
                  ("tower_id", EvStr (cell_id (tower m)))];
     confidence := 6 # 10;
     threat_location := location m;
     affected_towers := [cell_id (tower m)] |}.

(** The three checks of [_detect_imsi_catcher], in source order. *)
Definition signal_jump_check (clock : Z) (cfg : config)
    (history : list CellularMeasurement) (m : CellularMeasurement)
  : list SecurityThreat :=
  match Py.penultimate history with
  | Some prev_measurement =>
      let signal_jump := signal_strength m - signal_strength prev_measurement in
      if Py.Qlt_bool (signal_jump_threshold cfg) (inject_Z signal_jump)
      then [imsi_signal_threat clock signal_jump prev_measurement m]
      else []
  | None => []
  end.

Definition encryption_absent_check (clock : Z) (m : CellularMeasurement)
  : list SecurityThreat :=
  if bool_decide (encryption_status m ∈ ["None"; "A5/0"])
  then [imsi_encrypt_threat clock m]
  else [].

Definition technology_downgrade_check (clock : Z)
    (history : list CellularMeasurement) (m : CellularMeasurement)
  : list SecurityThreat :=
  if bool_decide (technology m ∈ ["2G"; "GSM"]) && bool_decide (1 < length history)%nat
  then
    let recent_techs := map technology (Py.last_n 5 history) in
    if existsb (fun tech => bool_decide (tech ∈ ["4G"; "LTE"; "5G"])) recent_techs
    then [imsi_downgrade_threat clock recent_techs m]
    else []
  else [].

Definition _detect_imsi_catcher (clock : Z) (cfg : config)
    (history : list CellularMeasurement) (m : CellularMeasurement)
  : list SecurityThreat :=
  if negb (imsi_catcher_detection_enabled cfg) then []
  else signal_jump_check clock cfg history m
       ++ encryption_absent_check clock m
       ++ technology_downgrade_check clock history m.

(** [len(set(m.tower.cell_id for m in l))] *)
Definition distinct_cells (l : list CellularMeasurement) : nat :=
  size (list_to_set (C := gset string) (map (fun m => cell_id (tower m)) l)).

Definition tower_changes_threat (clock : Z) (cfg : config)
    (unique_towers : nat) (recent_towers : list string) (m : CellularMeasurement)
  : SecurityThreat :=
  {| threat_id := "TOWER_CHANGES_" +:+ pretty clock;
     threat_type := "EXCESSIVE_TOWER_CHANGES";
     severity := "medium";
     threat_timestamp := timestamp m;
     evidence := [("tower_count", EvInt (Z.of_nat unique_towers));
                  ("recent_towers", EvStrs recent_towers);
                  ("threshold", EvNum (tower_change_threshold cfg))];
     confidence := 6 # 10;
     threat_location := location m;
     affected_towers := [] |}.

Definition _detect_tower_behavior_anomalies (clock : Z) (cfg : config)
    (history : list CellularMeasurement) (m : CellularMeasurement)
  : list SecurityThreat :=
  if decide (10 <= length history)%nat then
    let recent := Py.last_n 10 history in
    let unique_towers := distinct_cells recent in
    if Py.Qlt_bool (tower_change_threshold cfg) (inject_Z (Z.of_nat unique_towers))
    then [tower_changes_threat clock cfg unique_towers
            (map (fun m => cell_id (tower m)) recent) m]
    else []
  else [].

(** [previous_tower and previous_tower != current_tower] *)
Definition tower_changed (previous_tower : option string) (current_tower : string)
  : bool :=
  match previous_tower with
  | Some (String c p) => bool_decide (String c p ≠ current_tower)
  | _ => false
  end.

(** One turn of the loop of [_count_tower_changes]: the accumulator is
    [(tower_changes, previous_tower)]. *)
Definition count_step (cutoff_time : Z) (acc : nat * option string)
    (measurement : CellularMeasurement) : nat * option string :=
  if timestamp measurement <? cutoff_time then acc
  else
    let current_tower := tower_key measurement in
    ((if tower_changed (snd acc) current_tower then S (fst acc) else fst acc),
     Some current_tower).

Definition _count_tower_changes (now : Z) (hours : Z)
    (history : list CellularMeasurement) : nat :=
  let cutoff_time := now - hours * 3600 * 1000000 in
  fst (fold_left (count_step cutoff_time) history (0%nat, None)).

(** The keys of the parsed [mmcli] output that
    [_create_measurement_from_mmcli] reads. *)
Record mmcli_info := {
  info_cell_id : option string;
  info_lac : option string;
  info_mcc : option string;
  info_mnc : option string;
  info_technology : option string;
  info_signal_strength : option Z
}.

(** The encryption tag [_create_measurement_from_mmcli] derives from the
    technology text. *)
Definition mmcli_encryption (technology_text : string) : string :=
  let tech := Py.upper technology_text in
  if Py.contains "5G" tech || Py.contains "NR" tech then "A5/3"
  else if Py.contains "4G" tech || Py.contains "LTE" tech then "A5/3"
  else if Py.contains "3G" tech || Py.contains "UMTS" tech then "A5/1"
  else "Unknown".

Definition _create_measurement_from_mmcli (clock now : Z) (info : mmcli_info)
  : CellularMeasurement :=
  let tw :=
    {| cell_id := default ("CELL_MM_" +:+ pretty clock) (info_cell_id info);
       lac := default ("LAC_MM_" +:+ pretty clock) (info_lac info);
       mcc := default "310" (info_mcc info);
       mnc := default "260" (info_mnc info);
       tower_technology := default "Unknown" (info_technology info);
       frequency := Some 0%Q;
       tower_location := None;
       first_seen := now;
       last_seen := now;
       signal_strength_history := [] |} in
  {| timestamp := now;
     tower := tw;
     signal_strength := default (-85) (info_signal_strength info);
     signal_quality := None;
     technology := tower_technology tw;
     encryption_status := mmcli_encryption (default "" (info_technology info));
     serving_tower := true;
     neighbor_towers := [];
     location := None;
     device_movement_speed := None |}.

(** [_detect_encryption_macos]; the argument is
    [modem_info.get('current_radio_technology')]. *)
Definition _detect_encryption_macos (current_radio_technology : option string)
  : string :=
  let current_tech := Py.upper (default "" current_radio_technology) in
  if Py.contains "5G" current_tech || Py.contains "NR" current_tech then "A5/3"
  else if Py.contains "4G" current_tech || Py.contains "LTE" current_tech then "A5/3"
  else if Py.contains "3G" current_tech || Py.contains "UMTS" current_tech then "A5/1"
  else if Py.contains "2G" current_tech || Py.contains "GSM" current_tech then "A5/1"
  else "Unknown".

(** *** Vocabulary of the properties *)

(** The number of places in a list of keys where a key differs from the
    one before it, [previous] standing before the first. *)
Fixpoint changes_from (previous : option string) (keys : list string) : nat :=
  match keys with
  | [] => 0
  | k :: ks =>
      (if tower_changed previous k then 1 else 0) + changes_from (Some k) ks
  end.

(** The measurements [_count_tower_changes] does not skip. *)
Definition since_cutoff (now hours : Z) (history : list CellularMeasurement)
  : list CellularMeasurement :=
  filter (fun m => now - hours * 3600 * 1000000 <= timestamp m) history.

End MonitorDetectors.

(** ** advanced_cellular_security.py: the other detectors and the
    pipeline

    [np.mean] and [np.std] are library functions; the definitions that
    call them take them as parameters. *)

Module AdvancedDetectors.

Import Monitor Advanced.

(** [min(x, 1.0)] *)
Definition min_one (x : Q) : Q := if Qle_bool x 1 then x else 1.

(** [min(l)] of a non-empty list of ints. *)
Definition min_list (l : list Z) : option Z :=
  match l with
  | [] => None
  | x :: xs => Some (fold_left Z.min xs x)
  end.

(** [sum(l)] *)
Definition sum_list (l : list Z) : Z := fold_left Z.add l 0.

(** An entry of [statistical_models]. *)
Record model := {
  mean : Q;
  std : Q;
  samples : list Z
}.

(** The two entries of [statistical_models] that are ever written. *)
Record statistical_models := {
  signal_strength_model : model;
  timing_advance_model : model
}.

(** [_init_statistical_models] *)
Definition empty_model : model := {| mean := 0; std := 0; samples := [] |}.

Definition init_statistical_models : statistical_models :=
  {| signal_strength_model := empty_model; timing_advance_model := empty_model |}.

(** The entries of the dictionary [_extract_ml_features] builds: the
    signal entries are present when some buffered signal strength is not
    0, the timing-advance entries when some buffered sample has one. *)
Record signal_stats := {
  signal_mean : Q;
  signal_std : Q;
  signal_range : Z
}.

Record ta_stats := {
  ta_mean : Q;
  ta_std : Q;
  ta_zero_count : nat
}.

Record ml_features := {
  signal_features : option signal_stats;
  ta_features : option ta_stats;
  tech_changes : nat;
  has_downgrade : bool;
  tower_changes : nat
}.

(** An entry of [fingerprint_database['known_imsi_catchers']]; a key of
    [signatures] that is absent is [None]. *)
Record imsi_catcher := {
  name : string;
  timing_advance_pattern : option (list Z);
  signal_characteristics : option (list (string * string));
  protocol_deviations : option (list string)
}.

Definition stingray : imsi_catcher :=
  {| name := "StingRay";
     timing_advance_pattern := Some [0; 1; 0; 1];
     signal_characteristics := Some [("power_variations", "high")];
     protocol_deviations := Some ["invalid_lac"; "forced_2g"] |}.

Definition hailstorm : imsi_catcher :=
  {| name := "Hailstorm";
     timing_advance_pattern := Some [0; 0; 1; 1];
     signal_characteristics := Some [("power_variations", "medium")];
     protocol_deviations := Some ["encryption_downgrade"] |}.

Definition drt_box : imsi_catcher :=
  {| name := "DRT Box";
     timing_advance_pattern := Some [1; 0; 0; 0];
     signal_characteristics := Some [("power_variations", "low")];
     protocol_deviations := Some ["fake_paging"; "location_update_reject"] |}.

Definition known_imsi_catchers : list imsi_catcher :=
  [stingray; hailstorm; drt_box].

(** [detection_thresholds['rf_fingerprint_match']] *)
Definition rf_fingerprint_match : Q := 85 # 100.

(** The first check of [_calculate_signature_similarity]: its
    contribution and whether it counts. *)
Definition timing_advance_score (features : ml_features) (c : imsi_catcher)
  : Q * nat :=
  match timing_advance_pattern c, ta_features features with
  | Some pattern, Some ta =>
      let expected_zeros := sum_list pattern in
      let actual_zeros := Z.of_nat (ta_zero_count ta) in
      ((if 0 <? expected_zeros
        then min_one (inject_Z actual_zeros / inject_Z expected_zeros)
        else 0)%Q,
       1%nat)
  | _, _ => (0%Q, 0%nat)
  end.

Definition signal_score (features : ml_features) (c : imsi_catcher) : Q * nat :=
  match signal_characteristics c, signal_features features with
  | Some characteristics, Some sig =>
      let power_var :=
        default "medium" (Py.dict_get characteristics "power_variations") in
      let signal_std := signal_std sig in
      ((if bool_decide (power_var = "high") && Py.Qlt_bool 10 signal_std then 1
        else if bool_decide (power_var = "medium")
                && Qle_bool 5 signal_std && Qle_bool signal_std 15 then 1
        else if bool_decide (power_var = "low") && Py.Qlt_bool signal_std 5 then 1
        else 0)%Q,
       1%nat)
  | _, _ => (0%Q, 0%nat)
  end.

(** ['has_downgrade'] is in every feature dictionary. *)
Definition protocol_score (features : ml_features) (c : imsi_catcher) : Q * nat :=
  match protocol_deviations c with
  | Some deviations =>
      ((if bool_decide ("forced_2g" ∈ deviations) && has_downgrade features
        then 1 else 0)%Q,
       1%nat)
  | None => (0%Q, 0%nat)
  end.

Definition _calculate_signature_similarity (features : ml_features)
    (c : imsi_catcher) : Q :=
  let '(s1, n1) := timing_advance_score features c in
  let '(s2, n2) := signal_score features c in
  let '(s3, n3) := protocol_score features c in
  let similarity := (0 + s1 + s2 + s3)%Q in
  let total_checks := (n1 + n2 + n3)%nat in
  if decide (0 < total_checks)%nat
  then (similarity / inject_Z (Z.of_nat total_checks))%Q
  else 0%Q.

(** [_detect_jamming_attacks] *)
Definition jamming_threat (clock : Z) (metrics : AdvancedCellularMetrics) (s : Q)
  : SecurityThreat :=
  mk_threat "JAMMING_" clock "POTENTIAL_JAMMING" "high" (timestamp metrics)
    [("sinr", EvNum s);
     ("signal_strength", EvInt (signal_strength metrics));
     ("tower_id", EvStr (cell_id (tower metrics)))]
    (7 # 10).

Definition _detect_jamming_attacks (clock : Z) (metrics : AdvancedCellularMetrics)
  : list SecurityThreat :=
  match sinr metrics with
  | Some s => if Py.Qlt_bool s (-10) then [jamming_threat clock metrics s] else []
  | None => []
  end.

(** [_detect_location_spoofing] has no body. *)
Definition _detect_location_spoofing (metrics : AdvancedCellularMetrics)
  : list SecurityThreat := [].

Section Numpy.

Variables np_mean np_std : list Q → Q.

(** One entry of [statistical_models] after a sample: append, drop the
    oldest when more than 100 are held, recompute. *)
Definition update_model (m : model) (x : Z) : model :=
  let appended := samples m ++ [x] in
  let kept := if decide (100 < length appended)%nat then drop 1 appended else appended in
  {| mean := np_mean (map inject_Z kept);
     std := np_std (map inject_Z kept);
     samples := kept |}.

(** [if metrics.signal_strength:] is false for 0. *)
Definition _update_statistical_models (models : statistical_models)
    (metrics : AdvancedCellularMetrics) : statistical_models :=
  {| signal_strength_model :=
       if signal_strength metrics =? 0 then signal_strength_model models
       else update_model (signal_strength_model models) (signal_strength metrics);
     timing_advance_model :=
       match timing_advance metrics with
       | Some ta => update_model (timing_advance_model models) ta
       | None => timing_advance_model models
       end |}.

Definition rf_anomaly_threat (clock : Z) (metrics : AdvancedCellularMetrics)
    (rsrq_std : Q) (recent_rsrq : list Q) : SecurityThreat :=
  mk_threat "RF_ANOMALY_" clock "RF_FINGERPRINT_ANOMALY" "medium" (timestamp metrics)
    [("rsrq_std", EvNum rsrq_std);
     ("recent_rsrq", EvNums recent_rsrq);
     ("threshold", EvInt 10)]
    (5 # 10).

Definition rf_signature_threat (clock : Z) (metrics : AdvancedCellularMetrics)
    (rp rq ratio : Q) : SecurityThreat :=
  mk_threat "RF_SIGNATURE_" clock "SUSPICIOUS_RF_SIGNATURE" "medium" (timestamp metrics)
    [("rsrp", EvNum rp); ("rsrq", EvNum rq); ("ratio", EvNum ratio)]
    (6 # 10).

(** Lines 239-259. *)
Definition rsrq_variation_check (clock : Z)
    (measurement_buffer : list AdvancedCellularMetrics)
    (metrics : AdvancedCellularMetrics) : list SecurityThreat :=
  let recent_rsrq := omap rsrq (Py.last_n 10 measurement_buffer) in
  if decide (5 <= length recent_rsrq)%nat then
    let rsrq_std := np_std recent_rsrq in
    if Py.Qlt_bool 10 rsrq_std
    then [rf_anomaly_threat clock metrics rsrq_std recent_rsrq]
    else []
  else [].

(** Lines 261-279: [if metrics.rsrp and metrics.rsrq:] needs both
    present and not 0.  The quotient is exact here;
    [RoundedDetectors.rsrp_rsrq_check] has it rounded. *)
Definition rsrp_rsrq_check (clock : Z) (metrics : AdvancedCellularMetrics)
  : list SecurityThreat :=
  match rsrp metrics, rsrq metrics with
  | Some rp, Some rq =>
      if Py.Qfalsy rp || Py.Qfalsy rq then []
      else
        let rsrp_rsrq_ratio := (if negb (Qeq_bool rq 0) then rp / rq else 0)%Q in
        if Py.Qlt_bool 50 rsrp_rsrq_ratio || Py.Qlt_bool rsrp_rsrq_ratio (1 # 10)
        then [rf_signature_threat clock metrics rp rq rsrp_rsrq_ratio]
        else []
  | _, _ => []
  end.

Definition _detect_rf_fingerprint_anomalies (clock : Z)
    (measurement_buffer : list AdvancedCellularMetrics)
    (metrics : AdvancedCellularMetrics) : list SecurityThreat :=
  if decide (length measurement_buffer < 10)%nat then []
  else rsrq_variation_check clock measurement_buffer metrics
       ++ rsrp_rsrq_check clock metrics.

Definition _extract_ml_features (measurement_buffer : list AdvancedCellularMetrics)
  : ml_features :=
  let signals :=
    filter (fun s => s ≠ 0) (map signal_strength measurement_buffer) in
  let timing_advances := omap timing_advance measurement_buffer in
  let technologies :=
    map (fun m => tower_technology (tower m)) measurement_buffer in
  let towers := map (fun m => cell_id (tower m)) measurement_buffer in
  {| signal_features :=
       match Py.max_list signals, min_list signals with
       | Some hi, Some lo =>
           Some {| signal_mean := np_mean (map inject_Z signals);
                   signal_std := np_std (map inject_Z signals);
                   signal_range := hi - lo |}
       | _, _ => None
       end;
     ta_features :=
       match timing_advances with
       | [] => None
       | _ :: _ =>
           Some {| ta_mean := np_mean (map inject_Z timing_advances);
                   ta_std := np_std (map inject_Z timing_advances);
                   ta_zero_count := length (filter (fun ta => ta = 0) timing_advances) |}
       end;
     tech_changes := size (list_to_set (C := gset string) technologies);
     has_downgrade :=
       existsb (fun tech => bool_decide (tech ∈ technologies)) ["2G"; "GSM"];
     tower_changes := size (list_to_set (C := gset string) towers) |}.

(** The two nested dictionaries of the evidence ([matching_signatures],
    [features]) are left out. *)
Definition sophisticated_threat (clock : Z) (metrics : AdvancedCellularMetrics)
    (c : imsi_catcher) (similarity_score : Q) : SecurityThreat :=
  mk_threat "SOPHISTICATED_IMSI_" clock "SOPHISTICATED_IMSI_CATCHER" "critical"
    (timestamp metrics)
    [("imsi_catcher_type", EvStr (name c));
     ("similarity_score", EvNum similarity_score)]
    similarity_score.

Definition _detect_sophisticated_imsi_catchers (clock : Z)
    (measurement_buffer : list AdvancedCellularMetrics)
    (metrics : AdvancedCellularMetrics) : list SecurityThreat :=
  if decide (length measurement_buffer < 20)%nat then []
  else
    let features := _extract_ml_features measurement_buffer in
    flat_map
      (fun c =>
         let similarity_score := _calculate_signature_similarity features c in
         if Py.Qlt_bool rf_fingerprint_match similarity_score
         then [sophisticated_threat clock metrics c similarity_score]
         else [])
      known_imsi_catchers.

(** The detector object: the buffer and the statistical models. *)
Record detector := {
  measurement_buffer : list AdvancedCellularMetrics;
  statistical_models_of : statistical_models
}.

Definition init_detector : detector :=
  {| measurement_buffer := []; statistical_models_of := init_statistical_models |}.

(** [analyze_advanced_metrics] with all eight detectors. *)
Definition analyze_advanced_metrics (clock : Z) (d : detector)
    (metrics : AdvancedCellularMetrics) : detector * list SecurityThreat :=
  let buffer := Py.deque_append 1000 (measurement_buffer d) metrics in
  let models := _update_statistical_models (statistical_models_of d) metrics in
  ({| measurement_buffer := buffer; statistical_models_of := models |},
   _detect_timing_advance_anomalies clock buffer metrics
   ++ _detect_rf_fingerprint_anomalies clock buffer metrics
   ++ _detect_protocol_anomalies clock metrics
   ++ _detect_frequency_anomalies clock buffer metrics
   ++ _detect_power_analysis_attacks clock buffer metrics
   ++ _detect_sophisticated_imsi_catchers clock buffer metrics
   ++ _detect_jamming_attacks clock metrics
   ++ _detect_location_spoofing metrics).

(** Feeding a list of samples, oldest first. *)
Definition analyze_all (clock : Z) (d : detector)
    (l : list AdvancedCellularMetrics) : detector :=
  fold_left (fun d metrics => fst (analyze_advanced_metrics clock d metrics)) l d.

(** The entry of [statistical_models] that a window of samples gives:
    the initial entry while nothing has been recorded. *)
Definition model_of (window : list Z) : model :=
  match window with
  | [] => empty_model
  | _ :: _ =>
      {| mean := np_mean (map inject_Z window);
         std := np_std (map inject_Z window);
         samples := window |}
  end.

End Numpy.

(** *** Vocabulary of the properties *)

(** The threat types of the pipeline in the order of its detectors, each
    with the severity and the confidence its threats are built with; the
    confidence of SOPHISTICATED_IMSI_CATCHER is the similarity score. *)
Definition threat_table : list (string * (string * Q)) :=
  [("TIMING_ADVANCE_ZERO", ("medium", 6 # 10));
   ("IMPOSSIBLE_TIMING_ADVANCE_CHANGE", ("high", 9 # 10));
   ("RF_FINGERPRINT_ANOMALY", ("medium", 5 # 10));
   ("SUSPICIOUS_RF_SIGNATURE", ("medium", 6 # 10));
   ("INVALID_PHYSICAL_CELL_ID", ("high", 9 # 10));
   ("EXCESSIVE_NEIGHBOR_CELLS", ("medium", 5 # 10));
   ("FREQUENCY_OUT_OF_BAND", ("high", 8 # 10));
   ("SUSPICIOUS_FREQUENCY_HOPPING", ("medium", 6 # 10));
   ("SUSPICIOUS_POWER_CONTROL", ("medium", 5 # 10));
   ("SOPHISTICATED_IMSI_CATCHER", ("critical", 1));
   ("POTENTIAL_JAMMING", ("high", 7 # 10))]%Q.

(** A threat carries the severity and confidence the table gives its
    type, the timestamp of the sample, and the defaults of the fields the
    detectors never pass. *)
Definition as_tabled (metrics : AdvancedCellularMetrics) (t : SecurityThreat)
  : Prop :=
  ∃ sev conf,
    Py.dict_get threat_table (threat_type t) = Some (sev, conf)
    ∧ severity t = sev ∧ (confidence t == conf)%Q
    ∧ threat_timestamp t = timestamp metrics
    ∧ threat_location t = None ∧ affected_towers t = [].

(** No two entries of a list of floats are equal. *)
Definition all_different (l : list Q) : Prop :=
  ∀ i j x y, (i < j)%nat → l !! i = Some x → l !! j = Some y → ¬ (x == y)%Q.

(** The features under which the StingRay signature scores above the
    threshold: a 2G or GSM tower in the buffer; a signal deviation above
    10 when signal entries are present; at least two samples with timing
    advance 0 when timing-advance entries are present. *)
Definition stingray_matches (features : ml_features) : bool :=
  has_downgrade features
  && match signal_features features with
     | Some sig => Py.Qlt_bool 10 (signal_std sig)
     | None => true
     end
  && match ta_features features with
     | Some ta => bool_decide (2 <= ta_zero_count ta)%nat
     | None => true
     end.

End AdvancedDetectors.

(** ** Floating-point arithmetic

    Where a detector compares the result of several operations on floats
    with a bound, the outcome near the bound depends on how each
    operation rounds.  The detectors of [RoundedDetectors] below apply a
    rounding after every operation of the source on floats.  The rounding
    of a Python [float] is [round_nearest_even]: to 53 significant bits,
    to nearest, ties to even.  What is proved of the detectors holds for
    every rounding with the properties collected in [Rounding]. *)

From Stdlib Require Import Lqa Qround Qpower.

Module Binary64.

(** [2^-53], the largest relative error of rounding to nearest. *)
Definition unit_roundoff : Q := 1 # 9007199254740992.

(** [10^-30] and [10^30]: between them a binary64 number is normal, with
    room to spare on either side. *)
Definition least : Q := 1 # 1000000000000000000000000000000.
Definition most : Q := 1000000000000000000000000000000.

(** What is relied on of the rounding of binary64 (to nearest, ties to
    even): it keeps the order, it is symmetric, it leaves the integers up
    to [2^53] as they are, and between [least] and [most] its relative
    error is at most [unit_roundoff]. *)
Class Rounding := {
  fl : Q → Q;
  fl_mono : ∀ x y, (x <= y)%Q → (fl x <= fl y)%Q;
  fl_odd : ∀ x, (fl (- x) == - fl x)%Q;
  fl_integer : ∀ n : Z,
    - 9007199254740992 <= n <= 9007199254740992 →
    (fl (inject_Z n) == inject_Z n)%Q;
  fl_error : ∀ x, (least <= x)%Q → (x <= most)%Q →
    (x * (1 - unit_roundoff) <= fl x)%Q ∧ (fl x <= x * (1 + unit_roundoff))%Q
}.

(** Arithmetic without rounding is one such rounding. *)
Lemma exact_error (x : Q) :
  (least <= x)%Q → (x <= most)%Q →
  (x * (1 - unit_roundoff) <= x)%Q ∧ (x <= x * (1 + unit_roundoff))%Q.
Proof. unfold least, most, unit_roundoff. intros H1 H2. split; lra. Qed.

Definition exact : Rounding :=
  {| fl := fun x => x;
     fl_mono := fun _ _ H => H;
     fl_odd := fun x => Qeq_refl (- x);
     fl_integer := fun n _ => Qeq_refl (inject_Z n);
     fl_error := exact_error |}.

(** *** Rounding to 53 significant bits *)

(** The nearest integer, the even one of two that are as near. *)
Definition rne (t : Q) : Z :=
  let f := Qfloor t in
  match (t - inject_Z f ?= 1 # 2)%Q with
  | Lt => f
  | Gt => f + 1
  | Eq => if Z.even f then f else f + 1
  end.

(** For [0 < x], the exponent [e] with [2^e <= x < 2^(e+1)]. *)
Definition binade (x : Q) : Z :=
  let e := Z.log2 (Qnum x) - Z.log2 (Zpos (Qden x)) in
  if Qle_bool (2 ^ e) x then e else e - 1.

(** For [0 < x], the nearest multiple of [2^(e-52)], the spacing of the
    floats from [2^e] to [2^(e+1)]. *)
Definition round_pos (x : Q) : Q :=
  let e := binade x - 52 in
  (inject_Z (rne (x / 2 ^ e)) * 2 ^ e)%Q.

(** The binary64 number a real number is rounded to.  The exponent range
    of binary64 is not modelled: a result beyond [2^1024] in magnitude is
    not replaced by an infinity, one below [2^-1022] is not rounded on
    the coarser grid of the subnormal numbers. *)
Definition round_nearest_even (x : Q) : Q :=
  match (x ?= 0)%Q with
  | Eq => 0
  | Gt => round_pos x
  | Lt => - round_pos (- x)
  end%Q.

End Binary64.

(** ** advanced_cellular_security.py: the two detectors that compute with
    floats, every operation rounded *)

Module RoundedDetectors.

Import Monitor Advanced AdvancedDetectors Binary64.

Section Rounded.

Context {R : Rounding}.

(** [max_distance_change = 300 * time_diff;
     max_ta_change = max_distance_change / 554] *)
Definition max_ta_change_of (time_diff : Q) : Q :=
  let max_distance_change := fl (300 * time_diff) in
  fl (max_distance_change / 554).

(** Lines 200-228; [total_seconds()] is the division of the microseconds
    by [10**6], and [ta_change] is an [int], which Python compares with
    the float exactly. *)
Definition impossible_ta_change (clock : Z)
    (measurement_buffer : list AdvancedCellularMetrics)
    (metrics : AdvancedCellularMetrics) (ta : Z) : list SecurityThreat :=
  match Py.penultimate measurement_buffer with
  | Some prev_metrics =>
      match timing_advance prev_metrics with
      | Some prev_ta =>
          let ta_change := Z.abs (ta - prev_ta) in
          let time_diff :=
            fl (Py.total_seconds (timestamp metrics - timestamp prev_metrics)) in
          let max_ta_change := max_ta_change_of time_diff in
          if Py.Qlt_bool (fl (max_ta_change * 2)) (inject_Z ta_change)
          then [ta_impossible_threat clock metrics ta_change time_diff
                  max_ta_change prev_ta ta]
          else []
      | None => []
      end
  | None => []
  end.

Definition _detect_timing_advance_anomalies (clock : Z)
    (measurement_buffer : list AdvancedCellularMetrics)
    (metrics : AdvancedCellularMetrics) : list SecurityThreat :=
  match timing_advance metrics with
  | None => []
  | Some ta =>
      (if ta =? 0 then [ta_zero_threat clock metrics ta] else [])
      ++ impossible_ta_change clock measurement_buffer metrics ta
  end.

(** Lines 261-279: the quotient is rounded, [50] is an [int], and [0.1]
    is the float nearest to one tenth. *)
Definition rsrp_rsrq_check (clock : Z) (metrics : AdvancedCellularMetrics)
  : list SecurityThreat :=
  match rsrp metrics, rsrq metrics with
  | Some rp, Some rq =>
      if Py.Qfalsy rp || Py.Qfalsy rq then []
      else
        let rsrp_rsrq_ratio := (if negb (Qeq_bool rq 0) then fl (rp / rq) else 0)%Q in
        if Py.Qlt_bool 50 rsrp_rsrq_ratio || Py.Qlt_bool rsrp_rsrq_ratio (fl (1 # 10))
        then [rf_signature_threat clock metrics rp rq rsrp_rsrq_ratio]
        else []
  | _, _ => []
  end.

Definition _detect_rf_fingerprint_anomalies (np_std : list Q → Q) (clock : Z)
    (measurement_buffer : list AdvancedCellularMetrics)
    (metrics : AdvancedCellularMetrics) : list SecurityThreat :=
  if decide (length measurement_buffer < 10)%nat then []
  else rsrq_variation_check np_std clock measurement_buffer metrics
       ++ rsrp_rsrq_check clock metrics.

End Rounded.

(** *** Vocabulary of the properties *)

(** [554 * 10^6]: the divisor of the bound, for differences of timestamps
    in microseconds. *)
Definition ta_scale : Z := 554000000.

(** The largest distance between two [datetime]s is less than [10^18]
    microseconds. *)
Definition datetime_span : Z := 1000000000000000000.

End RoundedDetectors.

(** ** cellular_remote_server.py: statistics, and the vocabulary of the
    properties of runs *)

Module ServerStatistics.

Import Server.

(** The dictionary [get_statistics] returns, but for [uptime], which is
    the clock reading. *)
Record statistics := {
  stat_connected_devices : nat;
  stat_total_threats : nat;
  threats_1h : nat;
  threats_24h : nat;
  threats_7d : nat;
  threat_types : list (string * Z)
}.

(** [for threat in self.threat_history:
       threat_types[threat.threat_type] =
         threat_types.get(threat.threat_type, 0) + 1] *)
Definition count_types (history : list RemoteCellularThreat) : list (string * Z) :=
  fold_left
    (fun threat_types threat =>
       Py.od_set threat_types (threat_type threat)
         (default 0 (Py.dict_get threat_types (threat_type threat)) + 1))
    history [].

(** [get_statistics]: it has no [try], so the [TypeError] of a
    subtraction reaches the caller. *)
Definition get_statistics (now : Z) (s : server) : result statistics :=
  match recent now (timedelta_hours 1) (fun _ => true) (threat_history s) with
  | Raise e => Raise e
  | Ok in_1h =>
      match recent now (timedelta_days 1) (fun _ => true) (threat_history s) with
      | Raise e => Raise e
      | Ok in_24h =>
          match recent now (timedelta_days 7) (fun _ => true) (threat_history s) with
          | Raise e => Raise e
          | Ok in_7d =>
              Ok {| stat_connected_devices := length (connected_devices s);
                    stat_total_threats := length (threat_history s);
                    threats_1h := length in_1h;
                    threats_24h := length in_24h;
                    threats_7d := length in_7d;
                    threat_types := count_types (threat_history s) |}
          end
      end
  end.

(** *** Vocabulary of the properties *)

(** A handler returns, whatever the state. *)
Definition returns {A : Type} (m : M A) : Prop :=
  ∀ s, ∃ a s', m s = (Ok a, s').

(** The state a handler leaves is related to the one it found, whether it
    returned or raised. *)
Definition keeps {A : Type} (R : server → server → Prop) (m : M A) : Prop :=
  ∀ s, R s (exec m s).

(** Keys and rules are the same; the trace and the history have only been
    extended. *)
Definition grown (s s' : server) : Prop :=
  api_keys s' = api_keys s
  ∧ monitoring_rules s' = monitoring_rules s
  ∧ sent s `prefix_of` sent s'
  ∧ threat_history s `prefix_of` threat_history s'.

(** The table [cellular_threats] that storing the threats of a history
    one after the other gives, and its AUTOINCREMENT counter. *)
Definition replay (history : list RemoteCellularThreat) : database :=
  db (fold_left (fun s threat => exec (store_threat threat) s) history (init ∅)).

Definition stored_as_replayed (s : server) : Prop :=
  cellular_threats (db s) = cellular_threats (replay (threat_history s))
  ∧ cellular_threats_seq (db s) = cellular_threats_seq (replay (threat_history s)).








(** [threat.severity.lower() in ['high', 'critical']] *)
Definition urgent (threat : RemoteCellularThreat) : bool :=
  bool_decide (Py.lower (severity threat) = "high")
  || bool_decide (Py.lower (severity threat) = "critical").

(** The [high_priority_alert] messages sent to [ws]: the threats they
    carry. *)
Definition high_alerts (ws : nat) (l : list (nat * server_message))
  : list RemoteCellularThreat :=
  omap (fun p => match snd p with
                 | high_priority_alert threat _ _ _ =>
                     if decide (fst p = ws) then Some threat else None
                 | _ => None
                 end) l.

(** The replies of a given kind sent to [ws]. *)
Definition errors (ws : nat) (l : list (nat * server_message)) : list string :=
  omap (fun p => match snd p with
                 | error message _ => if decide (fst p = ws) then Some message else None
                 | _ => None
                 end) l.

End ServerStatistics.

(** ** Further concrete inputs *)

Module MoreSamples.

Import Monitor MonitorDetectors MonitorSamples.

(** A monitor configured to keep two measurements. *)
Definition small_monitor : monitor :=
  {| max_measurements := 2; tower_database := ∅; measurement_history := [] |}.

(** A measurement of the tower with the given identity. *)
Definition measurement_of (cell lac_ : string) (ts sig : Z) (tech enc : string)
  : CellularMeasurement :=
  {| timestamp := ts;
     tower := {| cell_id := cell; lac := lac_; mcc := "310"; mnc := "260";
                 tower_technology := tech; frequency := None;
                 tower_location := None; first_seen := ts; last_seen := ts;
                 signal_strength_history := [] |};
     signal_strength := sig; signal_quality := None; technology := tech;
     encryption_status := enc; serving_tower := true; neighbor_towers := [];
     location := None; device_movement_speed := None |}.

(** Parsed [mmcli] output that names the access technology only. *)
Definition technology_only (tech : string) : mmcli_info :=
  {| info_cell_id := None; info_lac := None; info_mcc := None; info_mnc := None;
     info_technology := Some tech; info_signal_strength := None |}.

End MoreSamples.


Module MoreServerSamples.

Import Server ServerSamples.

(** Device A registers on connection 1 and again on connection 2. *)
Definition reregistered : server :=
  exec (serve [Receive 1 (register "A" "k1") (second 0) "u0";
               Receive 2 (register "A" "k1") (second 1) "u1"] ∅)
    (init keys).

End MoreServerSamples.

Module MoreAdvancedSamples.

Import Monitor Advanced AdvancedSamples.

(** A sample that reports RSRP and RSRQ. *)
Definition rf_sample (rp rq : Q) : AdvancedCellularMetrics :=
  {| timestamp := 0; tower := MonitorSamples.sample_tower;
     signal_strength := -80; signal_quality := 20;
     timing_advance := None; frame_number := None; arfcn := None; pci := None;
     rsrp := Some rp; rsrq := Some rq; sinr := None; cqi := None;
     neighbor_cells := []; uplink_power := None;
     downlink_frequency := None; uplink_frequency := None;
     band := None; ca_bands := [] |}.

(** A sample on the given downlink frequency. *)
Definition on_frequency (f : Q) : AdvancedCellularMetrics :=
  sample_metrics 0 None None [] None (Some f).

(** Stand-ins for [np.mean] and [np.std] where their value plays no
    part. *)
Definition no_statistics (l : list Q) : Q := 0.

End MoreAdvancedSamples.
(** * Properties *)

(** ** Python helpers *)

Module PyFacts.

Lemma penultimate_snoc2 {A : Type} (pre : list A) (x y : A) :
  Py.penultimate (pre ++ [x; y]) = Some x.
Proof.
  unfold Py.penultimate. rewrite length_app. simpl.
  destruct (decide (1 < length pre + 2)%nat) as [_ | Hn]; [| lia].
  replace (length pre + 2 - 2)%nat with (length pre + 0)%nat by lia.
  by rewrite lookup_app_r, Nat.add_0_r, Nat.sub_diag by lia.
Qed.

Lemma last_n_all {A : Type} (n : nat) (l : list A) :
  (length l <= n)%nat → Py.last_n n l = l.
Proof.
  intros H. unfold Py.last_n.
  by replace (length l - n)%nat with 0%nat by lia.
Qed.

Lemma dict_get_od_set_eq {V : Type} (d : list (string * V)) k v :
  Py.dict_get (Py.od_set d k v) k = Some v.
Proof.
  induction d as [| [k' v'] d IH]; simpl.
  - by destruct (decide (k = k)).
  - destruct (decide (k' = k)) as [-> | Hne]; simpl.
    + by destruct (decide (k = k)).
    + by destruct (decide (k' = k)).
Qed.

Lemma dict_get_od_set_ne {V : Type} (d : list (string * V)) k k' v :
  k ≠ k' → Py.dict_get (Py.od_set d k v) k' = Py.dict_get d k'.
Proof.
  intros Hne. induction d as [| [k0 v0] d IH]; simpl.
  - by destruct (decide (k = k')).
  - destruct (decide (k0 = k)) as [-> | Hne0]; simpl.
    + by destruct (decide (k = k')).
    + destruct (decide (k0 = k')); [done | apply IH].
Qed.

Lemma filter_ext_elem {A : Type} (P Q : A → Prop)
    `{!∀ x, Decision (P x)} `{!∀ x, Decision (Q x)} (l : list A) :
  (∀ x, x ∈ l → (P x ↔ Q x)) → filter P l = filter Q l.
Proof.
  induction l as [| a l IH]; intros Hext; [done |].
  rewrite !filter_cons.
  rewrite IH by (intros x Hx; apply Hext; by right).
  destruct (decide (P a)) as [Hp | Hp], (decide (Q a)) as [Hq | Hq]; try done.
  - exfalso. apply Hq, (Hext a); [by left | done].
  - exfalso. apply Hp, (Hext a); [by left | done].
Qed.

Lemma filter_none {A : Type} (P : A → Prop) `{!∀ x, Decision (P x)} (l : list A) :
  (∀ x, x ∈ l → ¬ P x) → filter P l = [].
Proof.
  induction l as [| a l IH]; intros Hno; [done |].
  rewrite filter_cons_False by (apply Hno; by left).
  apply IH. intros x Hx. apply Hno. by right.
Qed.

End PyFacts.

(** ** The tower registry and the encryption detector *)

Module MonitorProofs.

Import Monitor MonitorSamples.

Lemma emits_nil type : ¬ emits type [].
Proof. intros (t & Ht & _). by apply elem_of_nil in Ht. Qed.

Lemma emits_singleton type t : emits type [t] ↔ threat_type t = type.
Proof.
  split.
  - intros (t' & Ht & Hty). apply list_elem_of_singleton in Ht. by subst.
  - intros H. exists t. split; [apply list_elem_of_singleton |]; done.
Qed.

Lemma strength_table :
  strength "A5/3" = 3 ∧ strength "A5/1" = 2 ∧ strength "A5/0" = 1
  ∧ strength "None" = 0 ∧ strength "Unknown" = -1.
Proof. repeat split. Qed.

(** A tag outside the table ranks like [Unknown]. *)
Lemma strength_range e : -1 <= strength e <= 3.
Proof.
  unfold strength, encryption_strength. simpl.
  repeat (case_decide; [simpl; lia |]). simpl. lia.
Qed.

(** The detector as one conditional on the two ranks. *)
Lemma detect_encryption_unfold clock history prev m :
  Py.penultimate history = Some prev →
  _detect_encryption_anomalies clock history m =
    if decide (strength (encryption_status m) < strength (encryption_status prev)
               ∧ 0 <= strength (encryption_status m))
    then [encryption_downgrade_threat clock (encryption_status prev) m]
    else [].
Proof.
  intros Hp. unfold _detect_encryption_anomalies. rewrite Hp. simpl.
  destruct (Z.ltb_spec (strength (encryption_status m))
              (strength (encryption_status prev)));
    destruct (Z.leb_spec 0 (strength (encryption_status m)));
    simpl; case_decide; (done || lia).
Qed.

(** When the history keeps at least two entries, the measurement
    analysed before the current one is the one the detector compares
    with. *)
Lemma analyze_measurement_previous clock st prev m :
  last (measurement_history st) = Some prev →
  (2 <= max_measurements st)%nat →
  Py.penultimate (measurement_history (fst (analyze_measurement clock st m)))
  = Some prev.
Proof.
  intros Hlast Hmax. simpl.
  destruct (measurement_history st) as [| x l] using rev_ind; [done |].
  clear IHl. rewrite last_snoc in Hlast. injection Hlast as ->.
  unfold Py.deque_append, Py.last_n.
  rewrite <- (assoc_L (++)). simpl.
  set (k := (length (l ++ [prev; m]) - max_measurements st)%nat).
  assert (Hk : (k <= length l)%nat).
  { subst k. rewrite length_app. simpl. lia. }
  rewrite drop_app_le by done.
  apply PyFacts.penultimate_snoc2.
Qed.

(** [C7] The encryption-transition detector ranks the tags A5/3=3,
    A5/1=2, A5/0=1, None=0, Unknown=-1 and, for a measurement [m] whose
    predecessor in the history is [prev], returns one ENCRYPTION_DOWNGRADE
    threat of severity medium and confidence 0.7 exactly when the rank of
    [prev] is strictly greater than the rank of [m] and the rank of [m] is
    at least 0; it returns nothing otherwise, and so nothing on the
    transition Unknown -> A5/1. *)
Theorem encryption_downgrade_exactly_when clock history prev m :
  Py.penultimate history = Some prev →
  let r := _detect_encryption_anomalies clock history m in
  let down := strength (encryption_status m) < strength (encryption_status prev)
              ∧ 0 <= strength (encryption_status m) in
  (strength "A5/3" = 3 ∧ strength "A5/1" = 2 ∧ strength "A5/0" = 1
   ∧ strength "None" = 0 ∧ strength "Unknown" = -1)
  ∧ (emits "ENCRYPTION_DOWNGRADE" r ↔ down)
  ∧ (down → ∃ t, r = [t] ∧ threat_type t = "ENCRYPTION_DOWNGRADE"
              ∧ severity t = "medium" ∧ confidence t = 7 # 10)
  ∧ (¬ down → r = [])
  ∧ (encryption_status prev = "Unknown" → encryption_status m = "A5/1" → r = []).
Proof.
  intros Hp r down. subst r.
  rewrite (detect_encryption_unfold _ _ _ _ Hp). fold down.
  split; [apply strength_table |].
  destruct (decide down) as [Hd | Hd].
  - split; [| split; [| split]].
    + rewrite emits_singleton. by split.
    + intros _. by eexists.
    + done.
    + intros Hu Ha. subst down. rewrite Hu, Ha in Hd.
      destruct Hd as [Hd _]. by vm_compute in Hd.
  - split; [| split; [| split]]; try done.
    split; [intros H; by apply emits_nil in H | done].
Qed.

(** The theorem at the history A5/3, None: the second sample is a
    downgrade. *)
Lemma encryption_downgrade_exactly_when_witness :
  emits "ENCRYPTION_DOWNGRADE"
    (_detect_encryption_anomalies 7
       [sample_measurement 0 (-80) "A5/3"; sample_measurement 1 (-80) "None"]
       (sample_measurement 1 (-80) "None")).
Proof.
  apply (encryption_downgrade_exactly_when 7
           [sample_measurement 0 (-80) "A5/3"; sample_measurement 1 (-80) "None"]
           (sample_measurement 0 (-80) "A5/3") (sample_measurement 1 (-80) "None")).
  - reflexivity.
  - vm_compute. split; [reflexivity | discriminate].
Defined.

(** The registry entry of a known tower after one more measurement. *)
Lemma update_tower_database_known db m tw :
  db !! tower_key m = Some tw →
  update_tower_database db m !! tower_key m = Some (update_existing tw m).
Proof.
  intros H. unfold update_tower_database. rewrite H. apply lookup_insert_eq.
Qed.

Lemma update_tower_database_new db m :
  db !! tower_key m = None →
  update_tower_database db m !! tower_key m = Some (tower m).
Proof.
  intros H. unfold update_tower_database. rewrite H. apply lookup_insert_eq.
Qed.

Lemma update_tower_database_other db m k :
  k ≠ tower_key m → update_tower_database db m !! k = db !! k.
Proof.
  intros H. unfold update_tower_database.
  destruct (db !! tower_key m); by rewrite lookup_insert_ne.
Qed.

(** [C8, as the code has it] For every measurement analysed against an
    already-known tower, the registry appends the measurement's signal
    strength to that tower's history, which grows by exactly one entry
    whatever its length, sets [last_seen] to the measurement's timestamp
    and keeps the identity fields; no cap is applied. *)
Theorem known_tower_history_grows clock st m tw :
  tower_database st !! tower_key m = Some tw →
  ∃ tw', tower_database (fst (analyze_measurement clock st m)) !! tower_key m
         = Some tw'
    ∧ signal_strength_history tw'
      = signal_strength_history tw ++ [signal_strength m]
    ∧ length (signal_strength_history tw')
      = S (length (signal_strength_history tw))
    ∧ last_seen tw' = timestamp m
    ∧ first_seen tw' = first_seen tw
    ∧ (cell_id tw', lac tw', mcc tw', mnc tw') = (cell_id tw, lac tw, mcc tw, mnc tw).
Proof.
  intros H. exists (update_existing tw m). simpl.
  split; [by apply update_tower_database_known |].
  repeat split. rewrite length_app. simpl. lia.
Qed.

(** The theorem at the second measurement of a tower. *)
Lemma known_tower_history_grows_witness :
  ∃ tw', tower_database
           (fst (analyze_measurement 0
                   (fst (analyze_measurement 0 fresh_monitor
                           (sample_measurement 0 (-80) "A5/3")))
                   (sample_measurement 1 (-75) "A5/3")))
         !! "C1_L1" = Some tw'
    ∧ signal_strength_history tw' = [-75].
Proof.
  destruct (known_tower_history_grows 0
              (fst (analyze_measurement 0 fresh_monitor
                      (sample_measurement 0 (-80) "A5/3")))
              (sample_measurement 1 (-75) "A5/3") sample_tower)
    as (tw' & Hl & Hh & _).
  - reflexivity.
  - exists tw'. split; [exact Hl | exact Hh].
Defined.

(** [C8, as stated, fails] Starting from an empty registry, 1,002
    measurements of one tower leave 1,001 entries in its history. *)
Lemma history_exceeds_1000 :
  ((fun tw => length (signal_strength_history tw)) <$>
     tower_database
       (analyze_all 0 fresh_monitor
          (replicate 1002 (sample_measurement 0 (-80) "A5/3")))
     !! "C1_L1") = Some 1001%nat
  ∧ (1000 < 1001)%nat.
Proof. split; [by vm_compute | lia]. Qed.

End MonitorProofs.

(** ** The detectors of the advanced monitor *)

Module AdvancedProofs.

Import Monitor Advanced AdvancedSamples.

Lemma emits_app type (l1 l2 : list SecurityThreat) :
  emits type (l1 ++ l2) ↔ emits type l1 ∨ emits type l2.
Proof.
  unfold emits. split.
  - intros (t & Ht & Hty). apply elem_of_app in Ht as [Ht | Ht]; eauto.
  - intros [(t & Ht & Hty) | (t & Ht & Hty)]; exists t;
      (split; [apply elem_of_app; eauto | done]).
Qed.

(** *** Protocol anomalies *)

(** The neighbour check returns at most the EXCESSIVE_NEIGHBOR_CELLS
    threat: its count-0 branch sits under the truth test of the list. *)
Lemma neighbor_check_cases clock metrics :
  neighbor_check clock metrics = []
  ∨ neighbor_check clock metrics
    = [too_many_neighbors_threat clock metrics (length (neighbor_cells metrics))].
Proof.
  unfold neighbor_check. destruct (neighbor_cells metrics) as [| c l] eqn:E; [by left |].
  case_decide; [done |]. case_decide; [by right | by left].
Qed.

Lemma pci_check_unfold clock metrics p :
  pci metrics = Some p →
  pci_check clock metrics =
    if decide (p < 0 ∨ 503 < p) then [invalid_pci_threat clock metrics p] else [].
Proof.
  intros H. unfold pci_check. rewrite H.
  destruct (Z.ltb_spec p 0); destruct (Z.ltb_spec 503 p); simpl;
    case_decide; (done || lia).
Qed.

Lemma neighbor_check_not_pci clock metrics :
  ¬ emits "INVALID_PHYSICAL_CELL_ID" (neighbor_check clock metrics).
Proof.
  destruct (neighbor_check_cases clock metrics) as [-> | ->].
  - apply MonitorProofs.emits_nil.
  - rewrite MonitorProofs.emits_singleton. discriminate.
Qed.

(** [C9] For a sample whose PCI is present, the protocol-anomaly detector
    returns an INVALID_PHYSICAL_CELL_ID threat exactly when PCI < 0 or
    PCI > 503, and every such threat has severity high and confidence 0.9;
    so PCI 0 and 503 do not fire while -1 and 504 do. *)
Theorem invalid_pci_exactly_when clock metrics p :
  pci metrics = Some p →
  let r := _detect_protocol_anomalies clock metrics in
  (emits "INVALID_PHYSICAL_CELL_ID" r ↔ p < 0 ∨ 503 < p)
  ∧ (∀ t, t ∈ r → threat_type t = "INVALID_PHYSICAL_CELL_ID" →
          severity t = "high" ∧ confidence t = 9 # 10)
  ∧ (p = 0 ∨ p = 503 → ¬ emits "INVALID_PHYSICAL_CELL_ID" r)
  ∧ (p = -1 ∨ p = 504 → emits "INVALID_PHYSICAL_CELL_ID" r).
Proof.
  intros Hp r.
  assert (Hiff : emits "INVALID_PHYSICAL_CELL_ID" r ↔ p < 0 ∨ 503 < p).
  { subst r. unfold _detect_protocol_anomalies.
    rewrite emits_app, (pci_check_unfold _ _ _ Hp).
    pose proof (neighbor_check_not_pci clock metrics) as Hn.
    case_decide as Hc.
    - split; [done |]. intros _. left. by apply MonitorProofs.emits_singleton.
    - split; [| done]. intros [H | H]; [by apply MonitorProofs.emits_nil in H | done]. }
  split; [exact Hiff |]. split; [| split].
  - intros t Ht Hty. subst r. unfold _detect_protocol_anomalies in Ht.
    apply elem_of_app in Ht as [Ht | Ht].
    + rewrite (pci_check_unfold _ _ _ Hp) in Ht. case_decide.
      * apply list_elem_of_singleton in Ht. by subst t.
      * by apply elem_of_nil in Ht.
    + exfalso. apply (neighbor_check_not_pci clock metrics). by exists t.
  - rewrite Hiff. lia.
  - rewrite Hiff. lia.
Qed.

(** The theorem at PCI 504. *)
Lemma invalid_pci_exactly_when_witness :
  emits "INVALID_PHYSICAL_CELL_ID"
    (_detect_protocol_anomalies 0 (sample_metrics 0 None (Some 504) [] None None)).
Proof.
  apply (invalid_pci_exactly_when 0
           (sample_metrics 0 None (Some 504) [] None None) 504).
  - reflexivity.
  - right. reflexivity.
Defined.

(** No input makes the detector return NO_NEIGHBOR_CELLS. *)
Lemma no_neighbor_cells_unreachable clock metrics :
  ¬ emits "NO_NEIGHBOR_CELLS" (_detect_protocol_anomalies clock metrics).
Proof.
  unfold _detect_protocol_anomalies. rewrite emits_app. intros [H | H].
  - unfold pci_check in H. destruct (pci metrics) as [p |].
    + destruct ((p <? 0) || (503 <? p)).
      * apply MonitorProofs.emits_singleton in H. discriminate.
      * by apply MonitorProofs.emits_nil in H.
    + by apply MonitorProofs.emits_nil in H.
  - destruct (neighbor_check_cases clock metrics) as [E | E]; rewrite E in H.
    + by apply MonitorProofs.emits_nil in H.
    + apply MonitorProofs.emits_singleton in H. discriminate.
Qed.

(** [C6, on the code] A sample whose neighbour list is present and empty
    gets no threat from the protocol-anomaly detector: the empty list
    fails the truth test that guards the count-0 branch. *)
Theorem empty_neighbor_list_not_reported :
  neighbor_cells no_neighbors = []
  ∧ _detect_protocol_anomalies 0 no_neighbors = []
  ∧ snd (analyze_advanced_metrics 0 [] no_neighbors) = [].
Proof. repeat split. Qed.

(** *** Timing advance *)

Lemma Qlt_bool_iff (x y : Q) : Py.Qlt_bool x y = true ↔ (x < y)%Q.
Proof.
  unfold Py.Qlt_bool. rewrite negb_true_iff, <- not_true_iff_false, Qle_bool_iff.
  split; [apply Qnot_le_lt | apply Qlt_not_le].
Qed.

(** The comparison [ta_change > max_ta_change * 2] in integers: with
    [delta] the microseconds between the two samples, it is
    [600 * delta < 554 * 10^6 * ta_change]. *)
Lemma ta_threshold_integers (delta ta_change : Z) :
  Py.Qlt_bool (max_ta_change_of (Py.total_seconds delta) * 2)%Q (inject_Z ta_change)
  = true
  ↔ 600 * delta < 554000000 * ta_change.
Proof.
  rewrite Qlt_bool_iff. unfold max_ta_change_of, Py.total_seconds, Qlt. simpl. lia.
Qed.

(** The bound the code computes for samples one second apart is
    300/554, about 0.54, and twice it is more than 1. *)
Lemma max_ta_change_one_second :
  (max_ta_change_of (Py.total_seconds 1000000) == 300 # 554)%Q
  ∧ (1 < max_ta_change_of (Py.total_seconds 1000000) * 2)%Q.
Proof. split; reflexivity. Qed.

(** [C2, on the code] For two samples one second apart whose timing
    advance goes from 5 to 6, the detector computes a maximum plausible
    change of 300/554 (not 0.15) and returns no threat: a change of 1 does
    not exceed twice that bound. *)
Theorem ta_change_of_one_not_flagged :
  (max_ta_change_of (Py.total_seconds (timestamp ta_second - timestamp ta_first))
   == 300 # 554)%Q
  ∧ (15 # 100
     < max_ta_change_of (Py.total_seconds (timestamp ta_second - timestamp ta_first)))%Q
  ∧ _detect_timing_advance_anomalies 0 [ta_first; ta_second] ta_second = []
  ∧ analyze_advanced_metrics 0 [ta_first] ta_second = ([ta_first; ta_second], []).
Proof. repeat split. Qed.

(** *** Zero-valued optional fields *)

Lemma Qfalsy_iff (x : Q) : Py.Qfalsy x = true ↔ (x == 0)%Q.
Proof. unfold Py.Qfalsy. apply Qeq_bool_iff. Qed.

(** [C10] A sample whose [downlink_frequency] is 0 gets the empty list
    from the frequency detector, as a sample without the field does,
    although 0 MHz lies in no accepted band; a sample whose [uplink_power]
    is 0 gets the empty list from the power-control detector, as a sample
    without the field does. *)
Theorem zero_field_treated_as_absent clock buffer metrics :
  (downlink_frequency metrics = None
   ∨ (∃ f, downlink_frequency metrics = Some f ∧ (f == 0)%Q) →
   _detect_frequency_anomalies clock buffer metrics = [])
  ∧ band_match 0 = false
  ∧ (uplink_power metrics = None ∨ uplink_power metrics = Some 0 →
     _detect_power_analysis_attacks clock buffer metrics = []).
Proof.
  split; [| split].
  - intros [H | (f & H & Hf)]; unfold _detect_frequency_anomalies; rewrite H; [done |].
    apply Qfalsy_iff in Hf. by rewrite Hf.
  - reflexivity.
  - intros [H | H]; unfold _detect_power_analysis_attacks; by rewrite H.
Qed.

(** The theorem at a sample with both fields 0, in a buffer that would
    otherwise let both detectors look further. *)
Lemma zero_field_treated_as_absent_witness :
  _detect_frequency_anomalies 0 (replicate 5 zero_fields) zero_fields = []
  ∧ _detect_power_analysis_attacks 0 (replicate 5 zero_fields) zero_fields = [].
Proof.
  pose proof (zero_field_treated_as_absent 0 (replicate 5 zero_fields) zero_fields)
    as (Hf & _ & Hp).
  split.
  - apply Hf. right. exists 0%Q. split; reflexivity.
  - apply Hp. right. reflexivity.
Defined.

(** A non-zero frequency outside every band is reported, so the silence
    at 0 is the truth test and not the band check. *)
Lemma one_mhz_out_of_band :
  emits "FREQUENCY_OUT_OF_BAND"
    (_detect_frequency_anomalies 0 [] (sample_metrics 0 None None [] None (Some 1%Q))).
Proof. eexists. split; [apply list_elem_of_here | reflexivity]. Qed.

End AdvancedProofs.

(** ** The server *)

Module ServerProofs.

Import Server ServerSamples.

(** *** Sending *)

Lemma for_each_send devices m s :
  for_each devices (fun d => send_message (websocket (snd d)) m) s
  = (Ok tt, set_sent (fun l => l ++ deliveries devices m) s).
Proof.
  revert s. induction devices as [| d l IH]; intros s.
  - simpl. unfold mret, M_ret, set_sent. rewrite app_nil_r. by destruct s.
  - simpl. unfold mbind, M_bind, send_message, modify. rewrite IH.
    unfold set_sent. simpl. by rewrite <- app_assoc.
Qed.

Lemma broadcast_sends m s :
  broadcast m s
  = (Ok tt, set_sent (fun l => l ++ deliveries (connected_devices s) m) s).
Proof. unfold broadcast, mbind, M_bind, gets. apply for_each_send. Qed.

Lemma acknowledgements_app ws l1 l2 :
  acknowledgements ws (l1 ++ l2) = acknowledgements ws l1 ++ acknowledgements ws l2.
Proof. unfold acknowledgements. apply omap_app. Qed.

Lemma acknowledgements_deliveries ws devices m :
  (∀ tid t, m ≠ threat_acknowledged tid t) →
  acknowledgements ws (deliveries devices m) = [].
Proof.
  intros Hm. induction devices as [| d l IH]; [done |].
  simpl. unfold acknowledgements in *. simpl. rewrite IH.
  destruct m; try done. by destruct (Hm tid processed_at).
Qed.

(** *** Registration *)






(** *** Correlation *)

Lemma recent_naive now window keep history :
  Forall naive history →
  recent now window keep history
  = Ok (filter (fun t => is_recent now window t && keep t = true) history).
Proof.
  induction 1 as [| t l [us Hus] _ IH]; [done |].
  simpl. rewrite Hus. simpl. rewrite IH, filter_cons.
  assert (Hr : is_recent now window t = (now - us <? window)).
  { unfold is_recent. by rewrite Hus. }
  rewrite Hr. by destruct (_ && _); case_decide.
Qed.

(** The comprehension goes through only when no timestamp in the history
    carries an offset. *)
Lemma recent_Ok_naive now window keep history r :
  recent now window keep history = Ok r → Forall naive history.
Proof.
  revert r. induction history as [| t l IH]; intros r H; [constructor |].
  simpl in H. destruct (timestamp t) as [us | us off] eqn:E; [| done].
  simpl in H. destruct (recent now window keep l) as [r' |]; [| done].
  constructor; [by exists us | by eapply IH].
Qed.

Lemma recent_aware_raises now window keep history t :
  t ∈ history → ¬ naive t → recent now window keep history = Raise TypeError.
Proof.
  intros Hin Hna. destruct (recent now window keep history) as [r | e] eqn:E.
  - apply recent_Ok_naive in E. rewrite Forall_forall in E. by destruct (Hna (E t Hin)).
  - clear Hin Hna. revert e E. induction history as [| x l IH]; intros e E; [done |].
    simpl in E. destruct (timestamp x); simpl in E.
    + destruct (recent now window keep l); [done |]. injection E as <-. by apply IH.
    + by injection E as <-.
Qed.

(** The alert as a function of the threat, the clock and the history:
    there is nothing else it could depend on. *)
Lemma coordination_alert_naive threat now history :
  Forall naive history →
  coordination_alert threat now history =
    let imsi_threats := related_to threat now history in
    if decide (2 <= length imsi_threats)%nat then
      Ok (Some (coordinated_attack_detected threat imsi_threats
                  "COORDINATED_IMSI_CATCHER"
                  (distinct_devices imsi_threats + 1)
                  ("🚨 COORDINATED ATTACK: IMSI catchers detected on "
                   +:+ pretty (length imsi_threats + 1)%nat +:+ " devices")
                  now))
    else Ok None.
Proof.
  intros H. unfold coordination_alert. by rewrite (recent_naive _ _ _ _ H).
Qed.

Lemma coordination_alert_inv threat now history p rel pat n msg ts :
  coordination_alert threat now history
  = Ok (Some (coordinated_attack_detected p rel pat n msg ts)) →
  Forall naive history ∧ p = threat ∧ rel = related_to threat now history
  ∧ (2 <= length rel)%nat ∧ n = (distinct_devices rel + 1)%nat ∧ ts = now
  ∧ pat = "COORDINATED_IMSI_CATCHER"
  ∧ msg = "🚨 COORDINATED ATTACK: IMSI catchers detected on "
          +:+ pretty (length rel + 1)%nat +:+ " devices".
Proof.
  intros H.
  assert (Hn : Forall naive history).
  { unfold coordination_alert in H.
    destruct (recent _ _ _ _) as [r |] eqn:E; [| done]. by eapply recent_Ok_naive. }
  split; [done |]. rewrite (coordination_alert_naive _ _ _ Hn) in H. simpl in H.
  destruct (decide _) as [Hlen |]; [| done].
  injection H as E1 E2 E3 E4 E5 E6. by subst.
Qed.

(** [device_count] is the number of distinct device ids over the primary
    and the related threats, and the guard on the number of related
    threats makes it at least 2. *)
Lemma device_count_is_distinct threat now history p rel pat n msg ts :
  coordination_alert threat now history
  = Ok (Some (coordinated_attack_detected p rel pat n msg ts)) →
  n = size (device_set (device_id p :: map device_id rel)) ∧ (2 <= n)%nat.
Proof.
  intros H. apply coordination_alert_inv in H as (_ & -> & Hrel & Hlen & -> & _).
  unfold distinct_devices, device_set. simpl.
  assert (Hnot : device_id threat ∉ (list_to_set (map device_id rel) : gset string)).
  { rewrite elem_of_list_to_set, list_elem_of_fmap. intros (t & Ht & Hin).
    subst rel. unfold related_to in Hin.
    apply list_elem_of_filter in Hin as [_ Hin].
    apply list_elem_of_filter in Hin as [Hin _].
    apply andb_true_iff in Hin as [_ Hin]. apply bool_decide_eq_true in Hin. done. }
  rewrite size_union by (by apply disjoint_singleton_l).
  rewrite size_singleton. split; [lia |].
  destruct rel as [| r rel']; [simpl in Hlen; lia |].
  assert (size (list_to_set (map device_id (r :: rel')) : gset string) ≠ 0)%nat.
  { apply size_non_empty_iff. intros Hempty.
    apply (not_elem_of_empty (C := gset string) (device_id r)).
    rewrite <- Hempty. simpl. apply elem_of_union_l. by apply elem_of_singleton. }
  lia.
Qed.

(** A later threat from the same device relates to the same threats as
    long as these are still recent. *)
Lemma related_to_later threat threat' now now' history :
  device_id threat' = device_id threat → now <= now' →
  Forall (fun r => is_recent now' (timedelta_hours 1) r = true)
         (related_to threat now history) →
  related_to threat' now' (history ++ [threat']) = related_to threat now history.
Proof.
  intros Hd Hle Hr. rewrite Forall_forall in Hr. unfold related_to in *.
  rewrite filter_app.
  rewrite (filter_singleton_False _ threat' []).
  2:{ intros H. apply andb_true_iff in H as [_ H]. by apply bool_decide_eq_true in H. }
  rewrite app_nil_r, !list_filter_filter. apply PyFacts.filter_ext_elem.
  intros t Ht. rewrite Hd.
  split; intros [Hi Hb]; (split; [done |]); apply andb_true_iff in Hb as [Hrec Hoth];
    apply andb_true_iff; (split; [| done]).
  - unfold is_recent in *. apply Z.ltb_lt in Hrec. apply Z.ltb_lt. lia.
  - apply Hr. apply list_elem_of_filter. split; [done |].
    apply list_elem_of_filter. split; [| done]. by apply andb_true_iff.
Qed.

Lemma analyze_threat_patterns_alert threat now s a :
  coordination_alert threat now (threat_history s) = Ok (Some a) →
  analyze_threat_patterns threat now s
  = (Ok tt, set_sent (fun l => l ++ deliveries (connected_devices s) a) s).
Proof.
  intros H. unfold analyze_threat_patterns, mbind, M_bind, gets, lift.
  rewrite H. apply broadcast_sends.
Qed.

Lemma analyze_threat_patterns_silent threat now s :
  coordination_alert threat now (threat_history s) = Ok None →
  analyze_threat_patterns threat now s = (Ok tt, s).
Proof.
  intros H. unfold analyze_threat_patterns, mbind, M_bind, gets, lift.
  by rewrite H.
Qed.


(** [C5, as the code has it] The correlator keeps no record of the alerts
    it has sent.  Whenever the threat history of a server makes it build a
    coordinated alert for [threat] at time [now], a further threat
    [threat'] from the same device, analysed at a later time [now'] at
    which the related threats are still less than 60 minutes old, makes
    it send a coordinated alert to every connected device again, with the
    same related threats and hence the same device set and
    [device_count]. *)
Theorem coordinated_alert_repeats threat threat' now now' s s' related pat n msg :
  coordination_alert threat now (threat_history s)
  = Ok (Some (coordinated_attack_detected threat related pat n msg now)) →
  device_id threat' = device_id threat →
  naive threat' →
  now <= now' →
  Forall (fun r => is_recent now' (timedelta_hours 1) r = true) related →
  threat_history s' = threat_history s ++ [threat'] →
  analyze_threat_patterns threat' now' s'
  = (Ok tt,
     set_sent (fun l => l ++ deliveries (connected_devices s')
                 (coordinated_attack_detected threat' related pat n msg now'))
              s').
Proof.
  intros Ha Hd Hn Hle Hr Hh.
  apply coordination_alert_inv in Ha as (Hnaive & _ & Hrel & Hlen & -> & _ & -> & ->).
  apply analyze_threat_patterns_alert.
  rewrite Hh, coordination_alert_naive.
  2:{ apply Forall_app. split; [done |]. by constructor. }
  simpl. rewrite Hrel in Hr.
  rewrite (related_to_later threat threat' now now' _ Hd Hle Hr), <- Hrel.
  by destruct (decide _).
Qed.

(** The theorem after the alert for A, B, C: C reports again ten seconds
    later, and each of the three connections is sent a second alert that
    relates C to the same threats of A and B. *)
Lemma coordinated_alert_repeats_witness :
  analyze_threat_patterns (reported "C" "T4" 40) (second 40) after_trio_again
  = (Ok tt,
     set_sent (fun l => l ++ deliveries (connected_devices after_trio_again)
                 (coordinated_attack_detected (reported "C" "T4" 40)
                    [reported "A" "T1" 10; reported "B" "T2" 20]
                    "COORDINATED_IMSI_CATCHER" 3
                    "🚨 COORDINATED ATTACK: IMSI catchers detected on 3 devices"
                    (second 40)))
              after_trio_again).
Proof.
  apply (coordinated_alert_repeats (reported "C" "T3" 30) (reported "C" "T4" 40)
           (second 30) (second 40) after_trio after_trio_again).
  - by vm_compute.
  - reflexivity.
  - by exists (second 40).
  - by vm_compute.
  - repeat constructor.
  - reflexivity.
Defined.

(** *** Threat ingestion *)

Lemma alerts_only_refl ws s : alerts_only ws s s.
Proof. repeat split. exists []. by rewrite app_nil_r. Qed.

Lemma alerts_only_trans ws s1 s2 s3 :
  alerts_only ws s1 s2 → alerts_only ws s2 s3 → alerts_only ws s1 s3.
Proof.
  intros (Hc & Hh & Hm & Hd & e & He & Ha) (Hc' & Hh' & Hm' & Hd' & e' & He' & Ha').
  repeat split; try congruence.
  exists (e ++ e'). split.
  - by rewrite He', He, app_assoc.
  - by rewrite acknowledgements_app, Ha, Ha'.
Qed.

Lemma broadcast_alerts_only ws m s :
  (∀ tid t, m ≠ threat_acknowledged tid t) →
  ∃ s', broadcast m s = (Ok tt, s') ∧ alerts_only ws s s'.
Proof.
  intros Hm. eexists. split; [apply broadcast_sends |].
  repeat split. eexists. split; [reflexivity |].
  by apply acknowledgements_deliveries.
Qed.

Lemma send_high_priority_alert_only ws threat now s :
  ∃ s', send_high_priority_alert threat now s = (Ok tt, s') ∧ alerts_only ws s s'.
Proof.
  unfold send_high_priority_alert, mbind, M_bind.
  edestruct (broadcast_alerts_only ws) as (s1 & -> & H1);
    [| eexists; split; [reflexivity |]].
  { done. }
  eapply alerts_only_trans; [exact H1 |].
  repeat split. exists []. by rewrite app_nil_r.
Qed.

Lemma analyze_threat_patterns_only ws threat now s :
  Forall naive (threat_history s) →
  ∃ s', analyze_threat_patterns threat now s = (Ok tt, s') ∧ alerts_only ws s s'.
Proof.
  intros Hn. unfold analyze_threat_patterns, mbind, M_bind, gets, lift.
  rewrite (coordination_alert_naive _ _ _ Hn). simpl.
  destruct (decide _).
  - by apply broadcast_alerts_only.
  - eexists. split; [reflexivity | apply alerts_only_refl].
Qed.

Lemma export_threat_data_only ws now s :
  ∃ s', export_threat_data now s = (Ok tt, s') ∧ alerts_only ws s s'.
Proof.
  eexists. split; [reflexivity |]. repeat split. exists []. by rewrite app_nil_r.
Qed.

Lemma when_only ws (c : bool) (body : M unit) s :
  (∃ s', body s = (Ok tt, s') ∧ alerts_only ws s s') →
  ∃ s', when c body s = (Ok tt, s') ∧ alerts_only ws s s'.
Proof.
  intros H. destruct c; [done |].
  eexists. split; [reflexivity | apply alerts_only_refl].
Qed.

Lemma process_threat_alert_only ws threat now s :
  Forall naive (threat_history s) →
  ∃ s', process_threat_alert threat now s = (Ok tt, s') ∧ alerts_only ws s s'.
Proof.
  intros Hn. unfold process_threat_alert, mbind, M_bind, gets.
  edestruct (when_only ws) as (s1 & -> & H1);
    [apply (send_high_priority_alert_only ws threat now) |].
  assert (Hn1 : Forall naive (threat_history s1)).
  { destruct H1 as (_ & -> & _). done. }
  edestruct (when_only ws) as (s2 & -> & H2);
    [apply (analyze_threat_patterns_only ws threat now _ Hn1) |].
  edestruct (when_only ws) as (s3 & -> & H3);
    [apply (export_threat_data_only ws now) |].
  eexists. split; [reflexivity |].
  eauto using alerts_only_trans.
Qed.

(** [INSERT OR REPLACE] leaves exactly one row under the threat id. *)
Lemma store_threat_one_row threat s :
  length (rows_with (threat_id threat) (db (exec (store_threat threat) s))) = 1%nat.
Proof.
  unfold rows_with, exec, store_threat, modify. simpl.
  rewrite filter_app, list_filter_filter.
  rewrite (filter_singleton_True _ _ []) by done.
  rewrite PyFacts.filter_none; [done |]. by intros r _ [? ?].
Qed.

Lemma parse_threat_well_timed dev data now uuid :
  well_timed data →
  ∃ threat, parse_threat dev data now uuid = Ok threat
    ∧ naive threat ∧ threat_id threat = default uuid (msg_threat_id data)
    ∧ device_id threat = dev.
Proof.
  unfold well_timed, parse_threat. intros H.
  destruct (msg_timestamp data) as [[[us | us off] | txt] |]; try done; simpl;
    eexists; (split; [reflexivity |]); (split; [by eexists | done]).
Qed.

(** As long as every timestamp received is naive, a threat from a device
    in the table is stored under one row and acknowledged once, and the
    server stays in such a state. *)
Lemma handle_cellular_threat_acknowledged s dev data now uuid info :
  Py.dict_get (connected_devices s) dev = Some info →
  Forall naive (threat_history s) →
  well_timed data →
  let tid := default uuid (msg_threat_id data) in
  let s' := exec (handle_cellular_threat dev data now uuid) s in
  acknowledgements (websocket info) (sent s')
  = acknowledgements (websocket info) (sent s) ++ [tid]
  ∧ length (rows_with tid (db s')) = 1%nat
  ∧ Forall naive (threat_history s')
  ∧ ∃ info', Py.dict_get (connected_devices s') dev = Some info'
             ∧ websocket info' = websocket info.
Proof.
  intros Hdev Hn Hw tid s'. subst s'.
  destruct (parse_threat_well_timed dev data now uuid Hw)
    as (threat & Hp & Hnt & Htid & _).
  unfold exec, handle_cellular_threat, try_except, mbind, M_bind, lift.
  rewrite Hp.
  set (s1 := snd (store_threat threat s)).
  change (store_threat threat s) with (Ok tt, s1).
  cbv beta iota.
  set (s2 := set_threat_history (fun h => h ++ [threat]) s1).
  change (modify (set_threat_history (fun h => h ++ [threat])) s1) with (Ok tt, s2).
  cbv beta iota.
  set (s3 := snd (touch_device dev now s2)).
  change (touch_device dev now s2) with (Ok tt, s3).
  cbv beta iota.
  assert (Hn3 : Forall naive (threat_history s3)).
  { simpl. apply Forall_app. split; [done | by constructor]. }
  assert (Hdev3 : ∃ info', Py.dict_get (connected_devices s3) dev = Some info'
                           ∧ websocket info' = websocket info).
  { simpl. rewrite Hdev. eexists. split; [apply PyFacts.dict_get_od_set_eq | done]. }
  destruct (process_threat_alert_only (websocket info) threat now s3 Hn3)
    as (s4 & -> & Hc & Hh & Hm & Hd & extra & He & Ha).
  destruct Hdev3 as (info' & Hi & Hws).
  unfold acknowledge, mbind, M_bind, gets. rewrite Hc, Hi. simpl.
  rewrite He. simpl. rewrite !acknowledgements_app, Ha, app_nil_r.
  split; [| split; [| split]].
  - unfold acknowledgements at 2. simpl. rewrite Hws.
    destruct (decide _); [| done]. by rewrite Htid.
  - unfold rows_with. rewrite Hd. subst tid. rewrite <- Htid.
    apply (store_threat_one_row threat s).
  - by rewrite Hh.
  - exists info'. by rewrite Hc.
Qed.

(** Two submissions of one message with naive timestamps: one row, two
    acknowledgements. *)
Lemma resubmission_acknowledged_when_naive s dev data tid now1 now2 uuid1 uuid2 info :
  Py.dict_get (connected_devices s) dev = Some info →
  Forall naive (threat_history s) →
  well_timed data →
  msg_threat_id data = Some tid →
  let s' := exec (handle_cellular_threat dev data now2 uuid2)
              (exec (handle_cellular_threat dev data now1 uuid1) s) in
  acknowledgements (websocket info) (sent s')
  = acknowledgements (websocket info) (sent s) ++ [tid; tid]
  ∧ length (rows_with tid (db s')) = 1%nat.
Proof.
  intros Hdev Hn Hw Htid s'. subst s'.
  destruct (handle_cellular_threat_acknowledged s dev data now1 uuid1 info Hdev Hn Hw)
    as (Ha1 & _ & Hn1 & info1 & Hdev1 & Hws1).
  destruct (handle_cellular_threat_acknowledged _ dev data now2 uuid2 info1 Hdev1 Hn1 Hw)
    as (Ha2 & Hr2 & _).
  rewrite Htid in *. simpl in *. rewrite Hws1 in Ha2.
  split; [| done]. by rewrite Ha2, Ha1, <- app_assoc.
Qed.


(** [C1, on the code] When device A has reported two IMSI-catcher threats
    and device B reports a threat, the server sends
    [coordinated_attack_detected] to both connections with the three
    threats of the two devices A and B and [device_count] 2, under a
    message text that speaks of 3 devices. *)
Theorem coordinated_alert_with_two_devices :
  coordinated_alerts 1 (sent after_two_devices) = [(["B"; "A"; "A"], 2%nat)]
  ∧ coordinated_alerts 2 (sent after_two_devices) = [(["B"; "A"; "A"], 2%nat)]
  ∧ size (device_set ["B"; "A"; "A"]) = 2%nat
  ∧ coordinated_messages 2 (sent after_two_devices)
    = [coordinated_attack_detected (reported "B" "T3" 30)
         [reported "A" "T1" 10; reported "A" "T2" 20]
         "COORDINATED_IMSI_CATCHER" 2
         "🚨 COORDINATED ATTACK: IMSI catchers detected on 3 devices"
         (second 30)].
Proof. by vm_compute. Qed.

(** [C5, as stated, fails] After the alert for the trio A, B, C, a further
    IMSI-typed threat from A ten seconds later makes the server send a
    second alert to every connection, and the two alerts name the same
    set of devices. *)
Lemma trio_alerted_twice :
  coordinated_alerts 1 (sent after_trio_then_repeat)
  = [(["C"; "A"; "B"], 3%nat); (["A"; "B"; "C"], 3%nat)]
  ∧ device_set ["C"; "A"; "B"] = device_set ["A"; "B"; "C"].
Proof. split; [by vm_compute | unfold device_set; set_solver]. Qed.

(** [C4, on the code] A registered device submits the same
    [cellular_threat] twice with a timestamp that carries a UTC offset:
    the store ends with one row for the threat id, and the device is sent
    no [threat_acknowledged] at all, because the correlation step raises
    on the comparison with [datetime.now()] and the handler's [except]
    ends the call before the acknowledgement.  With the timestamp left to
    the server's clock, the same two submissions are acknowledged twice. *)
Theorem resubmission_with_offset_unacknowledged :
  length (rows_with "T1" (db after_resubmission_with_offset)) = 1%nat
  ∧ length (threat_history after_resubmission_with_offset) = 2%nat
  ∧ acknowledgements 1 (sent after_resubmission_with_offset) = []
  ∧ acknowledgements 1 (sent after_resubmission_naive) = ["T1"; "T1"].
Proof. by vm_compute. Qed.

End ServerProofs.

(** * Further properties of the code *)

(** ** Slices and deques *)

Module PyMoreFacts.

Lemma length_last_n {A : Type} (n : nat) (l : list A) :
  length (Py.last_n n l) = (n `min` length l)%nat.
Proof. unfold Py.last_n. rewrite length_drop. lia. Qed.

Lemma last_n_app_last_n {A : Type} (n : nat) (l l' : list A) :
  Py.last_n n (Py.last_n n l ++ l') = Py.last_n n (l ++ l').
Proof.
  destruct (decide (length l <= n)%nat) as [Hle | Hgt].
  - by rewrite (PyFacts.last_n_all n l Hle).
  - unfold Py.last_n at 1 3. rewrite !length_app, length_last_n.
    unfold Py.last_n.
    set (k := (length l - n)%nat).
    replace (n `min` length l + length l' - n)%nat with (length l')%nat by lia.
    replace (length l + length l' - n)%nat with (k + length l')%nat by lia.
    rewrite <- drop_drop.
    by rewrite (drop_app_le l l' k) by lia.
Qed.

Lemma last_n_snoc {A : Type} (n : nat) (l : list A) (x : A) :
  (1 <= n)%nat → Py.last_n n (l ++ [x]) = Py.last_n (n - 1) l ++ [x].
Proof.
  intros Hn. unfold Py.last_n. rewrite length_app. simpl.
  replace (length l + 1 - n)%nat with (length l - (n - 1))%nat by lia.
  rewrite drop_app_le by lia. done.
Qed.

Lemma append_assoc (s1 s2 s3 : string) :
  (s1 +:+ s2) +:+ s3 = s1 +:+ (s2 +:+ s3).
Proof.
  induction s1 as [| c s1 IH]; [done |].
  change (String c ((s1 +:+ s2) +:+ s3) = String c (s1 +:+ (s2 +:+ s3))).
  by rewrite IH.
Qed.

End PyMoreFacts.

(** ** The monitor: history, registry and rule-based detectors *)

Module MonitorExtra.

Import Monitor MonitorDetectors MonitorSamples MoreSamples.

(** *** The measurement history *)

Lemma analyze_all_snoc clock st ms m :
  analyze_all clock st (ms ++ [m])
  = fst (analyze_measurement clock (analyze_all clock st ms) m).
Proof. unfold analyze_all. by rewrite fold_left_app. Qed.

Lemma analyze_all_max_measurements clock st ms :
  max_measurements (analyze_all clock st ms) = max_measurements st.
Proof.
  induction ms as [| m ms IH] using rev_ind; [done |].
  by rewrite analyze_all_snoc.
Qed.

Lemma history_after_snoc clock st ms m :
  measurement_history (analyze_all clock st (ms ++ [m]))
  = Py.last_n (max_measurements st) (measurement_history st ++ ms ++ [m]).
Proof.
  revert m. induction ms as [| m' ms IH] using rev_ind; intros m.
  - done.
  - rewrite analyze_all_snoc. simpl. unfold Py.deque_append.
    rewrite analyze_all_max_measurements, IH.
    rewrite PyMoreFacts.last_n_app_last_n. by rewrite <- !(assoc_L (++)).
Qed.

(** [X1] After any run of [analyze_measurement], the history holds the
    most recent [max_measurements] measurements of the old history
    followed by the analysed ones, in arrival order; so it never holds
    more than [max_measurements] entries once a measurement has been
    analysed. *)
Theorem history_keeps_most_recent clock st ms :
  ms ≠ [] →
  measurement_history (analyze_all clock st ms)
  = Py.last_n (max_measurements st) (measurement_history st ++ ms)
  ∧ (length (measurement_history (analyze_all clock st ms))
     <= max_measurements st)%nat.
Proof.
  intros Hne. destruct ms as [| m ms _] using rev_ind; [done |].
  rewrite history_after_snoc.
  split; [done |]. rewrite PyMoreFacts.length_last_n. lia.
Qed.

(** The theorem at three measurements fed to a monitor that keeps two. *)
Lemma history_keeps_most_recent_witness :
  measurement_history
    (analyze_all 0 small_monitor
       [sample_measurement 0 (-80) "A5/3"; sample_measurement 1 (-81) "A5/3";
        sample_measurement 2 (-82) "A5/3"])
  = [sample_measurement 1 (-81) "A5/3"; sample_measurement 2 (-82) "A5/3"].
Proof.
  apply (history_keeps_most_recent 0 small_monitor
           [sample_measurement 0 (-80) "A5/3"; sample_measurement 1 (-81) "A5/3";
            sample_measurement 2 (-82) "A5/3"]).
  discriminate.
Defined.

(** *** The tower registry *)

(** What [n] further sightings make of a registry entry. *)
Lemma fold_update_existing tw ms :
  let tw' := fold_left update_existing ms tw in
  signal_strength_history tw'
  = signal_strength_history tw ++ map signal_strength ms
  ∧ last_seen tw' = default (last_seen tw) (last (map timestamp ms))
  ∧ first_seen tw' = first_seen tw
  ∧ (cell_id tw', lac tw', mcc tw', mnc tw', tower_technology tw',
     frequency tw', tower_location tw')
    = (cell_id tw, lac tw, mcc tw, mnc tw, tower_technology tw,
       frequency tw, tower_location tw).
Proof.
  induction ms as [| m ms IH] using rev_ind; simpl.
  - by rewrite app_nil_r.
  - rewrite fold_left_app. simpl. destruct IH as (Hh & Hl & Hf & Hi).
    rewrite Hh, !map_app. simpl. rewrite last_snoc. simpl.
    by rewrite Hf, Hi, <- (assoc_L (++)).
Qed.

Lemma analyze_all_cons clock st m ms :
  analyze_all clock st (m :: ms)
  = analyze_all clock (fst (analyze_measurement clock st m)) ms.
Proof. reflexivity. Qed.

Lemma registry_entry_after clock st ms k tw :
  tower_database st !! k = Some tw →
  tower_database (analyze_all clock st ms) !! k
  = Some (fold_left update_existing (filter (fun m => tower_key m = k) ms) tw).
Proof.
  revert st tw. induction ms as [| m ms IH]; intros st tw Hk; [done |].
  rewrite analyze_all_cons, filter_cons.
  destruct (decide (tower_key m = k)) as [<- | Hne].
  - simpl. apply IH. simpl. by apply MonitorProofs.update_tower_database_known.
  - apply IH. simpl. by rewrite MonitorProofs.update_tower_database_other.
Qed.

(** The entry of a tower from its first sighting on. *)
Lemma first_sighting_entry clock st m0 ms :
  tower_database st !! tower_key m0 = None →
  let later := filter (fun m => tower_key m = tower_key m0) ms in
  ∃ tw, tower_database (analyze_all clock st (m0 :: ms)) !! tower_key m0 = Some tw
    ∧ signal_strength_history tw
      = signal_strength_history (tower m0) ++ map signal_strength later
    ∧ last_seen tw = default (last_seen (tower m0)) (last (map timestamp later))
    ∧ first_seen tw = first_seen (tower m0)
    ∧ (cell_id tw, lac tw, mcc tw, mnc tw, tower_technology tw,
       frequency tw, tower_location tw)
      = (cell_id (tower m0), lac (tower m0), mcc (tower m0), mnc (tower m0),
         tower_technology (tower m0), frequency (tower m0),
         tower_location (tower m0)).
Proof.
  intros Hnew later. eexists. split.
  - rewrite analyze_all_cons. apply registry_entry_after. simpl.
    by apply MonitorProofs.update_tower_database_new.
  - apply fold_update_existing.
Qed.

(** [X2] When a tower is analysed for the first time, its object enters
    the registry as it is: the signal strength of that first measurement
    is not recorded.  Whatever measurements follow, of this or of other
    towers, the entry keeps its identity fields and [first_seen], its
    history is the tower's own followed by the signal strengths of the
    later measurements under its key, in order, and [last_seen] is the
    timestamp of the latest of them. *)
Theorem registry_after_first_sighting clock st m0 ms :
  tower_database st !! tower_key m0 = None →
  let later := filter (fun m => tower_key m = tower_key m0) ms in
  ∃ tw, tower_database (analyze_all clock st (m0 :: ms)) !! tower_key m0 = Some tw
    ∧ signal_strength_history tw
      = signal_strength_history (tower m0) ++ map signal_strength later
    ∧ last_seen tw = default (last_seen (tower m0)) (last (map timestamp later))
    ∧ first_seen tw = first_seen (tower m0)
    ∧ (cell_id tw, lac tw, mcc tw, mnc tw, tower_technology tw,
       frequency tw, tower_location tw)
      = (cell_id (tower m0), lac (tower m0), mcc (tower m0), mnc (tower m0),
         tower_technology (tower m0), frequency (tower m0),
         tower_location (tower m0)).
Proof.
  intros Hnew later. eexists. split.
  - rewrite analyze_all_cons. apply registry_entry_after. simpl.
    by apply MonitorProofs.update_tower_database_new.
  - apply fold_update_existing.
Qed.

(** The theorem at two towers seen in turn: the first sample of C1 is
    left out of its history, the sample of C2 does not touch it. *)
Lemma registry_after_first_sighting_witness :
  ∃ tw, tower_database
          (analyze_all 0 fresh_monitor
             [measurement_of "C1" "L1" 0 (-80) "4G" "A5/3";
              measurement_of "C1" "L1" 1 (-75) "4G" "A5/3";
              measurement_of "C2" "L1" 2 (-60) "4G" "A5/3";
              measurement_of "C1" "L1" 3 (-70) "4G" "A5/3"])
        !! "C1_L1" = Some tw
    ∧ signal_strength_history tw = [-75; -70]
    ∧ last_seen tw = 3.
Proof.
  destruct (registry_after_first_sighting 0 fresh_monitor
              (measurement_of "C1" "L1" 0 (-80) "4G" "A5/3")
              [measurement_of "C1" "L1" 1 (-75) "4G" "A5/3";
               measurement_of "C2" "L1" 2 (-60) "4G" "A5/3";
               measurement_of "C1" "L1" 3 (-70) "4G" "A5/3"])
    as (tw & Hl & Hh & Hs & _).
  - reflexivity.
  - exists tw. split; [exact Hl |]. split; [exact Hh | exact Hs].
Defined.

(** [X3] The registry key does not separate the two fields it is built
    from: the towers [(a_b, c)] and [(a, b_c)] have one key, so the
    second is taken for a sighting of the first, whose entry keeps the
    first tower's identity and takes the second's signal strength. *)
Theorem registry_key_collision clock st (a b c : string) m1 m2 :
  cell_id (tower m1) = a +:+ "_" +:+ b → lac (tower m1) = c →
  cell_id (tower m2) = a → lac (tower m2) = b +:+ "_" +:+ c →
  tower_database st !! tower_key m1 = None →
  tower_key m1 = tower_key m2
  ∧ ∃ tw, tower_database (analyze_all clock st [m1; m2]) !! tower_key m2 = Some tw
      ∧ cell_id tw = a +:+ "_" +:+ b ∧ lac tw = c
      ∧ signal_strength_history tw
        = signal_strength_history (tower m1) ++ [signal_strength m2].
Proof.
  intros Hc1 Hl1 Hc2 Hl2 Hnew.
  assert (Hkey : tower_key m1 = tower_key m2).
  { unfold tower_key. rewrite Hc1, Hl1, Hc2, Hl2.
    by rewrite PyMoreFacts.append_assoc. }
  split; [exact Hkey |].
  destruct (first_sighting_entry clock st m1 [m2] Hnew)
    as (tw & Hl & Hh & _ & _ & Hi).
  exists tw. rewrite <- Hkey. split; [exact Hl |].
  simpl in Hh. rewrite filter_cons in Hh.
  destruct (decide (tower_key m2 = tower_key m1)) as [_ | Hne]; [| by destruct Hne].
  injection Hi as -> -> _ _ _ _ _. by rewrite Hc1, Hl1.
Qed.

Lemma registry_key_collision_witness :
  tower_key (measurement_of "A_B" "C" 0 (-80) "4G" "A5/3")
  = tower_key (measurement_of "A" "B_C" 1 (-60) "4G" "A5/3").
Proof.
  apply (registry_key_collision 0 fresh_monitor "A" "B" "C"
           (measurement_of "A_B" "C" 0 (-80) "4G" "A5/3")
           (measurement_of "A" "B_C" 1 (-60) "4G" "A5/3")); reflexivity.
Defined.

(** *** The IMSI-catcher indicators *)

Lemma emits_if type (b : bool) (t : SecurityThreat) :
  emits type (if b then [t] else []) ↔ b = true ∧ threat_type t = type.
Proof.
  destruct b.
  - rewrite MonitorProofs.emits_singleton. split; [by split | by intros [_ ?]].
  - split; [intros H; by apply MonitorProofs.emits_nil in H | by intros [? _]].
Qed.

Lemma detect_imsi_catcher_enabled clock cfg history m :
  imsi_catcher_detection_enabled cfg = true →
  _detect_imsi_catcher clock cfg history m
  = signal_jump_check clock cfg history m
    ++ encryption_absent_check clock m
    ++ technology_downgrade_check clock history m.
Proof. intros H. unfold _detect_imsi_catcher. by rewrite H. Qed.

(** [X4] With IMSI-catcher detection enabled, a measurement whose
    encryption tag is None or A5/0 gets a high-severity
    ENCRYPTION_DOWNGRADE of confidence 0.8 from [_detect_imsi_catcher] on
    every analysis, whatever the history, the first measurement included.  The transition detector adds a second
    ENCRYPTION_DOWNGRADE, under another threat id, when there is a
    previous measurement and it had a stronger tag; it adds none when the
    previous tag was the same, or when there is no previous measurement. *)
Theorem unencrypted_cell_reported_every_time clock cfg history m :
  imsi_catcher_detection_enabled cfg = true →
  encryption_status m ∈ ["None"; "A5/0"] →
  imsi_encrypt_threat clock m ∈ _detect_imsi_catcher clock cfg history m
  ∧ (threat_type (imsi_encrypt_threat clock m),
     severity (imsi_encrypt_threat clock m),
     confidence (imsi_encrypt_threat clock m))
    = ("ENCRYPTION_DOWNGRADE", "high", 8 # 10)
  ∧ (∀ prev, Py.penultimate history = Some prev →
       strength (encryption_status m) < strength (encryption_status prev) →
       ∃ t, _detect_encryption_anomalies clock history m = [t]
            ∧ threat_type t = "ENCRYPTION_DOWNGRADE"
            ∧ threat_id t ≠ threat_id (imsi_encrypt_threat clock m))
  ∧ (∀ prev, Py.penultimate history = Some prev →
       encryption_status prev = encryption_status m →
       _detect_encryption_anomalies clock history m = [])
  ∧ (Py.penultimate history = None →
     _detect_encryption_anomalies clock history m = []).
Proof.
  intros Hen Henc.
  rewrite (detect_imsi_catcher_enabled _ _ _ _ Hen).
  split; [| split; [done | split; [| split]]].
  - apply elem_of_app. right. apply elem_of_app. left.
    unfold encryption_absent_check. rewrite bool_decide_eq_true_2 by done.
    apply list_elem_of_here.
  - intros prev Hp Hlt.
    rewrite (MonitorProofs.detect_encryption_unfold _ _ _ _ Hp).
    assert (H0 : 0 <= strength (encryption_status m)).
    { apply elem_of_cons in Henc as [-> | Henc]; [done |].
      apply list_elem_of_singleton in Henc as ->. done. }
    rewrite decide_True by done. eexists. split; [done |]. split; [done |].
    discriminate.
  - intros prev Hp Heq.
    rewrite (MonitorProofs.detect_encryption_unfold _ _ _ _ Hp).
    rewrite Heq. rewrite decide_False by lia. done.
  - intros Hp. unfold _detect_encryption_anomalies. by rewrite Hp.
Qed.

(** The theorem at a first measurement tagged None: the history holds
    nothing but the measurement itself. *)
Lemma unencrypted_cell_reported_every_time_witness :
  imsi_encrypt_threat 7 (sample_measurement 1 (-80) "None")
  ∈ _detect_imsi_catcher 7 default_config
      [sample_measurement 1 (-80) "None"] (sample_measurement 1 (-80) "None").
Proof.
  apply (unencrypted_cell_reported_every_time 7 default_config
           [sample_measurement 1 (-80) "None"] (sample_measurement 1 (-80) "None")).
  - reflexivity.
  - apply list_elem_of_here.
Defined.

(** [X5] [_detect_imsi_catcher] reports IMSI_CATCHER_SUSPECTED exactly
    when a previous measurement exists and the signal strength has risen
    by more than the configured threshold since then; the other two
    checks never produce this type.  With a threshold that is not
    negative, a signal that has dropped or stayed, by however much, is
    never reported. *)
Theorem signal_jump_reported_exactly_when clock cfg history prev m :
  imsi_catcher_detection_enabled cfg = true →
  Py.penultimate history = Some prev →
  let r := _detect_imsi_catcher clock cfg history m in
  (emits "IMSI_CATCHER_SUSPECTED" r
   ↔ (signal_jump_threshold cfg
      < inject_Z (signal_strength m - signal_strength prev))%Q)
  ∧ ((0 <= signal_jump_threshold cfg)%Q →
     signal_strength m <= signal_strength prev →
     ¬ emits "IMSI_CATCHER_SUSPECTED" r).
Proof.
  intros Hen Hp r.
  assert (Hiff : emits "IMSI_CATCHER_SUSPECTED" r
                 ↔ (signal_jump_threshold cfg
                    < inject_Z (signal_strength m - signal_strength prev))%Q).
  { subst r. rewrite (detect_imsi_catcher_enabled _ _ _ _ Hen), !AdvancedProofs.emits_app.
    unfold signal_jump_check, encryption_absent_check, technology_downgrade_check.
    rewrite Hp, <- AdvancedProofs.Qlt_bool_iff.
    split.
    - intros [H | [H | H]].
      + by apply emits_if in H as [H _].
      + apply emits_if in H as [_ H]. discriminate.
      + destruct (_ && _); [| by apply MonitorProofs.emits_nil in H].
        apply emits_if in H as [_ H]. discriminate.
    - intros H. left. rewrite H. by apply MonitorProofs.emits_singleton. }
  split; [exact Hiff |].
  intros H0 Hle. rewrite Hiff. apply Qle_not_lt.
  eapply Qle_trans; [| exact H0].
  unfold Qle. simpl. lia.
Qed.

(** The theorem at the default threshold and a rise of 21 dB. *)
Lemma signal_jump_reported_exactly_when_witness :
  emits "IMSI_CATCHER_SUSPECTED"
    (_detect_imsi_catcher 7 default_config
       [sample_measurement 0 (-80) "A5/3"; sample_measurement 1 (-59) "A5/3"]
       (sample_measurement 1 (-59) "A5/3")).
Proof.
  apply (signal_jump_reported_exactly_when 7 default_config
           [sample_measurement 0 (-80) "A5/3"; sample_measurement 1 (-59) "A5/3"]
           (sample_measurement 0 (-80) "A5/3") (sample_measurement 1 (-59) "A5/3")).
  - reflexivity.
  - reflexivity.
  - reflexivity.
Defined.

(** The technology of [m'] is one of 4G, LTE, 5G. *)
Lemma existsb_modern (l : list CellularMeasurement) :
  existsb (fun tech => bool_decide (tech ∈ ["4G"; "LTE"; "5G"])) (map technology l)
  = true
  ↔ ∃ m', m' ∈ l ∧ technology m' ∈ ["4G"; "LTE"; "5G"].
Proof.
  rewrite existsb_exists. split.
  - intros (tech & Hin & Hb). apply in_map_iff in Hin as (m' & <- & Hin).
    exists m'. split; [by apply list_elem_of_In | by apply bool_decide_eq_true in Hb].
  - intros (m' & Hin & Hb). exists (technology m'). split.
    + apply in_map. by apply list_elem_of_In.
    + by apply bool_decide_eq_true.
Qed.

(** [X6] With the current measurement last in the history, as
    [analyze_measurement] leaves it, a 2G or GSM measurement is reported
    as FORCED_TECHNOLOGY_DOWNGRADE exactly when one of the four
    measurements before it was on 4G, LTE or 5G: the report repeats on
    every 2G/GSM measurement until four of them have gone by. *)
Theorem technology_downgrade_repeats clock cfg earlier m :
  imsi_catcher_detection_enabled cfg = true →
  technology m ∈ ["2G"; "GSM"] →
  emits "FORCED_TECHNOLOGY_DOWNGRADE"
    (_detect_imsi_catcher clock cfg (earlier ++ [m]) m)
  ↔ ∃ m', m' ∈ Py.last_n 4 earlier ∧ technology m' ∈ ["4G"; "LTE"; "5G"].
Proof.
  intros Hen Htech.
  assert (Hcur : ¬ technology m ∈ ["4G"; "LTE"; "5G"]).
  { intros H. apply elem_of_cons in Htech as [E | Htech];
      [| apply list_elem_of_singleton in Htech as E];
      rewrite E in H;
      repeat (apply elem_of_cons in H as [H | H]; [discriminate |]);
      by apply elem_of_nil in H. }
  rewrite (detect_imsi_catcher_enabled _ _ _ _ Hen), !AdvancedProofs.emits_app.
  unfold signal_jump_check, encryption_absent_check, technology_downgrade_check.
  rewrite (bool_decide_eq_true_2 _ Htech). simpl.
  rewrite PyMoreFacts.last_n_snoc by lia. simpl.
  split.
  - intros [H | [H | H]].
    + destruct (Py.penultimate _); [| by apply MonitorProofs.emits_nil in H].
      apply emits_if in H as [_ H]. discriminate.
    + apply emits_if in H as [_ H]. discriminate.
    + destruct (bool_decide (1 < length (earlier ++ [m]))%nat);
        [| by apply MonitorProofs.emits_nil in H].
      apply emits_if in H as [H _].
      apply existsb_modern in H as (m' & Hin & Hm).
      apply elem_of_app in Hin as [Hin | Hin]; [by exists m' |].
      apply list_elem_of_singleton in Hin as ->. by destruct Hcur.
  - intros (m' & Hin & Hm). right. right.
    assert (Hlen : (1 < length (earlier ++ [m]))%nat).
    { rewrite length_app. simpl.
      destruct earlier; [by apply elem_of_nil in Hin | simpl; lia]. }
    rewrite (bool_decide_eq_true_2 _ Hlen).
    apply emits_if. split; [| done].
    apply existsb_modern. exists m'. split; [| done].
    apply elem_of_app. by left.
Qed.

(** The theorem at LTE followed by four GSM measurements: the fourth is
    still reported. *)
Lemma technology_downgrade_repeats_witness :
  emits "FORCED_TECHNOLOGY_DOWNGRADE"
    (_detect_imsi_catcher 7 default_config
       (measurement_of "C1" "L1" 0 (-80) "LTE" "A5/3"
        :: replicate 3 (measurement_of "C1" "L1" 1 (-80) "GSM" "A5/1")
        ++ [measurement_of "C1" "L1" 1 (-80) "GSM" "A5/1"])
       (measurement_of "C1" "L1" 1 (-80) "GSM" "A5/1")).
Proof.
  apply (technology_downgrade_repeats 7 default_config
           (measurement_of "C1" "L1" 0 (-80) "LTE" "A5/3"
            :: replicate 3 (measurement_of "C1" "L1" 1 (-80) "GSM" "A5/1"))
           (measurement_of "C1" "L1" 1 (-80) "GSM" "A5/1")).
  - reflexivity.
  - apply elem_of_cons. right. apply list_elem_of_here.
  - exists (measurement_of "C1" "L1" 0 (-80) "LTE" "A5/3").
    split; [apply list_elem_of_here | apply elem_of_cons; right; apply list_elem_of_here].
Defined.

(** *** Tower churn *)

Lemma size_list_to_set_le (l : list string) :
  (size (list_to_set (C := gset string) l) <= length l)%nat.
Proof.
  induction l as [| x l IH].
  - change (size (∅ : gset string) <= 0)%nat. by rewrite size_empty.
  - change (size ({[x]} ∪ list_to_set l : gset string) <= S (length l))%nat.
    rewrite size_union_alt, size_singleton.
    pose proof (subseteq_size (list_to_set l ∖ {[x]}) (list_to_set (C := gset string) l))
      as Hs.
    assert ((list_to_set l ∖ {[x]} : gset string) ⊆ list_to_set l) as Hsub
      by apply subseteq_difference_l, reflexivity.
    specialize (Hs Hsub). lia.
Qed.

Lemma distinct_cells_le (l : list CellularMeasurement) :
  (distinct_cells l <= length l)%nat.
Proof.
  unfold distinct_cells.
  etrans; [apply size_list_to_set_le |]. by rewrite length_map.
Qed.

(** [X7] [_detect_tower_behavior_anomalies] reports
    EXCESSIVE_TOWER_CHANGES exactly when the history holds at least ten
    measurements and the number of distinct cell ids among the last ten
    exceeds the threshold.  That number is at most 10, so a threshold of
    10 or more silences the detector. *)
Theorem tower_churn_reported_exactly_when clock cfg history m :
  let r := _detect_tower_behavior_anomalies clock cfg history m in
  let unique_towers := distinct_cells (Py.last_n 10 history) in
  (emits "EXCESSIVE_TOWER_CHANGES" r
   ↔ (10 <= length history)%nat
     ∧ (tower_change_threshold cfg < inject_Z (Z.of_nat unique_towers))%Q)
  ∧ (unique_towers <= 10)%nat
  ∧ ((10 <= tower_change_threshold cfg)%Q → r = []).
Proof.
  intros r unique_towers.
  assert (Hu : (unique_towers <= 10)%nat).
  { subst unique_towers. etrans; [apply distinct_cells_le |].
    rewrite PyMoreFacts.length_last_n. lia. }
  assert (Hr : r = if decide (10 <= length history)%nat
                   then if Py.Qlt_bool (tower_change_threshold cfg)
                             (inject_Z (Z.of_nat unique_towers))
                        then [tower_changes_threat clock cfg unique_towers
                                (map (fun m => cell_id (tower m))
                                   (Py.last_n 10 history)) m]
                        else []
                   else []) by done.
  split; [| split; [exact Hu |]].
  - rewrite Hr, <- AdvancedProofs.Qlt_bool_iff. destruct (decide _) as [Hl | Hl].
    + rewrite emits_if. split; [by intros [? _] | by intros [_ ?]].
    + split; [intros H; by apply MonitorProofs.emits_nil in H | by intros [? _]].
  - intros Hthr. rewrite Hr. destruct (decide _); [| done].
    destruct (Py.Qlt_bool _ _) eqn:E; [| done].
    apply AdvancedProofs.Qlt_bool_iff in E. exfalso.
    apply (Qlt_not_le _ _ E). eapply Qle_trans; [| exact Hthr].
    unfold Qle. simpl. lia.
Qed.

(** The theorem at the threshold 10. *)
Lemma tower_churn_reported_exactly_when_witness :
  _detect_tower_behavior_anomalies 7
    {| imsi_catcher_detection_enabled := true; signal_jump_threshold := 20;
       tower_change_threshold := 10 |}
    (replicate 12 (sample_measurement 0 (-80) "A5/3"))
    (sample_measurement 0 (-80) "A5/3")
  = [].
Proof.
  apply (tower_churn_reported_exactly_when 7
           {| imsi_catcher_detection_enabled := true; signal_jump_threshold := 20;
              tower_change_threshold := 10 |}).
  apply Qle_refl.
Defined.

Lemma count_fold cutoff history acc :
  fst (fold_left (count_step cutoff) history acc)
  = Nat.add (fst acc)
      (changes_from (snd acc)
         (map tower_key (filter (fun m => cutoff <= timestamp m) history))).
Proof.
  revert acc. induction history as [| m l IH]; intros acc; simpl; [lia |].
  rewrite IH, filter_cons. unfold count_step.
  destruct (Z.ltb_spec (timestamp m) cutoff) as [Hlt | Hge].
  - by rewrite decide_False by lia.
  - rewrite decide_True by lia. cbn [changes_from map fst snd].
    destruct (tower_changed (snd acc) (tower_key m)); lia.
Qed.

Lemma count_tower_changes_eq now hours history :
  _count_tower_changes now hours history
  = changes_from None (map tower_key (since_cutoff now hours history)).
Proof. unfold _count_tower_changes. by rewrite count_fold. Qed.

Lemma tower_changed_triangle p (x y : string) :
  tower_changed p y = true →
  tower_changed p x = true ∨ tower_changed (Some x) y = true.
Proof.
  intros Ey. destruct (tower_changed p x) eqn:Ex; [by left | right].
  destruct p as [[| c p] |]; try done. simpl in *.
  apply bool_decide_eq_true in Ey. apply bool_decide_eq_false in Ex.
  assert (String c p = x) as <- by (by destruct (decide (String c p = x))).
  simpl. by rewrite bool_decide_eq_true_2.
Qed.

Lemma changes_from_skip p x keys :
  (changes_from p keys
   <= (if tower_changed p x then 1 else 0) + changes_from (Some x) keys)%nat.
Proof.
  destruct keys as [| y keys]; cbn [changes_from]; [lia |].
  pose proof (tower_changed_triangle p x y) as Ht.
  destruct (tower_changed p y); [| lia].
  destruct (Ht eq_refl) as [-> | ->]; lia.
Qed.

(** Leaving keys out never adds a change. *)
Lemma changes_from_filter (P : string → Prop) `{!∀ k, Decision (P k)} p keys :
  (changes_from p (filter P keys) <= changes_from p keys)%nat.
Proof.
  revert p. induction keys as [| k keys IH]; intros p; [done |].
  rewrite filter_cons. destruct (decide (P k)); cbn [changes_from].
  - specialize (IH (Some k)). lia.
  - specialize (IH p). pose proof (changes_from_skip p k keys). lia.
Qed.

Lemma changes_from_sublist p (P : CellularMeasurement → Prop)
    `{!∀ m, Decision (P m)} (l : list CellularMeasurement) :
  (changes_from p (map tower_key (filter P l))
   <= changes_from p (map tower_key l))%nat.
Proof.
  revert p. induction l as [| m l IH]; intros p; [done |].
  rewrite filter_cons. destruct (decide (P m)); cbn [changes_from map].
  - specialize (IH (Some (tower_key m))). lia.
  - specialize (IH p). pose proof (changes_from_skip p (tower_key m) (map tower_key l)).
    lia.
Qed.

Lemma changes_from_length p keys : (changes_from p keys <= length keys)%nat.
Proof.
  revert p. induction keys as [| k keys IH]; intros p; cbn [changes_from length];
    [done |].
  specialize (IH (Some k)). destruct (tower_changed p k); lia.
Qed.

(** [X8] [_count_tower_changes] counts the places where the registry key
    differs from that of the measurement before, among the measurements
    not older than the cut-off.  The count is below the number of those
    measurements, and a longer look-back never gives a smaller count,
    whatever the order of the timestamps in the history. *)
Theorem tower_changes_monotone now hours1 hours2 history :
  hours1 <= hours2 →
  (_count_tower_changes now hours1 history
   <= _count_tower_changes now hours2 history)%nat
  ∧ (_count_tower_changes now hours1 history
     <= length (since_cutoff now hours1 history) - 1)%nat.
Proof.
  intros Hh. rewrite !count_tower_changes_eq. split.
  - assert (Hsub : since_cutoff now hours1 history
                   = filter (fun m => now - hours1 * 3600 * 1000000 <= timestamp m)
                       (since_cutoff now hours2 history)).
    { unfold since_cutoff. rewrite list_filter_filter.
      apply PyFacts.filter_ext_elem. intros m _. lia. }
    rewrite Hsub. apply changes_from_sublist.
  - destruct (since_cutoff now hours1 history) as [| m l]; simpl; [done |].
    pose proof (changes_from_length (Some (tower_key m)) (map tower_key l)) as Hl.
    rewrite length_map in Hl. lia.
Qed.

(** The theorem at one hour against one day, with a history that is not
    in time order. *)
Lemma tower_changes_monotone_witness :
  (_count_tower_changes 7200000000 1
     [measurement_of "C1" "L1" 7000000000 (-80) "4G" "A5/3";
      measurement_of "C2" "L1" 0 (-80) "4G" "A5/3";
      measurement_of "C1" "L1" 7100000000 (-80) "4G" "A5/3"]
   <= _count_tower_changes 7200000000 24
        [measurement_of "C1" "L1" 7000000000 (-80) "4G" "A5/3";
         measurement_of "C2" "L1" 0 (-80) "4G" "A5/3";
         measurement_of "C1" "L1" 7100000000 (-80) "4G" "A5/3"])%nat.
Proof.
  apply (tower_changes_monotone 7200000000 1 24). lia.
Defined.

(** *** Encryption tags of acquired measurements *)

Lemma mmcli_encryption_values text :
  mmcli_encryption text ∈ ["A5/3"; "A5/1"; "Unknown"].
Proof.
  unfold mmcli_encryption.
  repeat (destruct (_ || _); [repeat constructor |]). repeat constructor.
Qed.

Lemma detect_encryption_macos_values tech :
  _detect_encryption_macos tech ∈ ["A5/3"; "A5/1"; "Unknown"].
Proof.
  unfold _detect_encryption_macos.
  repeat (destruct (_ || _); [repeat constructor |]). repeat constructor.
Qed.

(** [X9] The encryption tag of a measurement built by
    [_create_measurement_from_mmcli] is A5/3, A5/1 or Unknown, as is the
    tag [_detect_encryption_macos] returns.  Such a measurement never
    gets the encryption check of [_detect_imsi_catcher] to report, and
    after a measurement tagged in the same way the transition detector
    reports exactly on A5/3 followed by A5/1. *)
Theorem acquired_encryption_tags clock now info tech clock' history prev :
  let m := _create_measurement_from_mmcli clock now info in
  Py.penultimate history = Some prev →
  encryption_status prev ∈ ["A5/3"; "A5/1"; "Unknown"] →
  encryption_status m ∈ ["A5/3"; "A5/1"; "Unknown"]
  ∧ _detect_encryption_macos tech ∈ ["A5/3"; "A5/1"; "Unknown"]
  ∧ encryption_absent_check clock' m = []
  ∧ (emits "ENCRYPTION_DOWNGRADE" (_detect_encryption_anomalies clock' history m)
     ↔ encryption_status prev = "A5/3" ∧ encryption_status m = "A5/1").
Proof.
  intros m Hp Hprev.
  assert (Hm : encryption_status m ∈ ["A5/3"; "A5/1"; "Unknown"])
    by apply mmcli_encryption_values.
  split; [exact Hm |]. split; [apply detect_encryption_macos_values |].
  rewrite (MonitorProofs.detect_encryption_unfold _ _ _ _ Hp).
  repeat (apply elem_of_cons in Hm as [Hm | Hm]); [| | | by apply elem_of_nil in Hm];
    repeat (apply elem_of_cons in Hprev as [Hprev | Hprev]);
    try (by apply elem_of_nil in Hprev);
    unfold encryption_absent_check; rewrite Hm, Hprev;
    (split; [reflexivity |]);
    (split; [intros H; first [by apply MonitorProofs.emits_nil in H | done]
            | intros [? ?]; first [discriminate
                                  | by apply MonitorProofs.emits_singleton]]).
Qed.

(** The theorem at an LTE measurement followed by a UMTS one. *)
Lemma acquired_encryption_tags_witness :
  emits "ENCRYPTION_DOWNGRADE"
    (_detect_encryption_anomalies 7
       [_create_measurement_from_mmcli 0 0 (technology_only "lte");
        _create_measurement_from_mmcli 1 1 (technology_only "umts")]
       (_create_measurement_from_mmcli 1 1 (technology_only "umts"))).
Proof.
  apply (acquired_encryption_tags 1 1 (technology_only "umts") None 7
           [_create_measurement_from_mmcli 0 0 (technology_only "lte");
            _create_measurement_from_mmcli 1 1 (technology_only "umts")]
           (_create_measurement_from_mmcli 0 0 (technology_only "lte"))).
  - reflexivity.
  - apply list_elem_of_here.
  - split; reflexivity.
Defined.

End MonitorExtra.

(** ** The advanced detectors and their pipeline *)


Module AdvancedExtra.

Import Monitor Advanced AdvancedDetectors AdvancedSamples MoreAdvancedSamples.

(** *** Signature similarity *)

Lemma min_one_bounds (x : Q) : (0 <= x)%Q → (0 <= min_one x <= 1)%Q.
Proof.
  intros Hx. unfold min_one. destruct (Qle_bool x 1) eqn:E.
  - apply Qle_bool_iff in E. by split.
  - split; [done | apply Qle_refl].
Qed.

Lemma min_one_small (x : Q) : (x <= 1)%Q → min_one x = x.
Proof. intros H. unfold min_one. apply Qle_bool_iff in H. by rewrite H. Qed.

Lemma min_one_large (x : Q) : (1 <= x)%Q → (min_one x == 1)%Q.
Proof.
  intros H. unfold min_one. destruct (Qle_bool x 1) eqn:E; [| reflexivity].
  apply Qle_bool_iff in E. by apply Qle_antisym.
Qed.

Lemma zero_count_ratio (k : nat) (e : Z) :
  0 < e → (0 <= inject_Z (Z.of_nat k) / inject_Z e)%Q.
Proof.
  intros He. apply Qle_shift_div_l.
  - unfold Qlt. simpl. lia.
  - unfold Qle. simpl. lia.
Qed.

Lemma timing_advance_score_bounds features c :
  let '(s, n) := timing_advance_score features c in
  (0 <= s <= inject_Z (Z.of_nat n))%Q.
Proof.
  unfold timing_advance_score.
  destruct (timing_advance_pattern c) as [pattern |]; [| done].
  destruct (ta_features features) as [ta |]; [| done].
  destruct (Z.ltb_spec 0 (sum_list pattern)) as [He | He]; [| done].
  apply min_one_bounds. by apply zero_count_ratio.
Qed.

Lemma signal_score_bounds features c :
  let '(s, n) := signal_score features c in
  (0 <= s <= inject_Z (Z.of_nat n))%Q.
Proof.
  unfold signal_score.
  destruct (signal_characteristics c) as [chars |]; [| done].
  destruct (signal_features features) as [sig |]; [| done].
  repeat (destruct (_ && _); [done |]). done.
Qed.

Lemma protocol_score_bounds features c :
  let '(s, n) := protocol_score features c in
  (0 <= s <= inject_Z (Z.of_nat n))%Q.
Proof.
  unfold protocol_score.
  destruct (protocol_deviations c) as [devs |]; [| done].
  by destruct (_ && _).
Qed.

(** The similarity score lies between 0 and 1 for every feature
    dictionary and every signature. *)
Lemma similarity_bounds features c :
  (0 <= _calculate_signature_similarity features c <= 1)%Q.
Proof.
  unfold _calculate_signature_similarity.
  pose proof (timing_advance_score_bounds features c) as H1.
  pose proof (signal_score_bounds features c) as H2.
  pose proof (protocol_score_bounds features c) as H3.
  destruct (timing_advance_score features c) as [s1 n1].
  destruct (signal_score features c) as [s2 n2].
  destruct (protocol_score features c) as [s3 n3].
  destruct (decide (0 < n1 + n2 + n3)%nat) as [Hn | Hn]; [| done].
  assert (Hpos : (0 < inject_Z (Z.of_nat (n1 + n2 + n3)))%Q).
  { unfold Qlt. simpl. lia. }
  assert (Hsum : (inject_Z (Z.of_nat (n1 + n2 + n3))
                  == inject_Z (Z.of_nat n1) + inject_Z (Z.of_nat n2)
                     + inject_Z (Z.of_nat n3))%Q).
  { rewrite !Nat2Z.inj_add, !inject_Z_plus. reflexivity. }
  split.
  - apply Qle_shift_div_l; [done |]. lra.
  - apply Qle_shift_div_r; [done |]. rewrite Hsum. lra.
Qed.

(** Deciding [threshold < x / n] from bounds on [x]. *)
Lemma above_threshold (x n : Q) :
  (0 < n)%Q → (rf_fingerprint_match * n < x)%Q →
  Py.Qlt_bool rf_fingerprint_match (x / n) = true.
Proof.
  intros Hn Hx. apply AdvancedProofs.Qlt_bool_iff. by apply Qlt_shift_div_l.
Qed.

Lemma below_threshold (x n : Q) :
  (0 < n)%Q → (x <= rf_fingerprint_match * n)%Q →
  Py.Qlt_bool rf_fingerprint_match (x / n) = false.
Proof.
  intros Hn Hx. apply not_true_iff_false. rewrite AdvancedProofs.Qlt_bool_iff.
  apply Qle_not_lt. by apply Qle_shift_div_r.
Qed.

Lemma ratio_two_or_more (k : nat) (e : Z) :
  0 < e → e <= Z.of_nat k →
  (min_one (inject_Z (Z.of_nat k) / inject_Z e) == 1)%Q.
Proof.
  intros He Hk. apply min_one_large. apply Qle_shift_div_l.
  - unfold Qlt. simpl. lia.
  - unfold Qle. simpl. lia.
Qed.

Ltac score_case :=
  first [ apply above_threshold; [reflexivity | unfold rf_fingerprint_match; lra]
        | apply below_threshold; [reflexivity | unfold rf_fingerprint_match; lra] ].

(** The StingRay score passes the threshold exactly under
    [stingray_matches]. *)
Lemma stingray_score features :
  Py.Qlt_bool rf_fingerprint_match (_calculate_signature_similarity features stingray)
  = stingray_matches features.
Proof.
  unfold _calculate_signature_similarity, stingray_matches,
    timing_advance_score, signal_score, protocol_score.
  simpl. change (sum_list [0; 1; 0; 1]) with 2.
  destruct (has_downgrade features);
    destruct (signal_features features) as [sig |];
    destruct (ta_features features) as [ta |]; simpl;
    try destruct (Py.Qlt_bool 10 (signal_std sig)); simpl;
    try by vm_compute.
  all: destruct (ta_zero_count ta) as [| [| k]]; [by vm_compute | by vm_compute |].
  all: pose proof (ratio_two_or_more (S (S k)) 2 eq_refl ltac:(lia)) as Hk.
  all: pose proof (min_one_bounds _ (zero_count_ratio (S (S k)) 2 eq_refl)) as Hb.
  all: set (a := min_one _) in *.
  all: try rewrite bool_decide_eq_true_2 by lia.
  all: try change (inject_Z (Z.of_nat 3)) with 3%Q.
  all: try change (inject_Z (Z.of_nat 2)) with 2%Q.
  all: clearbody a; score_case.
Qed.

(** Neither of the other two signatures can pass it: they list no
    [forced_2g], and the protocol check counts all the same. *)
Lemma other_scores features c :
  c = hailstorm ∨ c = drt_box →
  Py.Qlt_bool rf_fingerprint_match (_calculate_signature_similarity features c)
  = false.
Proof.
  intros Hc.
  pose proof (timing_advance_score_bounds features c) as H1.
  pose proof (signal_score_bounds features c) as H2.
  unfold _calculate_signature_similarity.
  assert (H3 : protocol_score features c = (0%Q, 1%nat)) by (by destruct Hc as [-> | ->]).
  rewrite H3.
  assert (Hn1 : (snd (timing_advance_score features c) <= 1)%nat).
  { unfold timing_advance_score.
    destruct (timing_advance_pattern c); [| simpl; lia].
    destruct (ta_features features); simpl; lia. }
  assert (Hn2 : (snd (signal_score features c) <= 1)%nat).
  { unfold signal_score.
    destruct (signal_characteristics c); [| simpl; lia].
    destruct (signal_features features); simpl; lia. }
  destruct (timing_advance_score features c) as [s1 n1].
  destruct (signal_score features c) as [s2 n2]. simpl in Hn1, Hn2.
  rewrite decide_True by lia.
  destruct n1 as [| [| n1]]; [| | lia]; (destruct n2 as [| [| n2]]; [| | lia]).
  all: cbn [Nat.add] in *.
  all: vm_compute (inject_Z _) in H1, H2 |- *.
  all: apply below_threshold; [reflexivity | unfold rf_fingerprint_match; lra].
Qed.

(** *** Timing advance *)

Lemma buffer_ends_with_previous {A : Type} (earlier : list A) (prev x : A) :
  ∃ kept, Py.deque_append 1000 (earlier ++ [prev]) x = kept ++ [prev; x].
Proof.
  unfold Py.deque_append, Py.last_n. rewrite <- app_assoc. simpl.
  rewrite length_app. simpl.
  exists (drop (length earlier + 2 - 1000) earlier).
  by rewrite drop_app_le by lia.
Qed.

(** *** Power control *)

Lemma last_n_3_snoc3 {A : Type} (earlier : list A) (a b c : A) :
  Py.last_n 3 (earlier ++ [a; b; c]) = [a; b; c].
Proof.
  unfold Py.last_n. rewrite length_app. simpl.
  replace (length earlier + 3 - 3)%nat with (length earlier + 0)%nat by lia.
  by rewrite drop_app_add.
Qed.

Lemma truthy_ints_cons (o : option Z) (l : list (option Z)) :
  truthy_ints (o :: l) = truthy_ints [o] ++ truthy_ints l.
Proof. destruct o as [x |]; [| done]. simpl. by destruct (x =? 0). Qed.

Lemma truthy_int_cases (o : option Z) :
  truthy_ints [o] = match o with
                    | Some x => if x =? 0 then [] else [x]
                    | None => []
                    end.
Proof. destruct o as [x |]; [| done]. simpl. by destruct (x =? 0). Qed.

(** [X11] With the buffer holding at least three samples, the
    power-control detector looks at the uplink powers of the last three
    samples of the buffer.  SUSPICIOUS_POWER_CONTROL is returned exactly
    when the current power and all three of those are present and not 0,
    and one of the two successive steps is a rise of more than 10; a
    drop, however large, is never reported, and neither is anything when
    one of the three is absent or 0. *)
Theorem power_control_reported_exactly_when clock earlier m1 m2 m3 metrics :
  let buffer := earlier ++ [m1; m2; m3] in
  let r := _detect_power_analysis_attacks clock buffer metrics in
  (emits "SUSPICIOUS_POWER_CONTROL" r
   ↔ ∃ p p1 p2 p3,
       uplink_power metrics = Some p ∧ p ≠ 0
       ∧ uplink_power m1 = Some p1 ∧ p1 ≠ 0
       ∧ uplink_power m2 = Some p2 ∧ p2 ≠ 0
       ∧ uplink_power m3 = Some p3 ∧ p3 ≠ 0
       ∧ (10 < p2 - p1 ∨ 10 < p3 - p2))
  ∧ (∀ t, t ∈ r → threat_type t = "SUSPICIOUS_POWER_CONTROL").
Proof.
  intros buffer r.
  assert (Hlen : (3 <= length buffer)%nat).
  { subst buffer. rewrite length_app. simpl. lia. }
  subst r. unfold _detect_power_analysis_attacks.
  destruct (uplink_power metrics) as [p |].
  2:{ split; [| by intros t Ht%elem_of_nil].
      split; [by intros H%MonitorProofs.emits_nil | by intros (? & ? & ? & ? & ? & _)]. }
  destruct (Z.eqb_spec p 0) as [Hp | Hp].
  { split; [| by intros t Ht%elem_of_nil].
    split; [by intros H%MonitorProofs.emits_nil |].
    intros (? & ? & ? & ? & [= <-] & ? & _). done. }
  rewrite decide_True by done.
  subst buffer. rewrite last_n_3_snoc3.
  change (map uplink_power [m1; m2; m3])
    with [uplink_power m1; uplink_power m2; uplink_power m3].
  rewrite (truthy_ints_cons (uplink_power m1)), (truthy_ints_cons (uplink_power m2)).
  rewrite !truthy_int_cases.
  destruct (uplink_power m1) as [p1 |], (uplink_power m2) as [p2 |],
    (uplink_power m3) as [p3 |];
    try destruct (Z.eqb_spec p1 0) as [H1 | H1];
    try destruct (Z.eqb_spec p2 0) as [H2 | H2];
    try destruct (Z.eqb_spec p3 0) as [H3 | H3];
    simpl;
    try (split; [| by intros t Ht%elem_of_nil];
         split; [by intros H%MonitorProofs.emits_nil |];
         intros (? & ? & ? & ? & _ & _ & E1 & ? & E2 & ? & E3 & ? & _);
         congruence).
  destruct (Z.ltb_spec 10 (Z.max (p2 - p1) (p3 - p2))) as [Hb | Hb].
  - split.
    + rewrite MonitorProofs.emits_singleton. split; [| done]. intros _.
      exists p, p1, p2, p3. repeat (split; [done |]). lia.
    + intros t Ht%list_elem_of_singleton. by subst t.
  - split; [| by intros t Ht%elem_of_nil].
    split; [by intros H%MonitorProofs.emits_nil |].
    intros (? & q1 & q2 & q3 & _ & _ & [= <-] & _ & [= <-] & _ & [= <-] & _ & H). lia.
Qed.

(** *** RF fingerprint *)






(** *** Signature matching *)

(** When the StingRay signature passes, every check that counted scored
    1. *)
Lemma stingray_similarity_one features :
  stingray_matches features = true →
  (_calculate_signature_similarity features stingray == 1)%Q.
Proof.
  unfold _calculate_signature_similarity, stingray_matches,
    timing_advance_score, signal_score, protocol_score.
  simpl. change (sum_list [0; 1; 0; 1]) with 2.
  destruct (has_downgrade features); [| done].
  destruct (signal_features features) as [sig |];
    destruct (ta_features features) as [ta |]; simpl;
    try destruct (Py.Qlt_bool 10 (signal_std sig)); simpl;
    try done.
  all: rewrite ?bool_decide_eq_true; intros Hk.
  all: pose proof (ratio_two_or_more (ta_zero_count ta) 2 eq_refl ltac:(lia)) as Ha.
  all: set (a := min_one _) in *; clearbody a.
  all: vm_compute (inject_Z _).
  all: rewrite Ha; reflexivity.
Qed.

Lemma has_downgrade_iff np_mean np_std buffer :
  has_downgrade (_extract_ml_features np_mean np_std buffer) = true
  ↔ ∃ m, m ∈ buffer
         ∧ (tower_technology (tower m) = "2G" ∨ tower_technology (tower m) = "GSM").
Proof.
  unfold _extract_ml_features. simpl.
  rewrite !orb_true_iff, !bool_decide_eq_true, !list_elem_of_fmap. split.
  - intros [(m & E & Hm) | [(m & E & Hm) | H]]; [| | done]; exists m; eauto.
  - intros (m & Hm & [E | E]); [left | right; left]; by exists m.
Qed.

(** The loop over the three signatures. *)
Lemma signature_detector_cases np_mean np_std clock buffer metrics :
  _detect_sophisticated_imsi_catchers np_mean np_std clock buffer metrics
  = if bool_decide (20 <= length buffer)%nat
       && stingray_matches (_extract_ml_features np_mean np_std buffer)
    then [sophisticated_threat clock metrics stingray
            (_calculate_signature_similarity
               (_extract_ml_features np_mean np_std buffer) stingray)]
    else [].
Proof.
  unfold _detect_sophisticated_imsi_catchers.
  set (features := _extract_ml_features np_mean np_std buffer).
  case_decide as Hlen.
  - by rewrite bool_decide_eq_false_2 by lia.
  - rewrite bool_decide_eq_true_2 by lia.
    unfold known_imsi_catchers. simpl.
    rewrite (stingray_score features).
    rewrite (other_scores features hailstorm) by (by left).
    rewrite (other_scores features drt_box) by (by right).
    by destruct (stingray_matches features).
Qed.

(** [X13] Of the three signatures only StingRay can be reported.  The
    signature detector returns nothing while the buffer holds fewer than
    20 samples; after that it returns one SOPHISTICATED_IMSI_CATCHER
    threat naming StingRay when some buffered sample is on a 2G or GSM
    tower, the deviation of the non-zero signal strengths (if there are
    any) is above 10 and at least two buffered timing advances (if there
    are any) are 0, and nothing otherwise.  Its confidence is then 1: the
    score passes the 0.85 threshold only when every check that counted
    scored 1.  Without a 2G or GSM tower in the buffer nothing is
    returned. *)
Theorem signature_detector_reports_stingray_only np_mean np_std clock buffer metrics :
  let features := _extract_ml_features np_mean np_std buffer in
  let r := _detect_sophisticated_imsi_catchers np_mean np_std clock buffer metrics in
  r = (if bool_decide (20 <= length buffer)%nat && stingray_matches features
       then [sophisticated_threat clock metrics stingray
               (_calculate_signature_similarity features stingray)]
       else [])
  ∧ (∀ t, t ∈ r →
       Py.dict_get (evidence t) "imsi_catcher_type" = Some (EvStr "StingRay")
       ∧ threat_type t = "SOPHISTICATED_IMSI_CATCHER"
       ∧ severity t = "critical"
       ∧ (confidence t == 1)%Q)
  ∧ ((∀ m, m ∈ buffer → tower_technology (tower m) ≠ "2G"
                         ∧ tower_technology (tower m) ≠ "GSM") → r = []).
Proof.
  intros features r.
  assert (Hr : r = if bool_decide (20 <= length buffer)%nat && stingray_matches features
                   then [sophisticated_threat clock metrics stingray
                           (_calculate_signature_similarity features stingray)]
                   else []).
  { apply signature_detector_cases. }
  split; [exact Hr |]. split.
  - intros t Ht. rewrite Hr in Ht.
    destruct (bool_decide _); simpl in Ht; [| by apply elem_of_nil in Ht].
    destruct (stingray_matches features) eqn:E; [| by apply elem_of_nil in Ht].
    apply list_elem_of_singleton in Ht. subst t.
    repeat (split; [done |]). simpl. by apply stingray_similarity_one.
  - intros Hno. rewrite Hr.
    assert (Hd : has_downgrade features = false).
    { apply not_true_iff_false. intros (m & Hm & Ht)%has_downgrade_iff.
      destruct (Hno m Hm) as [H1 H2]. by destruct Ht. }
    unfold stingray_matches. rewrite Hd. simpl. by rewrite andb_false_r.
Qed.

(** The theorem at a buffer of twenty samples of a 4G tower. *)
Lemma signature_detector_reports_stingray_only_witness :
  _detect_sophisticated_imsi_catchers no_statistics no_statistics 0
    (replicate 20 (sample_metrics 0 (Some 0) None [] None None))
    (sample_metrics 0 (Some 0) None [] None None) = [].
Proof.
  apply (signature_detector_reports_stingray_only no_statistics no_statistics 0
           (replicate 20 (sample_metrics 0 (Some 0) None [] None None))
           (sample_metrics 0 (Some 0) None [] None None)).
  intros m Hm. apply elem_of_replicate in Hm as [-> _]. split; discriminate.
Defined.

(** *** The buffer and the statistics *)

Lemma update_model_window np_mean np_std (window : list Z) (x : Z) :
  update_model np_mean np_std (model_of np_mean np_std (Py.last_n 100 window)) x
  = model_of np_mean np_std (Py.last_n 100 (window ++ [x])).
Proof.
  assert (Hs : samples (model_of np_mean np_std (Py.last_n 100 window))
               = Py.last_n 100 window).
  { unfold model_of. by destruct (Py.last_n 100 window). }
  assert (Hkept : (if decide (100 < length (Py.last_n 100 window ++ [x]))%nat
                   then drop 1 (Py.last_n 100 window ++ [x])
                   else Py.last_n 100 window ++ [x])
                  = Py.last_n 100 (window ++ [x])).
  { rewrite <- PyMoreFacts.last_n_app_last_n.
    pose proof (PyMoreFacts.length_last_n 100 window) as Hlen.
    case_decide as Hc; rewrite length_app in Hc; simpl in Hc.
    - set (w := Py.last_n 100 window) in *. unfold Py.last_n.
      rewrite length_app. simpl.
      by replace (length w + 1 - 100)%nat with 1%nat by lia.
    - symmetry. apply PyFacts.last_n_all. rewrite length_app. simpl. lia. }
  unfold update_model. rewrite Hs, Hkept.
  rewrite PyMoreFacts.last_n_snoc by lia.
  unfold model_of. by destruct (Py.last_n (100 - 1) window).
Qed.

Lemma detector_run_snoc np_mean np_std clock d l metrics :
  analyze_all np_mean np_std clock d (l ++ [metrics])
  = fst (analyze_advanced_metrics np_mean np_std clock
           (analyze_all np_mean np_std clock d l) metrics).
Proof. unfold analyze_all. by rewrite fold_left_app. Qed.

(** [X14] After any run of samples from a fresh detector, the buffer is
    the last 1000 samples of the run, the signal-strength statistics are
    those of the last 100 signal strengths that are not 0 (a sample
    reporting 0 is not recorded), and the timing-advance statistics are
    those of the last 100 timing advances that are present (0 included),
    wherever in the run they lie; while nothing has been recorded an entry
    keeps mean 0 and deviation 0. *)
Theorem detector_state_is_windowed np_mean np_std clock l :
  let d := analyze_all np_mean np_std clock init_detector l in
  measurement_buffer d = Py.last_n 1000 l
  ∧ signal_strength_model (statistical_models_of d)
    = model_of np_mean np_std
        (Py.last_n 100 (filter (λ s, s ≠ 0) (map signal_strength l)))
  ∧ timing_advance_model (statistical_models_of d)
    = model_of np_mean np_std (Py.last_n 100 (omap timing_advance l))
  ∧ (length (measurement_buffer d) <= 1000)%nat
  ∧ (length (samples (signal_strength_model (statistical_models_of d))) <= 100)%nat
  ∧ (length (samples (timing_advance_model (statistical_models_of d))) <= 100)%nat.
Proof.
  intros d.
  assert (H : measurement_buffer d = Py.last_n 1000 l
    ∧ signal_strength_model (statistical_models_of d)
      = model_of np_mean np_std
          (Py.last_n 100 (filter (λ s, s ≠ 0) (map signal_strength l)))
    ∧ timing_advance_model (statistical_models_of d)
      = model_of np_mean np_std (Py.last_n 100 (omap timing_advance l))).
  { subst d. induction l as [| metrics l IH] using rev_ind; [done |].
    destruct IH as (IHb & IHs & IHt).
    rewrite detector_run_snoc. simpl. split; [| split].
    - rewrite IHb. apply PyMoreFacts.last_n_app_last_n.
    - rewrite map_app, filter_app. simpl.
      destruct (Z.eqb_spec (signal_strength metrics) 0) as [E | E].
      + rewrite (filter_singleton _ _ []), decide_False by (intros H; by apply H).
        by rewrite app_nil_r.
      + rewrite (filter_singleton _ _ []), decide_True by done.
        rewrite IHs. apply update_model_window.
    - rewrite omap_app. simpl.
      destruct (timing_advance metrics) as [ta |]; simpl.
      + rewrite IHt. apply update_model_window.
      + by rewrite app_nil_r. }
  destruct H as (Hb & Hs & Ht). repeat (split; [done |]).
  rewrite Hb, Hs, Ht.
  assert (Hm : ∀ window, samples (model_of np_mean np_std window) = window).
  { intros w. by destruct w. }
  rewrite !Hm, !PyMoreFacts.length_last_n. lia.
Qed.

(** *** Frequency hopping *)

Lemma length_distinct_le (l : list Q) : (length (Py.distinct l) <= length l)%nat.
Proof.
  induction l as [| a l IH]; simpl; [lia |].
  destruct (existsb (Qeq_bool a) l); simpl; lia.
Qed.

Lemma existsb_Qeq (a : Q) (l : list Q) :
  existsb (Qeq_bool a) l = true ↔ ∃ j y, l !! j = Some y ∧ (a == y)%Q.
Proof.
  rewrite existsb_exists. split.
  - intros (y & Hy & E). apply list_elem_of_In, list_elem_of_lookup in Hy as [j Hj].
    exists j, y. split; [done | by apply Qeq_bool_iff].
  - intros (j & y & Hj & E). exists y. split; [| by apply Qeq_bool_iff].
    apply list_elem_of_In, list_elem_of_lookup. by exists j.
Qed.

Lemma all_different_cons (a : Q) (l : list Q) :
  all_different (a :: l)
  ↔ (∀ j y, l !! j = Some y → ¬ (a == y)%Q) ∧ all_different l.
Proof.
  unfold all_different. split.
  - intros H. split.
    + intros j y Hj. apply (H 0%nat (S j) a y); [lia | done | done].
    + intros i j x y Hij Hi Hj. apply (H (S i) (S j) x y); [lia | done | done].
  - intros [Ha Hl] i j x y Hij Hi Hj.
    destruct j as [| j]; [lia |]. destruct i as [| i].
    + injection Hi as <-. by apply (Ha j y).
    + apply (Hl i j x y); [lia | done | done].
Qed.

(** [len(set(l)) == len(l)] says that no two entries are equal. *)
Lemma distinct_all_iff (l : list Q) :
  length (Py.distinct l) = length l ↔ all_different l.
Proof.
  induction l as [| a l IH]; [by split; [intros _ ? ? ? ? ? ? | ] |].
  rewrite all_different_cons. simpl.
  destruct (existsb (Qeq_bool a) l) eqn:E.
  - pose proof (length_distinct_le l). split; [lia |].
    intros [Ha _]. apply existsb_Qeq in E as (j & y & Hj & Hy).
    by destruct (Ha j y Hj).
  - simpl. rewrite <- IH. split.
    + intros H. split; [| lia]. intros j y Hj Hy.
      assert (existsb (Qeq_bool a) l = true) by (apply existsb_Qeq; eauto).
      congruence.
    + intros [_ H]. lia.
Qed.

Lemma truthy_floats_app (l1 l2 : list (option Q)) :
  truthy_floats (l1 ++ l2) = truthy_floats l1 ++ truthy_floats l2.
Proof. apply omap_app. Qed.

(** [X15] SUSPICIOUS_FREQUENCY_HOPPING is returned exactly when the
    sample has a downlink frequency that is not 0, the buffer holds at
    least five samples, and the non-zero frequencies of its last five
    samples are at least three and all different.  So while a device stays
    on its channel for two samples in a row nothing is reported, however
    often it changed before. *)
Theorem frequency_hopping_reported_exactly_when clock buffer metrics :
  let recent := truthy_floats (map downlink_frequency (Py.last_n 5 buffer)) in
  let r := _detect_frequency_anomalies clock buffer metrics in
  (emits "SUSPICIOUS_FREQUENCY_HOPPING" r
   ↔ (∃ f, downlink_frequency metrics = Some f ∧ ¬ (f == 0)%Q)
     ∧ (5 <= length buffer)%nat ∧ (3 <= length recent)%nat ∧ all_different recent)
  ∧ (∀ earlier prev f,
       buffer = earlier ++ [prev; metrics] →
       downlink_frequency prev = Some f → downlink_frequency metrics = Some f →
       ¬ emits "SUSPICIOUS_FREQUENCY_HOPPING" r).
Proof.
  intros recent r.
  assert (Hiff : emits "SUSPICIOUS_FREQUENCY_HOPPING" r
   ↔ (∃ f, downlink_frequency metrics = Some f ∧ ¬ (f == 0)%Q)
     ∧ (5 <= length buffer)%nat ∧ (3 <= length recent)%nat ∧ all_different recent).
  { subst r. unfold _detect_frequency_anomalies.
    destruct (downlink_frequency metrics) as [f |].
    2:{ split; [by intros H%MonitorProofs.emits_nil | by intros [(? & ? & _) _]]. }
    destruct (Py.Qfalsy f) eqn:Ef.
    { apply AdvancedProofs.Qfalsy_iff in Ef.
      split; [by intros H%MonitorProofs.emits_nil |].
      intros [(? & [= <-] & H) _]. done. }
    assert (Hf : ¬ (f == 0)%Q).
    { intros H%AdvancedProofs.Qfalsy_iff. congruence. }
    rewrite AdvancedProofs.emits_app.
    assert (Hband : ¬ emits "SUSPICIOUS_FREQUENCY_HOPPING"
                      (if band_match f then []
                       else [freq_anomaly_threat clock metrics f])).
    { destruct (band_match f).
      - apply MonitorProofs.emits_nil.
      - rewrite MonitorProofs.emits_singleton. discriminate. }
    fold recent. rewrite <- distinct_all_iff.
    case_decide as Hlen.
    - case_decide as Hd.
      + rewrite MonitorProofs.emits_singleton. split; [| by right].
        intros _. split; [by exists f |]. by destruct Hd.
      + split; [intros [H | H%MonitorProofs.emits_nil]; done |].
        intros (_ & _ & H1 & H2). by destruct Hd.
    - split; [intros [H | H%MonitorProofs.emits_nil]; done |].
      intros (_ & H & _). done. }
  split; [exact Hiff |].
  intros earlier prev f Hbuf Hprev Hcur. rewrite Hiff.
  intros ((f' & Hf' & Hf) & _ & _ & Hall).
  rewrite Hcur in Hf'. injection Hf' as <-.
  assert (Hrecent : ∃ pre, recent = pre ++ [f; f]).
  { subst recent. rewrite Hbuf.
    exists (truthy_floats (map downlink_frequency
                             (drop (length earlier + 2 - 5) earlier))).
    unfold Py.last_n. rewrite length_app. simpl.
    rewrite drop_app_le by lia.
    rewrite map_app, truthy_floats_app. f_equal. simpl. rewrite Hprev, Hcur.
    assert (Ef : Py.Qfalsy f = false).
    { apply not_true_iff_false. by intros H%AdvancedProofs.Qfalsy_iff. }
    by rewrite Ef. }
  destruct Hrecent as [pre Hpre].
  apply (Hall (length pre) (S (length pre)) f f); [lia | | | reflexivity].
  - rewrite Hpre. by apply list_lookup_middle.
  - rewrite Hpre. change (pre ++ [f; f]) with (pre ++ [f] ++ [f]).
    rewrite app_assoc. apply list_lookup_middle. rewrite length_app. simpl. lia.
Qed.

(** The theorem at a device that changed channel three times and then
    stayed. *)
Lemma frequency_hopping_reported_exactly_when_witness :
  ¬ emits "SUSPICIOUS_FREQUENCY_HOPPING"
      (_detect_frequency_anomalies 0
         ([on_frequency 1800; on_frequency 1810; on_frequency 1820]
          ++ [on_frequency 1830; on_frequency 1830])
         (on_frequency 1830)).
Proof.
  apply (frequency_hopping_reported_exactly_when 0
           ([on_frequency 1800; on_frequency 1810; on_frequency 1820]
            ++ [on_frequency 1830; on_frequency 1830])
           (on_frequency 1830))
    with (earlier := [on_frequency 1800; on_frequency 1810; on_frequency 1820])
         (prev := on_frequency 1830) (f := 1830%Q); reflexivity.
Defined.

(** *** The pipeline *)

Ltac sublist_of_literals :=
  repeat first [ apply sublist_nil_l | apply sublist_skip | apply sublist_cons ].

(** A threat built with the levels of its type. *)
Lemma as_tabled_intro metrics t sev conf :
  Py.dict_get threat_table (threat_type t) = Some (sev, conf) →
  severity t = sev → (confidence t == conf)%Q →
  threat_timestamp t = timestamp metrics →
  threat_location t = None → affected_towers t = [] →
  as_tabled metrics t.
Proof. intros. exists sev, conf. done. Qed.

Ltac tabled :=
  eapply as_tabled_intro; [reflexivity | reflexivity | reflexivity | done..].

(** What a detector has to return: threats of its own types, at most one
    of each and in order, each as tabled. *)
Lemma detector_nil metrics types :
  map threat_type [] `sublist_of` types ∧ ∀ t, t ∈ [] → as_tabled metrics t.
Proof. split; [apply sublist_nil_l | by intros t ?%elem_of_nil]. Qed.

Lemma detector_app metrics (l1 l2 : list SecurityThreat) types1 types2 :
  (map threat_type l1 `sublist_of` types1 ∧ ∀ t, t ∈ l1 → as_tabled metrics t) →
  (map threat_type l2 `sublist_of` types2 ∧ ∀ t, t ∈ l2 → as_tabled metrics t) →
  map threat_type (l1 ++ l2) `sublist_of` types1 ++ types2
  ∧ ∀ t, t ∈ l1 ++ l2 → as_tabled metrics t.
Proof.
  intros [S1 T1] [S2 T2]. split.
  - rewrite map_app. by apply sublist_app.
  - intros t [H | H]%elem_of_app; auto.
Qed.

Lemma detector_if metrics (b : bool) (t : SecurityThreat) types :
  threat_type t ∈ types → as_tabled metrics t →
  map threat_type (if b then [t] else []) `sublist_of` types
  ∧ ∀ t', t' ∈ (if b then [t] else []) → as_tabled metrics t'.
Proof.
  intros Hty Ht. destruct b; [| apply detector_nil]. split.
  - simpl. by apply singleton_sublist_l.
  - by intros t' ->%list_elem_of_singleton.
Qed.

Lemma dict_get_elem {V : Type} (d : list (string * V)) k v :
  Py.dict_get d k = Some v → (k, v) ∈ d.
Proof.
  induction d as [| [k' v'] d IH]; simpl; [done |].
  case_decide as E; [intros [= <-]; subst; left | right; auto].
Qed.

Lemma timing_advance_detector_tabled clock buffer metrics :
  let r := _detect_timing_advance_anomalies clock buffer metrics in
  map threat_type r
    `sublist_of` ["TIMING_ADVANCE_ZERO"] ++ ["IMPOSSIBLE_TIMING_ADVANCE_CHANGE"]
  ∧ ∀ t, t ∈ r → as_tabled metrics t.
Proof.
  unfold _detect_timing_advance_anomalies, impossible_ta_change.
  destruct (timing_advance metrics) as [ta |]; [| apply detector_nil].
  apply detector_app.
  - apply detector_if; [apply list_elem_of_here | tabled].
  - destruct (Py.penultimate buffer) as [prev |]; [| apply detector_nil].
    destruct (timing_advance prev) as [prev_ta |]; [| apply detector_nil].
    apply detector_if; [apply list_elem_of_here | tabled].
Qed.

Lemma rf_detector_tabled np_std clock buffer metrics :
  let r := _detect_rf_fingerprint_anomalies np_std clock buffer metrics in
  map threat_type r
    `sublist_of` ["RF_FINGERPRINT_ANOMALY"] ++ ["SUSPICIOUS_RF_SIGNATURE"]
  ∧ ∀ t, t ∈ r → as_tabled metrics t.
Proof.
  unfold _detect_rf_fingerprint_anomalies, rsrq_variation_check, rsrp_rsrq_check.
  case_decide; [apply detector_nil |].
  apply detector_app.
  - case_decide; [| apply detector_nil].
    apply detector_if; [apply list_elem_of_here | tabled].
  - destruct (rsrp metrics) as [rp |]; [| apply detector_nil].
    destruct (rsrq metrics) as [rq |]; [| apply detector_nil].
    destruct (Py.Qfalsy rp || Py.Qfalsy rq); [apply detector_nil |].
    apply detector_if; [apply list_elem_of_here | tabled].
Qed.

Lemma protocol_detector_tabled clock metrics :
  let r := _detect_protocol_anomalies clock metrics in
  map threat_type r
    `sublist_of` ["INVALID_PHYSICAL_CELL_ID"] ++ ["EXCESSIVE_NEIGHBOR_CELLS"]
  ∧ ∀ t, t ∈ r → as_tabled metrics t.
Proof.
  unfold _detect_protocol_anomalies. apply detector_app.
  - unfold pci_check. destruct (pci metrics) as [p |]; [| apply detector_nil].
    apply detector_if; [apply list_elem_of_here | tabled].
  - destruct (AdvancedProofs.neighbor_check_cases clock metrics) as [-> | ->];
      [apply detector_nil |].
    apply (detector_if metrics true); [apply list_elem_of_here | tabled].
Qed.

Lemma frequency_detector_tabled clock buffer metrics :
  let r := _detect_frequency_anomalies clock buffer metrics in
  map threat_type r
    `sublist_of` ["FREQUENCY_OUT_OF_BAND"] ++ ["SUSPICIOUS_FREQUENCY_HOPPING"]
  ∧ ∀ t, t ∈ r → as_tabled metrics t.
Proof.
  unfold _detect_frequency_anomalies.
  destruct (downlink_frequency metrics) as [f |]; [| apply detector_nil].
  destruct (Py.Qfalsy f); [apply detector_nil |].
  apply detector_app.
  - destruct (band_match f); [apply detector_nil |].
    apply (detector_if metrics true); [apply list_elem_of_here | tabled].
  - case_decide; [| apply detector_nil].
    case_decide; [| apply detector_nil].
    apply (detector_if metrics true); [apply list_elem_of_here | tabled].
Qed.

Lemma power_detector_tabled clock buffer metrics :
  let r := _detect_power_analysis_attacks clock buffer metrics in
  map threat_type r `sublist_of` ["SUSPICIOUS_POWER_CONTROL"]
  ∧ ∀ t, t ∈ r → as_tabled metrics t.
Proof.
  unfold _detect_power_analysis_attacks.
  destruct (uplink_power metrics) as [p |]; [| apply detector_nil].
  destruct (p =? 0); [apply detector_nil |].
  case_decide; [| apply detector_nil].
  case_decide; [| apply detector_nil].
  destruct (Py.max_list _) as [biggest |]; [| apply detector_nil].
  apply detector_if; [apply list_elem_of_here | tabled].
Qed.

Lemma signature_detector_tabled np_mean np_std clock buffer metrics :
  let r := _detect_sophisticated_imsi_catchers np_mean np_std clock buffer metrics in
  map threat_type r `sublist_of` ["SOPHISTICATED_IMSI_CATCHER"]
  ∧ ∀ t, t ∈ r → as_tabled metrics t.
Proof.
  simpl. rewrite signature_detector_cases.
  destruct (bool_decide _); simpl; [| apply detector_nil].
  destruct (stingray_matches _) eqn:E; [| apply detector_nil].
  apply (detector_if metrics true); [apply list_elem_of_here |].
  eapply as_tabled_intro; [reflexivity | reflexivity | | done..].
  by apply stingray_similarity_one.
Qed.

Lemma jamming_detector_tabled clock metrics :
  let r := _detect_jamming_attacks clock metrics in
  map threat_type r `sublist_of` ["POTENTIAL_JAMMING"]
  ∧ ∀ t, t ∈ r → as_tabled metrics t.
Proof.
  unfold _detect_jamming_attacks.
  destruct (sinr metrics) as [s |]; [| apply detector_nil].
  apply detector_if; [apply list_elem_of_here | tabled].
Qed.

Lemma pipeline_tabled np_mean np_std clock d metrics :
  let r := snd (analyze_advanced_metrics np_mean np_std clock d metrics) in
  map threat_type r `sublist_of` map fst threat_table
  ∧ ∀ t, t ∈ r → as_tabled metrics t.
Proof.
  intros r. subst r.
  change (map fst threat_table)
    with ((["TIMING_ADVANCE_ZERO"] ++ ["IMPOSSIBLE_TIMING_ADVANCE_CHANGE"])
          ++ (["RF_FINGERPRINT_ANOMALY"] ++ ["SUSPICIOUS_RF_SIGNATURE"])
          ++ (["INVALID_PHYSICAL_CELL_ID"] ++ ["EXCESSIVE_NEIGHBOR_CELLS"])
          ++ (["FREQUENCY_OUT_OF_BAND"] ++ ["SUSPICIOUS_FREQUENCY_HOPPING"])
          ++ ["SUSPICIOUS_POWER_CONTROL"]
          ++ ["SOPHISTICATED_IMSI_CATCHER"]
          ++ ["POTENTIAL_JAMMING"] ++ []).
  unfold analyze_advanced_metrics. cbn [snd].
  apply detector_app; [apply timing_advance_detector_tabled |].
  apply detector_app; [apply rf_detector_tabled |].
  apply detector_app; [apply protocol_detector_tabled |].
  apply detector_app; [apply frequency_detector_tabled |].
  apply detector_app; [apply power_detector_tabled |].
  apply detector_app; [apply signature_detector_tabled |].
  apply detector_app; [apply jamming_detector_tabled |].
  apply detector_nil.
Qed.

(** [X16] One call of the pipeline returns its threats in the order of
    the detectors and at most one of each type: the types returned are a
    sub-sequence of TIMING_ADVANCE_ZERO, IMPOSSIBLE_TIMING_ADVANCE_CHANGE,
    RF_FINGERPRINT_ANOMALY, SUSPICIOUS_RF_SIGNATURE,
    INVALID_PHYSICAL_CELL_ID, EXCESSIVE_NEIGHBOR_CELLS,
    FREQUENCY_OUT_OF_BAND, SUSPICIOUS_FREQUENCY_HOPPING,
    SUSPICIOUS_POWER_CONTROL, SOPHISTICATED_IMSI_CATCHER,
    POTENTIAL_JAMMING.  Every threat carries the timestamp of the sample
    and the severity and confidence of its type, the confidence lying
    between 0.5 and 1; NO_NEIGHBOR_CELLS is not among the types the
    pipeline can return. *)
Theorem pipeline_threats_in_order np_mean np_std clock d metrics :
  let r := snd (analyze_advanced_metrics np_mean np_std clock d metrics) in
  map threat_type r `sublist_of` map fst threat_table
  ∧ NoDup (map threat_type r)
  ∧ (∀ t, t ∈ r → as_tabled metrics t ∧ (5 # 10 <= confidence t <= 1)%Q)
  ∧ ¬ emits "NO_NEIGHBOR_CELLS" r.
Proof.
  intros r.
  destruct (pipeline_tabled np_mean np_std clock d metrics) as [Hsub Htab].
  fold r in Hsub, Htab.
  split; [exact Hsub |]. split; [| split].
  - apply (sublist_NoDup _ (map fst threat_table)); [| exact Hsub].
    apply (bool_decide_unpack _). by vm_compute.
  - intros t Ht. split; [by apply Htab |].
    destruct (Htab t Ht) as (sev & conf & Hget & _ & Hc & _).
    apply dict_get_elem in Hget. unfold threat_table in Hget.
    repeat (apply elem_of_cons in Hget as [[= _ _ ->] | Hget];
            [rewrite Hc; split; unfold Qle; simpl; lia |]).
    by apply elem_of_nil in Hget.
  - intros (t & Ht & Hty).
    assert (Hin : threat_type t ∈ map fst threat_table).
    { eapply elem_of_sublist; [| exact Hsub]. apply list_elem_of_fmap. eauto. }
    rewrite Hty in Hin. revert Hin. apply (bool_decide_unpack _). by vm_compute.
Qed.

(** The four detectors modelled in [Advanced.analyze_advanced_metrics] see
    the same buffer as in the full pipeline, and their threats are a
    sub-sequence of its threats. *)
Lemma four_detectors_within_pipeline np_mean np_std clock d metrics :
  fst (Advanced.analyze_advanced_metrics clock (measurement_buffer d) metrics)
  = measurement_buffer
      (fst (analyze_advanced_metrics np_mean np_std clock d metrics))
  ∧ snd (Advanced.analyze_advanced_metrics clock (measurement_buffer d) metrics)
    `sublist_of` snd (analyze_advanced_metrics np_mean np_std clock d metrics).
Proof.
  split; [done |].
  unfold Advanced.analyze_advanced_metrics, analyze_advanced_metrics. cbn [snd].
  apply sublist_app; [done |]. apply sublist_inserts_l.
  apply sublist_app; [done |]. apply sublist_app; [done |].
  apply sublist_inserts_r. done.
Qed.

End AdvancedExtra.
(** ** Rounding to 53 significant bits is a rounding *)

Module Binary64Facts.

Import Binary64.

(** *** The nearest integer *)

Ltac order_of_compare :=
  repeat match goal with
  | H : (_ ?= _)%Q = Eq |- _ => apply (proj2 (Qeq_alt _ _)) in H
  | H : (_ ?= _)%Q = Lt |- _ => apply (proj2 (Qlt_alt _ _)) in H
  | H : (_ ?= _)%Q = Gt |- _ => apply (proj2 (Qgt_alt _ _)) in H
  end.

Lemma rne_cases (t : Q) :
  (rne t = Qfloor t ∧ (t - inject_Z (Qfloor t) <= 1 # 2)%Q)
  ∨ (rne t = Qfloor t + 1 ∧ (1 # 2 <= t - inject_Z (Qfloor t))%Q).
Proof.
  unfold rne.
  destruct (t - inject_Z (Qfloor t) ?= 1 # 2)%Q eqn:E.
  - order_of_compare. destruct (Z.even (Qfloor t)).
    + left. split; [done | lra].
    + right. split; [done | lra].
  - order_of_compare. left. split; [done | lra].
  - order_of_compare. right. split; [done | lra].
Qed.

Lemma floor_bounds (t : Q) :
  (inject_Z (Qfloor t) <= t)%Q ∧ (t < inject_Z (Qfloor t) + 1)%Q.
Proof.
  split; [apply Qfloor_le |].
  pose proof (Qlt_floor t) as H. rewrite inject_Z_plus in H. exact H.
Qed.

Lemma rne_error (t : Q) :
  (t - (1 # 2) <= inject_Z (rne t))%Q ∧ (inject_Z (rne t) <= t + (1 # 2))%Q.
Proof.
  destruct (floor_bounds t) as [H1 H2].
  destruct (rne_cases t) as [[-> H] | [-> H]].
  - split; lra.
  - rewrite inject_Z_plus. change (inject_Z 1) with 1%Q. split; lra.
Qed.

Lemma rne_comp (t u : Q) : (t == u)%Q → rne t = rne u.
Proof.
  intros E. unfold rne. rewrite (Qfloor_comp t u E).
  assert (E' : (t - inject_Z (Qfloor u) == u - inject_Z (Qfloor u))%Q) by (rewrite E; reflexivity).
  by rewrite (Qcompare_comp _ _ E' (1 # 2) (1 # 2) (Qeq_refl _)).
Qed.

Lemma rne_Z (n : Z) : rne (inject_Z n) = n.
Proof.
  unfold rne. rewrite Qfloor_Z.
  assert (E : (inject_Z n - inject_Z n ?= 1 # 2)%Q = Lt).
  { apply (proj1 (Qlt_alt _ _)). lra. }
  by rewrite E.
Qed.

Lemma inject_Z_le (x y : Z) : x <= y ↔ (inject_Z x <= inject_Z y)%Q.
Proof. unfold Qle. simpl. lia. Qed.

Lemma inject_Z_lt (x y : Z) : x < y ↔ (inject_Z x < inject_Z y)%Q.
Proof. unfold Qlt. simpl. lia. Qed.

Lemma rne_mono (t u : Q) : (t <= u)%Q → rne t <= rne u.
Proof.
  intros Htu.
  pose proof (Qfloor_resp_le t u Htu) as Hf.
  destruct (floor_bounds t) as [Ht1 Ht2].
  destruct (floor_bounds u) as [Hu1 Hu2].
  destruct (decide (Qfloor t = Qfloor u)) as [E | Hne].
  - unfold rne. rewrite E.
    destruct (t - inject_Z (Qfloor u) ?= 1 # 2)%Q eqn:Et;
      destruct (u - inject_Z (Qfloor u) ?= 1 # 2)%Q eqn:Eu;
      try (destruct (Z.even (Qfloor u))); try lia;
      order_of_compare; exfalso; lra.
  - assert (Hlt : Qfloor t + 1 <= Qfloor u) by lia.
    destruct (rne_cases t) as [[-> _] | [-> _]];
      destruct (rne_cases u) as [[-> _] | [-> _]]; lia.
Qed.

(** *** Powers of two *)

Lemma two_nonzero : ¬ (2 == 0)%Q.
Proof. discriminate. Qed.

Lemma pow2_pos (e : Z) : (0 < 2 ^ e)%Q.
Proof. by apply Qpower_0_lt. Qed.

Lemma pow2_add (a b : Z) : (2 ^ (a + b) == 2 ^ a * 2 ^ b)%Q.
Proof. apply Qpower_plus, two_nonzero. Qed.

Lemma pow2_sub (a b : Z) : (2 ^ (a - b) == 2 ^ a / 2 ^ b)%Q.
Proof. apply Qpower_minus, two_nonzero. Qed.

Lemma pow2_succ (e : Z) : (2 ^ (e + 1) == 2 * 2 ^ e)%Q.
Proof. rewrite pow2_add. change (2 ^ 1)%Q with 2%Q. ring. Qed.

Lemma pow2_Z (k : Z) : 0 <= k → (inject_Z (2 ^ k) == 2 ^ k)%Q.
Proof. intros H. by rewrite Zpower_Qpower. Qed.

Lemma pow2_le (a b : Z) : a <= b → (2 ^ a <= 2 ^ b)%Q.
Proof. intros H. apply Qpower_le_compat_l; [done | lra]. Qed.

Lemma pow2_lt_inv (a b : Z) : (2 ^ a < 2 ^ b)%Q → a < b.
Proof. intros H. apply (Qpower_lt_compat_l_inv 2); [done | lra]. Qed.

(** *** The binade *)

Lemma binade_spec (x : Q) :
  (0 < x)%Q → (2 ^ binade x <= x)%Q ∧ (x < 2 ^ (binade x + 1))%Q.
Proof.
  destruct x as [n d]. intros Hx.
  assert (Hn : 0 < n) by (unfold Qlt in Hx; simpl in Hx; lia).
  unfold binade. simpl Qnum. simpl Qden.
  set (a := Z.log2 n). set (b := Z.log2 (Z.pos d)).
  destruct (Z.log2_spec n Hn) as [Ha1 Ha2]. fold a in Ha1, Ha2.
  destruct (Z.log2_spec (Z.pos d) (Pos2Z.is_pos d)) as [Hb1 Hb2].
  fold b in Hb1, Hb2.
  assert (Ha : 0 <= a) by apply Z.log2_nonneg.
  assert (Hb : 0 <= b) by apply Z.log2_nonneg.
  apply inject_Z_le in Ha1, Hb1. apply inject_Z_lt in Ha2, Hb2.
  rewrite pow2_Z in Ha1, Hb1 by done.
  rewrite pow2_Z in Ha2, Hb2 by lia.
  replace (Z.succ a) with (a + 1) in Ha2 by lia.
  replace (Z.succ b) with (b + 1) in Hb2 by lia.
  rewrite pow2_succ in Ha2, Hb2.
  assert (Hx' : (n # d == inject_Z n / inject_Z (Z.pos d))%Q) by apply Qmake_Qdiv.
  assert (Hd : (0 < inject_Z (Z.pos d))%Q) by (by apply (inject_Z_lt 0)).
  pose proof (pow2_pos a) as Pa. pose proof (pow2_pos b) as Pb.
  assert (Hxd : ((n # d) * inject_Z (Z.pos d) == inject_Z n)%Q).
  { rewrite Hx'. field. lra. }
  destruct (Qle_bool (2 ^ (a - b)) (n # d)) eqn:E.
  - apply Qle_bool_iff in E. split; [done |].
    replace (a - b + 1) with (a + 1 - b) by lia.
    rewrite pow2_sub, pow2_succ.
    apply Qlt_shift_div_l; [done |]. nra.
  - assert (E' : (n # d < 2 ^ (a - b))%Q).
    { apply Qnot_le_lt. intros H%Qle_bool_iff. congruence. }
    replace (a - b - 1 + 1) with (a - b) by lia. split; [| done].
    replace (a - b - 1) with (a - (b + 1)) by lia.
    rewrite pow2_sub, pow2_succ.
    apply Qle_shift_div_r; [lra |]. nra.
Qed.

Lemma binade_unique (x : Q) (e : Z) :
  (2 ^ e <= x)%Q → (x < 2 ^ (e + 1))%Q → binade x = e.
Proof.
  intros H1 H2.
  assert (Hx : (0 < x)%Q) by (pose proof (pow2_pos e); lra).
  destruct (binade_spec x Hx) as [B1 B2].
  assert (binade x < e + 1) by (apply pow2_lt_inv; lra).
  assert (e < binade x + 1) by (apply pow2_lt_inv; lra).
  lia.
Qed.

Lemma binade_mono (x y : Q) : (0 < x)%Q → (x <= y)%Q → binade x <= binade y.
Proof.
  intros Hx Hxy.
  destruct (binade_spec x Hx) as [X1 X2].
  destruct (binade_spec y) as [Y1 Y2]; [lra |].
  assert (binade x < binade y + 1) by (apply pow2_lt_inv; lra).
  lia.
Qed.

(** *** Rounding a positive number *)

Lemma scaled_range (x : Q) :
  (0 < x)%Q →
  (4503599627370496 <= x / 2 ^ (binade x - 52))%Q
  ∧ (x / 2 ^ (binade x - 52) < 9007199254740992)%Q.
Proof.
  intros Hx. destruct (binade_spec x Hx) as [H1 H2].
  pose proof (pow2_pos (binade x - 52)) as HP.
  assert (E1 : (2 ^ binade x == 2 ^ (binade x - 52) * 4503599627370496)%Q).
  { replace (binade x) with (binade x - 52 + 52) at 1 by lia.
    rewrite pow2_add. reflexivity. }
  assert (E2 : (2 ^ (binade x + 1) == 2 ^ (binade x - 52) * 9007199254740992)%Q).
  { replace (binade x + 1) with (binade x - 52 + 53) by lia.
    rewrite pow2_add. reflexivity. }
  split.
  - apply Qle_shift_div_l; [done | lra].
  - apply Qlt_shift_div_r; [done | lra].
Qed.

Lemma round_pos_mantissa (x : Q) :
  (0 < x)%Q →
  4503599627370496 <= rne (x / 2 ^ (binade x - 52)) <= 9007199254740992.
Proof.
  intros Hx. destruct (scaled_range x Hx) as [H1 H2]. split.
  - rewrite <- (rne_Z 4503599627370496). by apply rne_mono.
  - rewrite <- (rne_Z 9007199254740992). apply rne_mono, Qlt_le_weak, H2.
Qed.

Lemma round_pos_positive (x : Q) : (0 < x)%Q → (0 < round_pos x)%Q.
Proof.
  intros Hx. unfold round_pos.
  pose proof (pow2_pos (binade x - 52)) as HP.
  destruct (round_pos_mantissa x Hx) as [Hm _].
  apply inject_Z_le in Hm.
  change (inject_Z 4503599627370496) with 4503599627370496%Q in Hm. nra.
Qed.

Lemma round_pos_error (x : Q) :
  (0 < x)%Q →
  (x * (1 - (1 # 9007199254740992)) <= round_pos x)%Q
  ∧ (round_pos x <= x * (1 + (1 # 9007199254740992)))%Q.
Proof.
  intros Hx. unfold round_pos.
  pose proof (pow2_pos (binade x - 52)) as HP.
  destruct (scaled_range x Hx) as [H1 _].
  destruct (rne_error (x / 2 ^ (binade x - 52))) as [R1 R2].
  assert (Ex : (x == x / 2 ^ (binade x - 52) * 2 ^ (binade x - 52))%Q).
  { field. lra. }
  set (t := (x / 2 ^ (binade x - 52))%Q) in *.
  set (P := (2 ^ (binade x - 52))%Q) in *.
  set (m := inject_Z (rne t)) in *.
  rewrite Ex. split; nra.
Qed.

Lemma round_pos_mono (x y : Q) :
  (0 < x)%Q → (x <= y)%Q → (round_pos x <= round_pos y)%Q.
Proof.
  intros Hx Hxy.
  assert (Hy : (0 < y)%Q) by lra.
  pose proof (binade_mono x y Hx Hxy) as He.
  destruct (round_pos_mantissa x Hx) as [_ Mx].
  destruct (round_pos_mantissa y Hy) as [My _].
  apply inject_Z_le in Mx, My.
  change (inject_Z 9007199254740992) with 9007199254740992%Q in Mx.
  change (inject_Z 4503599627370496) with 4503599627370496%Q in My.
  unfold round_pos.
  destruct (decide (binade x = binade y)) as [E | Hne].
  - rewrite E. pose proof (pow2_pos (binade y - 52)) as HP.
    apply Qmult_le_compat_r; [| lra].
    apply (proj1 (inject_Z_le _ _)), rne_mono.
    apply Qmult_le_compat_r; [done |].
    apply Qlt_le_weak, Qinv_lt_0_compat, HP.
  - pose proof (pow2_pos (binade x - 52)) as HPx.
    pose proof (pow2_pos (binade y - 52)) as HPy.
    assert (Hstep : (2 * 2 ^ (binade x - 52) <= 2 ^ (binade y - 52))%Q).
    { rewrite <- pow2_succ. apply pow2_le. lia. }
    nra.
Qed.

(** A number on the grid of its binade is left as it is. *)
Lemma round_pos_on_grid (x : Q) (k : Z) :
  (x / 2 ^ (binade x - 52) == inject_Z k)%Q → (round_pos x == x)%Q.
Proof.
  intros E. unfold round_pos. rewrite (rne_comp _ _ E), rne_Z, <- E.
  field. pose proof (pow2_pos (binade x - 52)). lra.
Qed.

Lemma round_pos_integer (n : Z) :
  0 < n <= 9007199254740992 → (round_pos (inject_Z n) == inject_Z n)%Q.
Proof.
  intros [Hn Hle].
  destruct (decide (n = 9007199254740992)) as [-> | Hne]; [reflexivity |].
  assert (Hx : (0 < inject_Z n)%Q) by (unfold Qlt; simpl; lia).
  destruct (binade_spec (inject_Z n) Hx) as [B1 _].
  assert (Hb : binade (inject_Z n) < 53).
  { apply pow2_lt_inv. apply Qle_lt_trans with (inject_Z n); [done |].
    change (2 ^ 53)%Q with (inject_Z 9007199254740992).
    apply (proj1 (inject_Z_lt _ _)). lia. }
  apply (round_pos_on_grid _ (n * 2 ^ (52 - binade (inject_Z n)))).
  rewrite inject_Z_mult, pow2_Z by lia.
  replace (52 - binade (inject_Z n)) with (- (binade (inject_Z n) - 52)) by lia.
  rewrite Qpower_opp. reflexivity.
Qed.

(** *** Rounding with the sign *)

Lemma round_cases (x : Q) :
  ((x == 0)%Q ∧ round_nearest_even x = 0%Q)
  ∨ ((0 < x)%Q ∧ round_nearest_even x = round_pos x)
  ∨ ((x < 0)%Q ∧ round_nearest_even x = (- round_pos (- x))%Q).
Proof.
  unfold round_nearest_even. destruct (x ?= 0)%Q eqn:E; order_of_compare.
  - by left.
  - right. by right.
  - right. by left.
Qed.

Lemma round_mono (x y : Q) :
  (x <= y)%Q → (round_nearest_even x <= round_nearest_even y)%Q.
Proof.
  intros Hxy.
  destruct (round_cases x) as [[Hx ->] | [[Hx ->] | [Hx ->]]];
    destruct (round_cases y) as [[Hy ->] | [[Hy ->] | [Hy ->]]];
    try (exfalso; lra).
  - lra.
  - apply Qlt_le_weak, round_pos_positive, Hy.
  - by apply round_pos_mono.
  - assert (H := round_pos_positive (- x)). lra.
  - assert (H := round_pos_positive (- x)).
    assert (H' := round_pos_positive y Hy). lra.
  - assert (H := round_pos_mono (- y) (- x)). lra.
Qed.

Lemma Qopp_opp (x : Q) : (- - x)%Q = x.
Proof. destruct x as [n d]. unfold Qopp. simpl. by rewrite Z.opp_involutive. Qed.

Lemma round_odd (x : Q) :
  (round_nearest_even (- x) == - round_nearest_even x)%Q.
Proof.
  destruct (round_cases x) as [[Hx ->] | [[Hx ->] | [Hx ->]]];
    destruct (round_cases (- x)) as [[Hy ->] | [[Hy ->] | [Hy ->]]];
    try (exfalso; lra).
  - reflexivity.
  - rewrite Qopp_opp. reflexivity.
  - ring.
Qed.

Lemma round_integer (n : Z) :
  - 9007199254740992 <= n <= 9007199254740992 →
  (round_nearest_even (inject_Z n) == inject_Z n)%Q.
Proof.
  intros Hn.
  destruct (round_cases (inject_Z n)) as [[Hx ->] | [[Hx ->] | [Hx ->]]].
  - by symmetry.
  - apply round_pos_integer. apply (proj2 (inject_Z_lt 0 n)) in Hx. lia.
  - apply (proj2 (inject_Z_lt n 0)) in Hx.
    change (- inject_Z n)%Q with (inject_Z (- n)).
    rewrite round_pos_integer by lia.
    rewrite inject_Z_opp. ring.
Qed.

Lemma round_error (x : Q) :
  (least <= x)%Q → (x <= most)%Q →
  (x * (1 - unit_roundoff) <= round_nearest_even x)%Q
  ∧ (round_nearest_even x <= x * (1 + unit_roundoff))%Q.
Proof.
  intros H1 _.
  assert (Hx : (0 < x)%Q) by (unfold least in H1; lra).
  destruct (round_cases x) as [[H ->] | [[H ->] | [H ->]]]; [lra | | lra].
  by apply round_pos_error.
Qed.

(** The rounding of binary64 has the properties the detectors' proofs
    rely on. *)
Definition binary64 : Rounding :=
  {| fl := round_nearest_even;
     fl_mono := round_mono;
     fl_odd := round_odd;
     fl_integer := round_integer;
     fl_error := round_error |}.

End Binary64Facts.



(** ** The detectors that compute with floats *)

Module RoundedExtra.

Import Monitor Advanced AdvancedDetectors AdvancedSamples MoreAdvancedSamples.
Import Binary64 Binary64Facts RoundedDetectors.

(** With exact arithmetic for the rounding, the rounded detectors are
    the ones of [Advanced] and [AdvancedDetectors]. *)
Lemma exact_timing_advance_detector clock buffer metrics :
  _detect_timing_advance_anomalies (R := exact) clock buffer metrics
  = Advanced._detect_timing_advance_anomalies clock buffer metrics.
Proof. reflexivity. Qed.

Lemma exact_rf_detector np_std clock buffer metrics :
  _detect_rf_fingerprint_anomalies (R := exact) np_std clock buffer metrics
  = AdvancedDetectors._detect_rf_fingerprint_anomalies np_std clock buffer metrics.
Proof. reflexivity. Qed.

Section Rounded.

Context {R : Rounding}.

(** *** The rounding *)

Lemma fl_eq (x y : Q) : (x == y)%Q → (fl x == fl y)%Q.
Proof.
  intros E. apply Qle_antisym; apply fl_mono; rewrite E; apply Qle_refl.
Qed.

Lemma fl_zero : (fl 0 == 0)%Q.
Proof. apply (fl_integer 0). lia. Qed.

Lemma fl_nonneg (x : Q) : (0 <= x)%Q → (0 <= fl x)%Q.
Proof. intros H. rewrite <- fl_zero. by apply fl_mono. Qed.


Lemma fl_error_negative (x : Q) :
  (least <= - x)%Q → (- x <= most)%Q →
  (x * (1 + unit_roundoff) <= fl x)%Q ∧ (fl x <= x * (1 - unit_roundoff))%Q.
Proof.
  intros H1 H2. destruct (fl_error (- x) H1 H2) as [E1 E2].
  rewrite (fl_odd x) in E1, E2. split; lra.
Qed.



(** *** Timing advance *)

Lemma total_seconds_micro (delta : Z) :
  (Py.total_seconds delta == inject_Z delta * (1 # 1000000))%Q.
Proof. unfold Py.total_seconds, Qeq, Qmult. simpl. lia. Qed.

(** Twice the bound the detector computes for samples [delta]
    microseconds apart lies within one part in 600 of
    [600 * delta / (554 * 10^6)]. *)
Lemma doubled_bound_later (delta : Z) :
  1 <= delta <= datetime_span →
  ((599 # 554000000) * inject_Z delta
   < fl (max_ta_change_of (fl (Py.total_seconds delta)) * 2))%Q
  ∧ (fl (max_ta_change_of (fl (Py.total_seconds delta)) * 2)
     < (601 # 554000000) * inject_Z delta)%Q.
Proof.
  intros [H1 H2]. unfold max_ta_change_of, datetime_span in *.
  pose proof (total_seconds_micro delta) as Hx.
  assert (Hd1 : (1 <= inject_Z delta)%Q) by (unfold Qle; simpl; lia).
  assert (Hd2 : (inject_Z delta <= 1000000000000000000)%Q)
    by (unfold Qle; simpl; lia).
  set (d := inject_Z delta) in *. set (x0 := Py.total_seconds delta) in *.
  destruct (fl_error x0) as [Ht1 Ht2]; [unfold least; lra | unfold most; lra |].
  set (t := fl x0) in *.
  destruct (fl_error (300 * t)) as [Ha1 Ha2];
    [unfold least, unit_roundoff in *; lra | unfold most, unit_roundoff in *; lra |].
  set (a := fl (300 * t)) in *.
  assert (Hy : (a / 554 == a * (1 # 554))%Q) by (unfold Qdiv; reflexivity).
  set (y := (a / 554)%Q) in *.
  destruct (fl_error y) as [Hm1 Hm2];
    [unfold least, unit_roundoff in *; lra | unfold most, unit_roundoff in *; lra |].
  set (m := fl y) in *.
  destruct (fl_error (m * 2)) as [Hv1 Hv2];
    [unfold least, unit_roundoff in *; lra | unfold most, unit_roundoff in *; lra |].
  unfold unit_roundoff in *. split; lra.
Qed.

Lemma doubled_bound_earlier (delta : Z) :
  - datetime_span <= delta <= -1 →
  (fl (max_ta_change_of (fl (Py.total_seconds delta)) * 2) < 0)%Q.
Proof.
  intros [H1 H2]. unfold max_ta_change_of, datetime_span in *.
  pose proof (total_seconds_micro delta) as Hx.
  assert (Hd1 : (- (1000000000000000000) <= inject_Z delta)%Q)
    by (unfold Qle; simpl; lia).
  assert (Hd2 : (inject_Z delta <= - (1))%Q) by (unfold Qle; simpl; lia).
  set (d := inject_Z delta) in *. set (x0 := Py.total_seconds delta) in *.
  destruct (fl_error_negative x0) as [Ht1 Ht2]; [unfold least; lra | unfold most; lra |].
  set (t := fl x0) in *.
  destruct (fl_error_negative (300 * t)) as [Ha1 Ha2];
    [unfold least, unit_roundoff in *; lra | unfold most, unit_roundoff in *; lra |].
  set (a := fl (300 * t)) in *.
  assert (Hy : (a / 554 == a * (1 # 554))%Q) by (unfold Qdiv; reflexivity).
  set (y := (a / 554)%Q) in *.
  destruct (fl_error_negative y) as [Hm1 Hm2];
    [unfold least, unit_roundoff in *; lra | unfold most, unit_roundoff in *; lra |].
  set (m := fl y) in *.
  destruct (fl_error_negative (m * 2)) as [Hv1 Hv2];
    [unfold least, unit_roundoff in *; lra | unfold most, unit_roundoff in *; lra |].
  unfold unit_roundoff in *. lra.
Qed.

Lemma fl_of_zero (x : Q) : (x == 0)%Q → (fl x == 0)%Q.
Proof. intros E. rewrite <- fl_zero. by apply fl_eq. Qed.

Lemma doubled_bound_same_time :
  (fl (max_ta_change_of (fl (Py.total_seconds 0)) * 2) == 0)%Q.
Proof.
  unfold max_ta_change_of.
  assert (H0 : (fl (Py.total_seconds 0) == 0)%Q) by (by apply fl_of_zero).
  assert (H1 : (fl (300 * fl (Py.total_seconds 0)) == 0)%Q).
  { apply fl_of_zero. rewrite H0. reflexivity. }
  assert (H2 : (fl (fl (300 * fl (Py.total_seconds 0)) / 554) == 0)%Q).
  { apply fl_of_zero. rewrite H1. reflexivity. }
  apply fl_of_zero. rewrite H2. reflexivity.
Qed.

(** The test [ta_change > max_ta_change * 2] for a change [c >= 0]. *)
Lemma change_test_sufficient (delta c : Z) :
  - datetime_span <= delta <= datetime_span → 0 <= c →
  601 * delta < ta_scale * c →
  Py.Qlt_bool (fl (max_ta_change_of (fl (Py.total_seconds delta)) * 2)) (inject_Z c)
  = true.
Proof.
  intros [Hlo Hhi] Hc H. apply AdvancedProofs.Qlt_bool_iff.
  unfold ta_scale in H.
  assert (Hcq : (0 <= inject_Z c)%Q) by (unfold Qle; simpl; lia).
  destruct (Z.lt_trichotomy delta 0) as [Hneg | [-> | Hpos]].
  - pose proof (doubled_bound_earlier delta ltac:(lia)). lra.
  - rewrite doubled_bound_same_time. unfold Qlt. simpl. lia.
  - destruct (doubled_bound_later delta ltac:(lia)) as [_ Hup].
    apply inject_Z_lt in H. rewrite !inject_Z_mult in H.
    change (inject_Z 601) with 601%Q in H.
    change (inject_Z 554000000) with 554000000%Q in H. lra.
Qed.

Lemma change_test_necessary (delta c : Z) :
  - datetime_span <= delta <= datetime_span → 0 <= c →
  Py.Qlt_bool (fl (max_ta_change_of (fl (Py.total_seconds delta)) * 2)) (inject_Z c)
  = true →
  599 * delta < ta_scale * c.
Proof.
  intros [Hlo Hhi] Hc H. apply AdvancedProofs.Qlt_bool_iff in H.
  unfold ta_scale.
  destruct (Z.lt_trichotomy delta 0) as [Hneg | [-> | Hpos]].
  - lia.
  - rewrite doubled_bound_same_time in H. unfold Qlt in H. simpl in H. lia.
  - destruct (doubled_bound_later delta ltac:(lia)) as [Hdown _].
    apply inject_Z_lt. rewrite !inject_Z_mult.
    change (inject_Z 599) with 599%Q.
    change (inject_Z 554000000) with 554000000%Q. lra.
Qed.

(** What the detector returns for a sample with a timing advance, in the
    buffer as the pipeline passes it. *)
Lemma timing_advance_detector_cases clock earlier prev metrics ta :
  timing_advance metrics = Some ta →
  _detect_timing_advance_anomalies clock
    (Py.deque_append 1000 (earlier ++ [prev]) metrics) metrics
  = (if ta =? 0 then [ta_zero_threat clock metrics ta] else [])
    ++ match timing_advance prev with
       | Some prev_ta =>
           let time_diff :=
             fl (Py.total_seconds (timestamp metrics - timestamp prev)) in
           if Py.Qlt_bool (fl (max_ta_change_of time_diff * 2))
                (inject_Z (Z.abs (ta - prev_ta)))
           then [ta_impossible_threat clock metrics (Z.abs (ta - prev_ta))
                   time_diff (max_ta_change_of time_diff) prev_ta ta]
           else []
       | None => []
       end.
Proof.
  intros Hta.
  destruct (AdvancedExtra.buffer_ends_with_previous earlier prev metrics)
    as [kept Hbuf].
  unfold _detect_timing_advance_anomalies, impossible_ta_change.
  by rewrite Hta, Hbuf, PyFacts.penultimate_snoc2.
Qed.

Lemma zero_part_type clock metrics ta :
  ¬ emits "IMPOSSIBLE_TIMING_ADVANCE_CHANGE"
      (if ta =? 0 then [ta_zero_threat clock metrics ta] else []).
Proof.
  rewrite MonitorExtra.emits_if. by intros [_ H].
Qed.

(** [X10] In the pipeline the timing-advance detector compares a sample
    with the one analysed just before it, whatever their timestamps; a
    first sample has nothing to be compared with.  With [delta] the
    microseconds from the previous sample to this one and every float
    operation rounded, IMPOSSIBLE_TIMING_ADVANCE_CHANGE is returned only
    when the previous sample has a timing advance and
    [599 * delta < 554000000 * |ta - previous ta|], and always when
    [601 * delta < 554000000 * |ta - previous ta|]; within one part in
    600 of the bound the rounding decides.  So a sample stamped earlier
    than its predecessor is reported even when the timing advance did not
    move, and one stamped no earlier is never reported for an unchanged
    timing advance.  TIMING_ADVANCE_ZERO is returned exactly when the
    timing advance is 0, whatever the buffer. *)
Theorem impossible_ta_change_up_to_rounding clock earlier prev metrics ta :
  timing_advance metrics = Some ta →
  - datetime_span <= timestamp metrics - timestamp prev <= datetime_span →
  let delta := timestamp metrics - timestamp prev in
  let r := _detect_timing_advance_anomalies clock
             (Py.deque_append 1000 (earlier ++ [prev]) metrics) metrics in
  (emits "IMPOSSIBLE_TIMING_ADVANCE_CHANGE" r →
   ∃ prev_ta, timing_advance prev = Some prev_ta
              ∧ 599 * delta < ta_scale * Z.abs (ta - prev_ta))
  ∧ (∀ prev_ta, timing_advance prev = Some prev_ta →
       601 * delta < ta_scale * Z.abs (ta - prev_ta) →
       emits "IMPOSSIBLE_TIMING_ADVANCE_CHANGE" r)
  ∧ (timing_advance prev = Some ta → delta < 0 →
     emits "IMPOSSIBLE_TIMING_ADVANCE_CHANGE" r)
  ∧ (timing_advance prev = Some ta → 0 <= delta →
     ¬ emits "IMPOSSIBLE_TIMING_ADVANCE_CHANGE" r)
  ∧ (∀ buffer, emits "TIMING_ADVANCE_ZERO"
                 (_detect_timing_advance_anomalies clock buffer metrics)
               ↔ ta = 0)
  ∧ ¬ emits "IMPOSSIBLE_TIMING_ADVANCE_CHANGE"
        (_detect_timing_advance_anomalies clock
           (Py.deque_append 1000 [] metrics) metrics).
Proof.
  intros Hta Hspan delta r.
  assert (Hr := timing_advance_detector_cases clock earlier prev metrics ta Hta).
  fold r in Hr. fold delta in Hr. cbv zeta in Hr.
  assert (Hnec : emits "IMPOSSIBLE_TIMING_ADVANCE_CHANGE" r →
                 ∃ prev_ta, timing_advance prev = Some prev_ta
                   ∧ 599 * delta < ta_scale * Z.abs (ta - prev_ta)).
  { rewrite Hr, AdvancedProofs.emits_app.
    intros [H | H]; [by destruct (zero_part_type clock metrics ta) |].
    destruct (timing_advance prev) as [prev_ta |];
      [| by apply MonitorProofs.emits_nil in H].
    apply MonitorExtra.emits_if in H as [H _].
    exists prev_ta. split; [done |].
    apply change_test_necessary; [done | lia | done]. }
  assert (Hsuf : ∀ prev_ta, timing_advance prev = Some prev_ta →
                   601 * delta < ta_scale * Z.abs (ta - prev_ta) →
                   emits "IMPOSSIBLE_TIMING_ADVANCE_CHANGE" r).
  { intros prev_ta Hp H. rewrite Hr, AdvancedProofs.emits_app, Hp. right.
    apply MonitorExtra.emits_if. split; [| done].
    apply change_test_sufficient; [done | lia | done]. }
  split; [exact Hnec |]. split; [exact Hsuf |]. split; [| split; [| split]].
  - intros Hp Hd. apply (Hsuf ta Hp). unfold ta_scale. lia.
  - intros Hp Hd Hem. destruct (Hnec Hem) as (p & Hp' & H).
    rewrite Hp in Hp'. injection Hp' as <-. unfold ta_scale in H. lia.
  - intros buffer. unfold _detect_timing_advance_anomalies, impossible_ta_change.
    rewrite Hta, AdvancedProofs.emits_app, MonitorExtra.emits_if.
    assert (Hno : ¬ emits "TIMING_ADVANCE_ZERO"
                    match Py.penultimate buffer with
                    | Some prev_metrics =>
                        match timing_advance prev_metrics with
                        | Some prev_ta =>
                            if Py.Qlt_bool
                                 (fl (max_ta_change_of
                                        (fl (Py.total_seconds
                                               (timestamp metrics
                                                - timestamp prev_metrics))) * 2))
                                 (inject_Z (Z.abs (ta - prev_ta)))
                            then [ta_impossible_threat clock metrics
                                    (Z.abs (ta - prev_ta))
                                    (fl (Py.total_seconds
                                           (timestamp metrics
                                            - timestamp prev_metrics)))
                                    (max_ta_change_of
                                       (fl (Py.total_seconds
                                              (timestamp metrics
                                               - timestamp prev_metrics))))
                                    prev_ta ta]
                            else []
                        | None => []
                        end
                    | None => []
                    end).
    { destruct (Py.penultimate buffer) as [pm |]; [| apply MonitorProofs.emits_nil].
      destruct (timing_advance pm) as [pt |]; [| apply MonitorProofs.emits_nil].
      rewrite MonitorExtra.emits_if. by intros [_ H]. }
    rewrite Z.eqb_eq. split.
    + intros [[H _] | H]; [done | by destruct Hno].
    + intros H. left. by split.
  - unfold _detect_timing_advance_anomalies, impossible_ta_change.
    rewrite Hta. simpl. rewrite app_nil_r. apply zero_part_type.
Qed.

(** *** RF fingerprint *)




End Rounded.

(** The theorem at two samples with timing advance 5, the second stamped
    one second before the first. *)
Lemma impossible_ta_change_up_to_rounding_witness :
  emits "IMPOSSIBLE_TIMING_ADVANCE_CHANGE"
    (_detect_timing_advance_anomalies (R := binary64) 0
       (Py.deque_append 1000 ([] ++ [sample_metrics 1000000 (Some 5) None [] None None])
          (sample_metrics 0 (Some 5) None [] None None))
       (sample_metrics 0 (Some 5) None [] None None)).
Proof.
  pose proof (impossible_ta_change_up_to_rounding (R := binary64) 0 []
                (sample_metrics 1000000 (Some 5) None [] None None)
                (sample_metrics 0 (Some 5) None [] None None) 5) as H.
  destruct H as (_ & _ & H & _).
  - reflexivity.
  - split; by vm_compute.
  - apply H; reflexivity.
Defined.


(** *** Where the rounding decides *)

(** Two samples 157.89 s apart whose timing advance differs by 171: the
    exact bound is [2 * 300 * 157.89 / 554 = 171], which 171 does not
    exceed; the bound as the floats give it is [171 - 2^-45], and the
    change is reported. *)
Lemma rounding_decides_timing_advance :
  let prev := sample_metrics 0 (Some 0) None [] None None in
  let metrics := sample_metrics 157890000 (Some 171) None [] None None in
  let buffer := Py.deque_append 1000 [prev] metrics in
  (@fl binary64
     (max_ta_change_of (R := binary64)
        (@fl binary64 (Py.total_seconds 157890000)) * 2)
   == 171 - (1 # 35184372088832))%Q
  ∧ map threat_type
      (_detect_timing_advance_anomalies (R := binary64) 0 buffer metrics)
    = ["IMPOSSIBLE_TIMING_ADVANCE_CHANGE"]
  ∧ _detect_timing_advance_anomalies (R := exact) 0 buffer metrics = [].
Proof. by vm_compute. Qed.

(** RSRP -140.0 and RSRQ -2.8: the float nearest to -2.8 is a little
    above it, so the exact quotient of the two floats is above 50; the
    quotient as the floats give it is 50, and nothing is reported. *)
Lemma rounding_decides_rf_signature :
  let rq := round_nearest_even (- (28 # 10)) in
  let metrics := rf_sample (-140) rq in
  let buffer := replicate 10 metrics in
  (rq == - (6305039478318694 # 2251799813685248))%Q
  ∧ (50 < -140 / rq)%Q
  ∧ (@fl binary64 (-140 / rq) == 50)%Q
  ∧ _detect_rf_fingerprint_anomalies (R := binary64) no_statistics 0 buffer metrics
    = []
  ∧ map threat_type
      (_detect_rf_fingerprint_anomalies (R := exact) no_statistics 0 buffer metrics)
    = ["SUSPICIOUS_RF_SIGNATURE"].
Proof. by vm_compute. Qed.

End RoundedExtra.
(** ** The server over whole runs *)

Module ServerExtra.

Import Server ServerSamples ServerStatistics MoreServerSamples.

(** *** Handlers that return *)

Lemma returns_ret {A : Type} (a : A) : returns (mret a : M A).
Proof. intros s. by exists a, s. Qed.

Lemma returns_bind {A B : Type} (m : M A) (f : A → M B) :
  returns m → (∀ a, returns (f a)) → returns (m ≫= f).
Proof.
  intros Hm Hf s. destruct (Hm s) as (a & s1 & E).
  unfold mbind, M_bind. rewrite E. apply Hf.
Qed.

Lemma returns_modify (f : server → server) : returns (modify f).
Proof. intros s. by exists tt, (f s). Qed.

Lemma returns_try {A : Type} (body : M A) (handler : exn → M A) :
  (∀ e, returns (handler e)) → returns (try_except body handler).
Proof.
  intros Hh s. unfold try_except.
  destruct (body s) as [[a | e] s1]; [by exists a, s1 | apply Hh].
Qed.

Lemma returns_send_error ws text now : returns (send_error ws text now).
Proof. apply returns_modify. Qed.

(** No frame makes the loop body raise. *)
Lemma handle_frame_returns ws dev f now uuid :
  returns (handle_frame ws dev f now uuid).
Proof.
  destruct f as [| | m]; simpl.
  - apply returns_bind; [apply returns_send_error | intros; apply returns_ret].
  - apply returns_bind; [apply returns_send_error | intros; apply returns_ret].
  - apply returns_try. intros e.
    apply returns_bind; [apply returns_send_error | intros; apply returns_ret].
Qed.

Lemma cleanup_returns dev : returns (cleanup dev).
Proof.
  destruct dev as [[| c d] |]; simpl;
    [apply returns_ret | apply returns_modify | apply returns_ret].
Qed.

Lemma handle_client_message_returns ws frames :
  returns (handle_client_message ws frames).
Proof.
  apply returns_bind; [| intros; apply cleanup_returns].
  generalize (None : option string).
  induction frames as [| [[f now] uuid] rest IH]; intros dev; simpl.
  - apply returns_ret.
  - apply returns_bind; [apply handle_frame_returns | intros; apply IH].
Qed.

Lemma serve_returns events locals : returns (serve events locals).
Proof.
  revert locals. induction events as [| [ws f now uuid | ws] rest IH];
    intros locals; simpl.
  - apply returns_ret.
  - apply returns_bind; [apply handle_frame_returns | intros; apply IH].
  - apply returns_bind; [apply cleanup_returns | intros; apply IH].
Qed.

(** *** What every handler keeps *)

Section Keeps.

Variable R : server → server → Prop.
Hypothesis R_refl : ∀ s, R s s.
Hypothesis R_trans : ∀ s1 s2 s3, R s1 s2 → R s2 s3 → R s1 s3.

Lemma keeps_ret {A : Type} (a : A) : keeps R (mret a : M A).
Proof. intros s. apply R_refl. Qed.

Lemma keeps_gets {A : Type} (f : server → A) : keeps R (gets f).
Proof. intros s. apply R_refl. Qed.

Lemma keeps_lift {A : Type} (r : result A) : keeps R (lift r).
Proof. intros s. apply R_refl. Qed.

Lemma keeps_modify (f : server → server) : (∀ s, R s (f s)) → keeps R (modify f).
Proof. intros H s. apply H. Qed.

Lemma keeps_bind {A B : Type} (m : M A) (f : A → M B) :
  keeps R m → (∀ a, keeps R (f a)) → keeps R (m ≫= f).
Proof.
  intros Hm Hf s. specialize (Hm s). unfold exec, mbind, M_bind in *.
  destruct (m s) as [[a | e] s1]; simpl in *; [| done].
  eapply R_trans; [exact Hm | apply Hf].
Qed.

Lemma keeps_try {A : Type} (body : M A) (handler : exn → M A) :
  keeps R body → (∀ e, keeps R (handler e)) → keeps R (try_except body handler).
Proof.
  intros Hb Hh s. specialize (Hb s). unfold exec, try_except in *.
  destruct (body s) as [[a | e] s1]; simpl in *; [done |].
  eapply R_trans; [exact Hb | apply Hh].
Qed.

Lemma keeps_when (c : bool) (body : M unit) : keeps R body → keeps R (when c body).
Proof. intros H. destruct c; [done | apply keeps_ret]. Qed.

Lemma keeps_for_each {A : Type} (l : list A) (body : A → M unit) :
  (∀ x, keeps R (body x)) → keeps R (for_each l body).
Proof.
  intros H. induction l as [| x l IH]; simpl; [apply keeps_ret |].
  apply keeps_bind; [apply H | by intros _].
Qed.

(** The writes of the handlers: a message sent, the device table, a
    session row, an event row, an export, and a threat stored and
    entered in the history. *)
Hypothesis R_sent : ∀ s x, R s (set_sent (fun l => l ++ [x]) s).
Hypothesis R_devices : ∀ s f, R s (set_connected_devices f s).
Hypothesis R_event : ∀ s type dev data, R s (exec (log_monitoring_event type dev data) s).
Hypothesis R_export : ∀ s now, R s (exec (export_threat_data now) s).
Hypothesis R_store : ∀ s threat,
  R s (set_threat_history (fun h => h ++ [threat]) (exec (store_threat threat) s)).

Lemma keeps_send_message ws m : keeps R (send_message ws m).
Proof. apply keeps_modify. intros s. apply R_sent. Qed.

Lemma keeps_send_error ws text now : keeps R (send_error ws text now).
Proof. apply keeps_send_message. Qed.

Lemma keeps_broadcast m : keeps R (broadcast m).
Proof.
  apply keeps_bind; [apply keeps_gets |]. intros devices.
  apply keeps_for_each. intros d. apply keeps_send_message.
Qed.

Lemma keeps_process_threat_alert threat now :
  keeps R (process_threat_alert threat now).
Proof.
  unfold process_threat_alert.
  apply keeps_bind.
  { apply keeps_when. apply keeps_bind; [apply keeps_broadcast |].
    intros _ s. apply R_event. }
  intros _. apply keeps_bind; [apply keeps_gets |]. intros correlate.
  apply keeps_bind.
  { apply keeps_when. unfold analyze_threat_patterns.
    apply keeps_bind; [apply keeps_gets |]. intros history.
    apply keeps_bind; [apply keeps_lift |]. intros [alert |];
      [apply keeps_broadcast | apply keeps_ret]. }
  intros _. apply keeps_bind; [apply keeps_gets |]. intros auto_export.
  apply keeps_when. intros s. apply R_export.
Qed.

Lemma keeps_handle_cellular_threat dev data now uuid :
  keeps R (handle_cellular_threat dev data now uuid).
Proof.
  apply keeps_try; [| intros e; apply keeps_ret].
  apply keeps_bind; [apply keeps_lift |]. intros threat.
  assert (Hrest : keeps R (touch_device dev now ;;
                           process_threat_alert threat now ;;
                           acknowledge dev threat now)).
  { apply keeps_bind; [apply keeps_modify; intros s; apply R_devices |].
    intros _. apply keeps_bind; [apply keeps_process_threat_alert |].
    intros _. unfold acknowledge.
    apply keeps_bind; [apply keeps_gets |]. intros devices.
    destruct (Py.dict_get devices dev); [apply keeps_send_message | apply keeps_ret]. }
  intros s. eapply R_trans; [apply (R_store s threat) |]. apply Hrest.
Qed.

(** Every frame but a [register_device] one. *)
Lemma keeps_handle_frame_other ws dev f now uuid :
  (∀ data, f ≠ Object (register_device_msg data)) →
  keeps R (handle_frame ws dev f now uuid).
Proof.
  intros Hf. destruct f as [| | m]; simpl.
  - apply keeps_bind; [apply keeps_send_error | intros; apply keeps_ret].
  - apply keeps_bind; [apply keeps_send_error | intros; apply keeps_ret].
  - apply keeps_try;
      [| intros e; apply keeps_bind; [apply keeps_send_error | intros; apply keeps_ret]].
    destruct m as [data | data | | | ty].
    + by destruct (Hf data).
    + destruct dev as [[| c d] |];
        (apply keeps_bind; [| intros; apply keeps_ret]);
        [apply keeps_send_error | apply keeps_handle_cellular_threat
        | apply keeps_send_error].
    + apply keeps_bind; [| intros; apply keeps_ret].
      unfold heartbeat. destruct dev as [[| c d] |]; try apply keeps_ret.
      apply keeps_bind; [apply keeps_gets |]. intros devices.
      destruct (Py.dict_get devices _); [| apply keeps_ret].
      apply keeps_bind; [apply keeps_modify; intros s; apply R_devices |].
      intros _. apply keeps_send_message.
    + apply keeps_bind; [| intros; apply keeps_ret].
      unfold get_status. apply keeps_bind; [apply keeps_gets |]. intros s0.
      apply keeps_bind; [apply keeps_lift |]. intros today.
      apply keeps_send_message.
    + apply keeps_bind; [apply keeps_send_error | intros; apply keeps_ret].
Qed.

Lemma keeps_cleanup dev : keeps R (cleanup dev).
Proof.
  destruct dev as [[| c d] |]; simpl; try apply keeps_ret.
  apply keeps_modify. intros s. apply R_devices.
Qed.

(** With the session row as well, every frame and every run. *)
Hypothesis R_session : ∀ s dev name, R s (exec (update_device_session dev name) s).

Lemma keeps_register_device ws data now : keeps R (register_device ws data now).
Proof.
  unfold register_device.
  apply keeps_bind; [apply keeps_gets |]. intros ok.
  destruct (negb ok).
  { apply keeps_bind; [apply keeps_send_error | intros; apply keeps_ret]. }
  destruct (reg_device_id data) as [[| c d] |].
  1,3: apply keeps_bind; [apply keeps_send_error | intros; apply keeps_ret].
  apply keeps_bind; [apply keeps_modify; intros s; apply R_devices |]. intros _.
  apply keeps_bind; [intros s; apply R_session |]. intros _.
  apply keeps_bind; [apply keeps_send_message | intros; apply keeps_ret].
Qed.

Lemma keeps_handle_frame ws dev f now uuid :
  keeps R (handle_frame ws dev f now uuid).
Proof.
  destruct f as [| | [data | data | | | ty]];
    try (apply keeps_handle_frame_other; intros; discriminate).
  simpl. apply keeps_try;
    [| intros e; apply keeps_bind; [apply keeps_send_error | intros; apply keeps_ret]].
  apply keeps_bind; [apply keeps_register_device | intros; apply keeps_ret].
Qed.

Lemma keeps_handle_client_message ws frames :
  keeps R (handle_client_message ws frames).
Proof.
  apply keeps_bind; [| intros; apply keeps_cleanup].
  generalize (None : option string).
  induction frames as [| [[f now] uuid] rest IH]; intros dev; simpl.
  - apply keeps_ret.
  - apply keeps_bind; [apply keeps_handle_frame | intros; apply IH].
Qed.

Lemma keeps_serve events locals : keeps R (serve events locals).
Proof.
  revert locals. induction events as [| [ws f now uuid | ws] rest IH];
    intros locals; simpl.
  - apply keeps_ret.
  - apply keeps_bind; [apply keeps_handle_frame | intros; apply IH].
  - apply keeps_bind; [apply keeps_cleanup | intros; apply IH].
Qed.

End Keeps.

(** *** Runs never raise, and only add *)

Lemma grown_refl s : grown s s.
Proof. by repeat split. Qed.

Lemma grown_trans s1 s2 s3 : grown s1 s2 → grown s2 s3 → grown s1 s3.
Proof.
  intros (Hk & Hr & Hs & Hh) (Hk' & Hr' & Hs' & Hh').
  repeat split; try congruence; by etrans.
Qed.

Lemma keeps_grown_serve events locals : keeps grown (serve events locals).
Proof.
  apply (keeps_serve grown grown_refl grown_trans);
    intros; repeat split; try done; simpl; by apply prefix_app_r.
Qed.

Lemma keeps_grown_connection ws frames : keeps grown (handle_client_message ws frames).
Proof.
  apply (keeps_handle_client_message grown grown_refl grown_trans);
    intros; repeat split; try done; simpl; by apply prefix_app_r.
Qed.

(** [X17] Whatever the clients send, in whatever order, handling it
    returns: no frame makes a handler end a connection by an exception,
    or the run of the other connections.  Along the way the key set and
    the monitoring rules never change, and the trace of messages sent and
    the threat history are only extended: nothing received removes a
    threat from the history. *)
Theorem runs_return_and_only_add events locals ws frames s :
  (∃ locals' s', serve events locals s = (Ok locals', s') ∧ grown s s')
  ∧ (∃ s', handle_client_message ws frames s = (Ok tt, s') ∧ grown s s').
Proof.
  split.
  - destruct (serve_returns events locals s) as (l & s' & E).
    exists l, s'. split; [done |].
    pose proof (keeps_grown_serve events locals s) as H.
    unfold exec in H. by rewrite E in H.
  - destruct (handle_client_message_returns ws frames s) as ([] & s' & E).
    exists s'. split; [done |].
    pose proof (keeps_grown_connection ws frames s) as H.
    unfold exec in H. by rewrite E in H.
Qed.

(** *** The table of threats *)

Lemma NoDup_map_filter {A B : Type} (f : A → B) (P : A → Prop)
    `{!∀ x, Decision (P x)} (l : list A) :
  NoDup (map f l) → NoDup (map f (filter P l)).
Proof.
  induction l as [| a l IH]; [done |].
  simpl. intros [Ha Hl]%NoDup_cons. rewrite filter_cons.
  destruct (decide (P a)); [| by apply IH].
  simpl. apply NoDup_cons. split; [| by apply IH].
  intros (x & E & Hx%list_elem_of_filter)%list_elem_of_fmap.
  apply Ha. apply list_elem_of_fmap. exists x. by destruct Hx.
Qed.

(** What [store_threat] does to the table depends on the table only. *)
Lemma store_threat_table threat s :
  ∃ row, row_threat_id row = threat_id threat
    ∧ row_id row = cellular_threats_seq (db s) + 1
    ∧ cellular_threats (db (exec (store_threat threat) s))
      = filter (fun r => row_threat_id r ≠ threat_id threat) (cellular_threats (db s))
        ++ [row]
    ∧ cellular_threats_seq (db (exec (store_threat threat) s))
      = cellular_threats_seq (db s) + 1.
Proof. eexists. repeat split; reflexivity. Qed.

Lemma store_threat_congruence threat s1 s2 :
  cellular_threats (db s1) = cellular_threats (db s2) →
  cellular_threats_seq (db s1) = cellular_threats_seq (db s2) →
  cellular_threats (db (exec (store_threat threat) s1))
  = cellular_threats (db (exec (store_threat threat) s2))
  ∧ cellular_threats_seq (db (exec (store_threat threat) s1))
    = cellular_threats_seq (db (exec (store_threat threat) s2)).
Proof.
  intros Hr Hs. unfold exec, store_threat, modify, set_db. simpl.
  by rewrite Hr, Hs.
Qed.

Lemma replay_snoc history threat :
  ∃ s, replay history = db s
    ∧ replay (history ++ [threat]) = db (exec (store_threat threat) s).
Proof.
  unfold replay. rewrite fold_left_app. simpl. by eexists.
Qed.

Lemma replay_facts history :
  cellular_threats_seq (replay history) = Z.of_nat (length history)
  ∧ NoDup (map row_threat_id (cellular_threats (replay history)))
  ∧ (∀ tid, tid ∈ map row_threat_id (cellular_threats (replay history))
            ↔ tid ∈ map threat_id history)
  ∧ (length (cellular_threats (replay history)) <= length history)%nat
  ∧ (∀ r, r ∈ cellular_threats (replay history) →
          0 < row_id r <= Z.of_nat (length history)).
Proof.
  induction history as [| threat history IH] using rev_ind.
  { split; [done |]. split; [apply NoDup_nil_2 |]. split; [done |].
    split; [done |]. intros r Hr. by apply elem_of_nil in Hr. }
  destruct IH as (Hseq & Hnd & Hids & Hlen & Hrow).
  destruct (replay_snoc history threat) as (s & Hs & ->).
  rewrite Hs in *.
  destruct (store_threat_table threat s) as (row & Htid & Hid & -> & ->).
  rewrite length_app. simpl. split; [lia |]. split; [| split; [| split]].
  - rewrite map_app. apply NoDup_app. split; [by apply NoDup_map_filter |].
    split; [| apply NoDup_singleton].
    intros tid (r & -> & [Hne _]%list_elem_of_filter)%list_elem_of_fmap.
    simpl. rewrite list_elem_of_singleton. congruence.
  - intros tid. rewrite !map_app, !elem_of_app. simpl.
    rewrite !list_elem_of_singleton, <- Hids, Htid.
    destruct (decide (tid = threat_id threat)) as [-> | Hne].
    + split; intros _; by right.
    + split.
      * intros [(r & -> & [_ Hr]%list_elem_of_filter)%list_elem_of_fmap | ?]; [| done].
        left. apply list_elem_of_fmap. by exists r.
      * intros [(r & -> & Hr)%list_elem_of_fmap | ?]; [| done].
        left. apply list_elem_of_fmap. exists r. split; [done |].
        apply list_elem_of_filter. done.
  - rewrite length_app. simpl.
    pose proof (length_filter (fun r => row_threat_id r ≠ threat_id threat)
                  (cellular_threats (db s))). lia.
  - intros r [[_ Hr]%list_elem_of_filter | ->%list_elem_of_singleton]%elem_of_app.
    + specialize (Hrow r Hr). lia.
    + lia.
Qed.

Lemma stored_as_replayed_step threat s :
  stored_as_replayed s →
  stored_as_replayed
    (set_threat_history (fun h => h ++ [threat]) (exec (store_threat threat) s)).
Proof.
  intros [Hr Hs]. unfold stored_as_replayed.
  change (threat_history (set_threat_history (fun h => h ++ [threat])
                            (exec (store_threat threat) s)))
    with (threat_history s ++ [threat]).
  change (db (set_threat_history (fun h => h ++ [threat])
                (exec (store_threat threat) s)))
    with (db (exec (store_threat threat) s)).
  destruct (replay_snoc (threat_history s) threat) as (s0 & Hs0 & ->).
  apply store_threat_congruence; by rewrite <- Hs0.
Qed.

Lemma keeps_stored_as_replayed events locals :
  keeps (fun s s' => stored_as_replayed s → stored_as_replayed s')
    (serve events locals).
Proof.
  apply keeps_serve; try done.
  - intros s1 s2 s3 H12 H23 H. auto.
  - intros s threat. apply stored_as_replayed_step.
Qed.

(** [X18] Over any run that starts with the table and the history in
    step (as in a fresh server), the table [cellular_threats] is what
    storing the threats of the history one after the other gives.  So its
    threat ids are those of the history, each under one row however often
    it was submitted; the AUTOINCREMENT counter is the number of threats
    received, and every row id lies between 1 and that number. *)
Theorem threat_table_follows_history events locals s :
  stored_as_replayed s →
  let s' := exec (serve events locals) s in
  stored_as_replayed s'
  ∧ NoDup (map row_threat_id (cellular_threats (db s')))
  ∧ (∀ tid, tid ∈ map row_threat_id (cellular_threats (db s'))
            ↔ tid ∈ map threat_id (threat_history s'))
  ∧ cellular_threats_seq (db s') = Z.of_nat (length (threat_history s'))
  ∧ (length (cellular_threats (db s')) <= length (threat_history s'))%nat
  ∧ (∀ r, r ∈ cellular_threats (db s') →
          0 < row_id r <= Z.of_nat (length (threat_history s'))).
Proof.
  intros H s'.
  assert (H' : stored_as_replayed s') by (by apply keeps_stored_as_replayed).
  split; [done |]. destruct H' as [-> ->].
  destruct (replay_facts (threat_history s')) as (? & ? & ? & ? & ?). done.
Qed.

(** The theorem at a fresh server and the run of [trio_then_repeat]. *)
Lemma threat_table_follows_history_witness :
  NoDup (map row_threat_id
           (cellular_threats (db (exec (serve trio_then_repeat ∅) (init keys))))).
Proof.
  apply (threat_table_follows_history trio_then_repeat ∅ (init keys)).
  split; reflexivity.
Defined.

(** *** The session rows *)









(** *** Where the acknowledgement goes *)



Lemma handle_cellular_threat_returns dev data now uuid s :
  handle_cellular_threat dev data now uuid s
  = (Ok tt, exec (handle_cellular_threat dev data now uuid) s).
Proof.
  assert (Hr : returns (handle_cellular_threat dev data now uuid)).
  { unfold handle_cellular_threat. apply returns_try. intros e. apply returns_ret. }
  destruct (Hr s) as ([] & s' & E). unfold exec. by rewrite E.
Qed.

Lemma handle_frame_threat ws dev data now uuid s :
  dev ≠ "" →
  handle_frame ws (Some dev) (Object (cellular_threat_msg data)) now uuid s
  = (Ok (Some dev), exec (handle_cellular_threat dev data now uuid) s).
Proof.
  intros Hdev. destruct dev as [| c d]; [done |].
  unfold handle_frame, try_except, mbind, M_bind.
  by rewrite handle_cellular_threat_returns.
Qed.




(** *** A connection that closes *)





(** *** Frames that get no reply *)

(** [X22] A threat frame whose timestamp is not ISO-8601 text, on a
    connection that has registered, is dropped without a trace: nothing is
    stored, the history and the device table are as before, and the client
    is sent neither an acknowledgement nor an error.  Before registration
    a threat frame is answered by the error "Device not registered" and
    changes nothing else, and a heartbeat gets no reply at all. *)
Theorem malformed_timestamp_dropped_silently ws dev data text now uuid s :
  dev ≠ "" →
  msg_timestamp data = Some (NotIso text) →
  handle_frame ws (Some dev) (Object (cellular_threat_msg data)) now uuid s
  = (Ok (Some dev), s)
  ∧ handle_frame ws None (Object (cellular_threat_msg data)) now uuid s
    = (Ok None,
       set_sent (fun l => l ++ [(ws, error "Device not registered" now)]) s)
  ∧ handle_frame ws None (Object heartbeat_msg) now uuid s = (Ok None, s).
Proof.
  intros Hdev Hts. split; [| done].
  rewrite (handle_frame_threat ws dev data now uuid s Hdev).
  unfold exec, handle_cellular_threat, try_except, mbind, M_bind, lift, parse_threat.
  by rewrite Hts.
Qed.

(** The theorem at a timestamp that is no date. *)
Lemma malformed_timestamp_dropped_silently_witness :
  handle_frame 1 (Some "A")
    (Object (cellular_threat_msg
               (threat "T1" "IMSI_CATCHER_SUSPECTED" "high" (Some (NotIso "yesterday")))))
    (second 10) "u" reregistered
  = (Ok (Some "A"), reregistered).
Proof.
  apply (malformed_timestamp_dropped_silently 1 "A"
           (threat "T1" "IMSI_CATCHER_SUSPECTED" "high" (Some (NotIso "yesterday")))
           "yesterday" (second 10) "u" reregistered).
  - discriminate.
  - reflexivity.
Defined.

(** *** A timestamp with a UTC offset in the history *)




(** *** High-priority alerts *)

Lemma high_alerts_app ws l1 l2 :
  high_alerts ws (l1 ++ l2) = high_alerts ws l1 ++ high_alerts ws l2.
Proof. unfold high_alerts. apply omap_app. Qed.

Lemma high_alerts_deliveries ws devices threat level text now :
  high_alerts ws (deliveries devices (high_priority_alert threat level text now))
  = map (fun _ => threat) (filter (fun d => websocket (snd d) = ws) devices).
Proof.
  induction devices as [| d l IH]; [done |].
  rewrite filter_cons.
  change (deliveries (d :: l) (high_priority_alert threat level text now))
    with ([(websocket (snd d), high_priority_alert threat level text now)]
          ++ deliveries l (high_priority_alert threat level text now)).
  rewrite high_alerts_app, IH. unfold high_alerts at 1. simpl.
  by destruct (decide (websocket (snd d) = ws)).
Qed.

Lemma high_alerts_deliveries_other ws devices m :
  (∀ threat level text now, m ≠ high_priority_alert threat level text now) →
  high_alerts ws (deliveries devices m) = [].
Proof.
  intros Hm. induction devices as [| d l IH]; [done |].
  change (deliveries (d :: l) m) with ([(websocket (snd d), m)] ++ deliveries l m).
  rewrite high_alerts_app, IH. unfold high_alerts. simpl.
  destruct m as [? ? ? | ? ? | ? | ? ? ? ? | t lv tx n | ? ? ? ? ? ? | ? ?];
    try done.
  by destruct (Hm t lv tx n).
Qed.

Lemma coordination_alert_kind threat now history m :
  coordination_alert threat now history = Ok (Some m) →
  ∀ t level text ts, m ≠ high_priority_alert t level text ts.
Proof.
  unfold coordination_alert. destruct (recent _ _ _ _) as [r | e]; [| done].
  case_decide; [| done]. intros [= <-]. done.
Qed.

Lemma exec_bind_ok {A B : Type} (m : M A) (f : A → M B) s a s1 :
  m s = (Ok a, s1) → exec (m ≫= f) s = exec (f a) s1.
Proof. intros E. unfold exec, mbind, M_bind. by rewrite E. Qed.

(** After the alert, nothing [process_threat_alert] does sends a
    high-priority alert or logs an event. *)
Lemma rest_of_process_threat_alert threat now s :
  let s' :=
    exec (correlate ← gets (fun s => rule s "threat_correlation" true);
          when correlate (analyze_threat_patterns threat now) ;;
          auto_export ← gets (fun s => rule s "auto_export" false);
          when auto_export (export_threat_data now)) s in
  (∀ w, high_alerts w (sent s') = high_alerts w (sent s))
  ∧ monitoring_events (db s') = monitoring_events (db s).
Proof.
  unfold exec, mbind, M_bind, gets.
  assert (Ha : ∃ r s1, when (rule s "threat_correlation" true)
                         (analyze_threat_patterns threat now) s = (r, s1)
                 ∧ (∀ w, high_alerts w (sent s1) = high_alerts w (sent s))
                 ∧ monitoring_events (db s1) = monitoring_events (db s)).
  { destruct (rule s "threat_correlation" true); simpl; [| by eexists _, _].
    unfold analyze_threat_patterns, mbind, M_bind, gets, lift.
    destruct (coordination_alert threat now (threat_history s)) as [[m |] | e] eqn:E;
      [| by eexists _, _ | by eexists _, _].
    rewrite ServerProofs.broadcast_sends. eexists _, _. split; [done |].
    split; [| done]. intros w. simpl.
    rewrite high_alerts_app, high_alerts_deliveries_other, app_nil_r; [done |].
    by apply (coordination_alert_kind threat now (threat_history s)). }
  destruct Ha as (r & s1 & -> & Hs1 & He1).
  destruct r as [[] | e]; [| done].
  destruct (rule s1 "auto_export" false); simpl; done.
Qed.

(** [X24] Whether a high-priority alert goes out depends on the severity
    of the threat alone: no monitoring rule is looked at, so the rule
    [high_severity_immediate] has no effect.  When the severity in lower
    case is high or critical, every entry of the device table is sent one
    [high_priority_alert] carrying the threat and one row is added to the
    event log; otherwise no such alert is sent and no row is added,
    whatever the correlation and export steps then do. *)
Theorem high_priority_alert_ignores_rules threat now s :
  let s' := exec (process_threat_alert threat now) s in
  (∀ w, high_alerts w (sent s')
        = high_alerts w (sent s)
          ++ (if urgent threat
              then map (fun _ => threat)
                     (filter (fun d => websocket (snd d) = w) (connected_devices s))
              else []))
  ∧ length (monitoring_events (db s'))
    = (length (monitoring_events (db s)) + (if urgent threat then 1 else 0))%nat.
Proof.
  intros s'. subst s'. unfold process_threat_alert.
  fold (urgent threat).
  assert (Hfirst : ∃ s1, when (urgent threat) (send_high_priority_alert threat now) s
                         = (Ok tt, s1)
     ∧ (∀ w, high_alerts w (sent s1)
             = high_alerts w (sent s)
               ++ (if urgent threat
                   then map (fun _ => threat)
                          (filter (fun d => websocket (snd d) = w) (connected_devices s))
                   else []))
     ∧ length (monitoring_events (db s1))
       = (length (monitoring_events (db s)) + (if urgent threat then 1 else 0))%nat).
  { destruct (urgent threat); simpl.
    - unfold send_high_priority_alert, mbind, M_bind.
      rewrite ServerProofs.broadcast_sends. eexists. split; [reflexivity |]. split.
      + intros w. simpl. by rewrite high_alerts_app, high_alerts_deliveries.
      + simpl. rewrite length_app. simpl. lia.
    - exists s. split; [done |]. split; [intros w; by rewrite app_nil_r | lia]. }
  destruct Hfirst as (s1 & E1 & Hs1 & He1).
  pose proof (rest_of_process_threat_alert threat now s1) as [Hs2 He2].
  rewrite (exec_bind_ok _ _ s tt s1 E1).
  split.
  - intros w. by rewrite Hs2, Hs1.
  - by rewrite He2, He1.
Qed.

(** *** Entries that outlive their connection *)





(** *** Statistics *)

Lemma length_filter_mono {A : Type} (P Q : A → Prop)
    `{!∀ x, Decision (P x)} `{!∀ x, Decision (Q x)} (l : list A) :
  (∀ x, P x → Q x) → (length (filter P l) <= length (filter Q l))%nat.
Proof.
  intros HPQ. induction l as [| a l IH]; [done |].
  rewrite !filter_cons.
  destruct (decide (P a)) as [Hp | Hp], (decide (Q a)) as [Hq | Hq]; simpl; try lia.
  by destruct (Hq (HPQ a Hp)).
Qed.

Lemma recent_count_mono now window1 window2 history :
  window1 <= window2 →
  Forall naive history →
  ∃ r1 r2, recent now window1 (fun _ => true) history = Ok r1
    ∧ recent now window2 (fun _ => true) history = Ok r2
    ∧ (length r1 <= length r2 <= length history)%nat.
Proof.
  intros Hw Hn. rewrite !(ServerProofs.recent_naive _ _ _ _ Hn).
  eexists _, _. split; [reflexivity |]. split; [reflexivity |]. split.
  - apply length_filter_mono. intros t.
    rewrite !andb_true_r. unfold is_recent. rewrite !Z.ltb_lt. lia.
  - apply length_filter.
Qed.

Lemma count_types_from (history : list RemoteCellularThreat)
    (d : list (string * Z)) (ty : string) :
  default 0
    (Py.dict_get
       (fold_left
          (fun threat_types threat =>
             Py.od_set threat_types (threat_type threat)
               (default 0 (Py.dict_get threat_types (threat_type threat)) + 1))
          history d) ty)
  = default 0 (Py.dict_get d ty)
    + Z.of_nat (length (filter (fun t => threat_type t = ty) history)).
Proof.
  revert d. induction history as [| t l IH]; intros d; simpl; [lia |].
  rewrite IH, filter_cons.
  destruct (decide (threat_type t = ty)) as [<- | Hne].
  - rewrite PyFacts.dict_get_od_set_eq. simpl length. simpl default. lia.
  - by rewrite PyFacts.dict_get_od_set_ne.
Qed.

(** [X26] While every timestamp in the history is naive,
    [get_statistics] returns counts that are ordered, threats of the last
    hour <= of the last day <= of the last seven days <= all, and the
    count it gives a threat type is the number of threats of that type in
    the history (a type that is not listed has none).  With a timestamp
    that carries a UTC offset anywhere in the history it raises
    [TypeError] and returns nothing. *)
Theorem statistics_counts now s :
  (Forall naive (threat_history s) →
   ∃ st, get_statistics now s = Ok st
     ∧ (threats_1h st <= threats_24h st)%nat
     ∧ (threats_24h st <= threats_7d st)%nat
     ∧ (threats_7d st <= stat_total_threats st)%nat
     ∧ stat_total_threats st = length (threat_history s)
     ∧ ∀ ty, default 0 (Py.dict_get (threat_types st) ty)
             = Z.of_nat (length (filter (fun t => threat_type t = ty)
                                   (threat_history s))))
  ∧ (∀ t, t ∈ threat_history s → ¬ naive t →
          get_statistics now s = Raise TypeError).
Proof.
  split.
  - intros Hn. unfold get_statistics.
    destruct (recent_count_mono now (timedelta_hours 1) (timedelta_days 1)
                (threat_history s) ltac:(by vm_compute) Hn)
      as (r1 & r2 & -> & E2 & H12 & _).
    destruct (recent_count_mono now (timedelta_days 1) (timedelta_days 7)
                (threat_history s) ltac:(by vm_compute) Hn)
      as (r2' & r3 & E2' & -> & H23 & H3).
    rewrite E2 in *. injection E2' as <-.
    eexists. split; [reflexivity |]. simpl.
    repeat (split; [done |]).
    intros ty. unfold count_types. rewrite count_types_from. simpl. lia.
  - intros t Ht Hna. unfold get_statistics.
    by rewrite (ServerProofs.recent_aware_raises _ _ _ _ t Ht Hna).
Qed.

(** The theorem at the server that has received four IMSI-catcher
    threats. *)
Lemma statistics_counts_witness :
  ∃ st, get_statistics (second 50) after_trio_then_repeat = Ok st
    ∧ (threats_1h st <= threats_24h st)%nat
    ∧ (threats_24h st <= threats_7d st)%nat
    ∧ (threats_7d st <= stat_total_threats st)%nat
    ∧ stat_total_threats st = length (threat_history after_trio_then_repeat)
    ∧ ∀ ty, default 0 (Py.dict_get (threat_types st) ty)
            = Z.of_nat (length (filter (fun t => threat_type t = ty)
                                  (threat_history after_trio_then_repeat))).
Proof.
  apply (statistics_counts (second 50) after_trio_then_repeat).
  vm_compute. repeat constructor; by eexists.
Defined.

End ServerExtra.
